(** * Leaf disease detector: response normalisation, request encoding and
      the demo wrappers

    A shallow embedding of
      - [Leaf Disease/main.py]: [DiseaseAnalysisResult], the key check
        of [LeafDiseaseDetector.__init__],
        [LeafDiseaseDetector.analyze_leaf_image_base64] and
        [LeafDiseaseDetector._parse_response];
      - [main.py]: [add_mock_pest_data];
      - [utils.py]: [test_with_base64_data] with its keyword rule and
        [convert_image_to_base64_and_test].

    The reply of the service is a text over the 8-bit alphabet: one
    [ascii] per character, code points 0..255.  A [str] value inside the
    program can hold any character, since a reply can name one by an
    escape.  Exceptions are
    values of [py_error]; a computation that may raise returns a
    [result].  What depends on the interpreter (its limit on the digits
    of an [int], its recursion limit, its Unicode database) is read
    from an [interpreter]. *)

From Stdlib Require Import String Ascii List ZArith NArith Bool Lia.
Import ListNotations.

Local Open Scope string_scope.
Local Open Scope char_scope.
Local Open Scope bool_scope.

(** ** Python [str] operations *)

Module PyStr.

Definition nl : ascii := "010".
Definition dquote : ascii := "034".
Definition tab : ascii := "009".
Definition cr : ascii := "013".

Definition code (c : ascii) : N := N_of_ascii c.

Definition in_range (lo hi : N) (c : ascii) : bool :=
  (lo <=? code c)%N && (code c <=? hi)%N.

(** [str.isspace] on one character below U+0100:
    TAB..CR, FS..US, SPACE, NEL and NBSP. *)
Definition isspace (c : ascii) : bool :=
  in_range 9 13 c || in_range 28 32 c
  || (code c =? 133)%N || (code c =? 160)%N.

Fixpoint lstrip (s : string) : string :=
  match s with
  | String c r => if isspace c then lstrip r else s
  | EmptyString => EmptyString
  end.

Fixpoint rstrip (s : string) : string :=
  match s with
  | String c r =>
      match rstrip r with
      | EmptyString => if isspace c then EmptyString else String c EmptyString
      | r' => String c r'
      end
  | EmptyString => EmptyString
  end.

(** [s.strip()] *)
Definition strip (s : string) : string := lstrip (rstrip s).

(** [s.startswith(p)] *)
Fixpoint startswith (p s : string) : bool :=
  match p, s with
  | EmptyString, _ => true
  | String a p', String b s' => (a =? b) && startswith p' s'
  | String _ _, EmptyString => false
  end.

(** [p in s] *)
Fixpoint contains (p s : string) : bool :=
  startswith p s ||
  match s with
  | String _ r => contains p r
  | EmptyString => false
  end.

(** [s.replace(old, new)] for a non-empty [old]: the occurrences of
    [old] are found from the left and do not overlap.  [skip] counts
    the characters of a matched occurrence that are still to be
    dropped. *)
Fixpoint replace_from (old new : string) (skip : nat) (s : string) : string :=
  match s with
  | EmptyString => EmptyString
  | String c r =>
      match skip with
      | S k => replace_from old new k r
      | O =>
          if startswith old s
          then new ++ replace_from old new (String.length old - 1) r
          else String c (replace_from old new 0 r)
      end
  end.

Definition replace (old new s : string) : string :=
  match old with
  | EmptyString => s
  | _ => replace_from old new 0 s
  end.

(** [s[:n]] *)
Fixpoint take (n : nat) (s : string) : string :=
  match n, s with
  | S k, String c r => String c (take k r)
  | _, _ => EmptyString
  end.

Definition lower_char (c : ascii) : ascii :=
  if in_range 65 90 c then ascii_of_N (code c + 32) else c.

(** [s.lower()] on ASCII text *)
Fixpoint lower (s : string) : string :=
  match s with
  | String c r => String (lower_char c) (lower r)
  | EmptyString => EmptyString
  end.

(** [c not in s] for one character *)
Fixpoint lacks (c : ascii) (s : string) : bool :=
  match s with
  | String a r => negb (a =? c) && lacks c r
  | EmptyString => true
  end.

(** [s.split(sep, 1)] for a one-character separator: one or two pieces. *)
Fixpoint split1 (sep : ascii) (s : string) : list string :=
  match s with
  | EmptyString => [EmptyString]
  | String c r =>
      if c =? sep then [EmptyString; r]
      else match split1 sep r with
           | h :: t => String c h :: t
           | [] => [String c EmptyString]
           end
  end.

(** [re.search(r'\{.*\}', s, re.DOTALL)]: the leftmost match starts at
    the first opening brace and, [.*] being greedy and matching line
    breaks too, ends at the last closing brace after it. *)
Fixpoint from_first (c : ascii) (s : string) : option string :=
  match s with
  | EmptyString => None
  | String a r => if a =? c then Some s else from_first c r
  end.

Fixpoint upto_last (c : ascii) (s : string) : option string :=
  match s with
  | EmptyString => None
  | String a r =>
      match upto_last c r with
      | Some p => Some (String a p)
      | None => if a =? c then Some (String a EmptyString) else None
      end
  end.

Definition search_braces (s : string) : option string :=
  match from_first "{" s with
  | Some (String a r) =>
      match upto_last "}" r with
      | Some p => Some (String a p)
      | None => None
      end
  | _ => None
  end.

End PyStr.

(** ** Python values *)

(** A [float] is kept as the decimal it was converted from: [FDec neg m e]
    stands for the double nearest to (-1)^neg * m * 10^e.  Equal
    representations denote equal doubles. *)
Inductive pyfloat : Type :=
| FDec (neg : bool) (m : N) (e : Z)
| FInf (neg : bool)
| FNan.

(** A [str] value.  [Latin s] is a text over the 8-bit alphabet, one
    [ascii] per character.  Decoding an escape of a JSON text can give a
    character beyond U+00FF; a text with such a character is [Wide t],
    the list of its code points (a surrogate that the text leaves
    unpaired is a code point of its own, as it is in Python).  [Wide]
    is used for no text that [Latin] can hold. *)
Inductive pystr : Type :=
| Latin (s : string)
| Wide (t : list N).

Coercion Latin : string >-> pystr.
Bind Scope string_scope with pystr.

(** The expected type reaches the components of a pair and the elements
    of a list first, so that a text literal can stand for a [str] value
    there. *)
#[local] Arguments pair {A B} & a b.
#[local] Arguments cons {A} & a l.

Module Text.

Definition codes_of (s : string) : list N :=
  map PyStr.code (list_ascii_of_string s).

(** The code points of a text. *)
Definition codes (s : pystr) : list N :=
  match s with
  | Latin x => codes_of x
  | Wide t => t
  end.

(** The text with the code points [t]. *)
Definition of_codes (t : list N) : pystr :=
  if forallb (fun n => (n <? 256)%N) t
  then Latin (string_of_list_ascii (map ascii_of_N t))
  else Wide t.

Fixpoint codes_eqb (a b : list N) : bool :=
  match a, b with
  | [], [] => true
  | x :: a', y :: b' => (x =? y)%N && codes_eqb a' b'
  | _, _ => false
  end.

(** [a == b] *)
Definition eqb (a b : pystr) : bool :=
  match a, b with
  | Latin x, Latin y => String.eqb x y
  | Wide x, Wide y => codes_eqb x y
  | _, _ => false
  end.

(** [not s] *)
Definition is_empty (s : pystr) : bool :=
  match s with
  | Latin x => String.eqb x EmptyString
  | Wide t => match t with [] => true | _ => false end
  end.

(** [a + b] *)
Definition app (a b : pystr) : pystr :=
  match a, b with
  | Latin x, Latin y => Latin (x ++ y)
  | _, _ => Wide (codes a ++ codes b)
  end.

(** [s.startswith(p)] for a prefix [p] of the 8-bit alphabet *)
Fixpoint codes_start (p t : list N) : bool :=
  match p, t with
  | [], _ => true
  | a :: p', b :: t' => (a =? b)%N && codes_start p' t'
  | _ :: _, [] => false
  end.

Definition startswith (p : string) (s : pystr) : bool :=
  match s with
  | Latin x => PyStr.startswith p x
  | Wide t => codes_start (codes_of p) t
  end.

Fixpoint codes_split1 (sep : N) (t : list N) : list (list N) :=
  match t with
  | [] => [[]]
  | c :: r =>
      if (c =? sep)%N then [[]; r]
      else match codes_split1 sep r with
           | h :: l => (c :: h) :: l
           | [] => [[c]]
           end
  end.

(** [s.split(sep, 1)] for a one-character separator *)
Definition split1 (sep : ascii) (s : pystr) : list pystr :=
  match s with
  | Latin x => map Latin (PyStr.split1 sep x)
  | Wide t => map of_codes (codes_split1 (PyStr.code sep) t)
  end.

End Text.

Local Unset Elimination Schemes.

Inductive pyval : Type :=
| PyNone
| PyBool (b : bool)
| PyInt (z : Z)
| PyFloat (f : pyfloat)
| PyStr (s : pystr)
| PyList (l : list pyval)
| PyDict (d : list (pystr * pyval)).

Local Set Elimination Schemes.

(** A [dict] with [str] keys, in insertion order, one entry per key. *)
Definition pydict : Type := list (pystr * pyval).

Module Dict.

(** [d.get(k)], [None] when the key is absent *)
Fixpoint lookup (d : pydict) (k : pystr) : option pyval :=
  match d with
  | [] => None
  | (k', v) :: r => if Text.eqb k' k then Some v else lookup r k
  end.

(** [d.get(k, default)] *)
Definition get (d : pydict) (k : pystr) (default : pyval) : pyval :=
  match lookup d k with
  | Some v => v
  | None => default
  end.

(** [d[k] = v]: an existing key keeps its place, a new one goes last. *)
Fixpoint set (d : pydict) (k : pystr) (v : pyval) : pydict :=
  match d with
  | [] => [(k, v)]
  | (k', v') :: r =>
      if Text.eqb k' k then (k', v) :: r else (k', v') :: set r k v
  end.

(** [k in d] *)
Definition mem (d : pydict) (k : pystr) : bool :=
  match lookup d k with
  | Some _ => true
  | None => false
  end.

Definition keys (d : pydict) : list pystr := map fst d.

End Dict.

(** The exceptions of the modelled functions.  [JSONDecodeError] is a
    [ValueError] too, but an [except json.JSONDecodeError] catches it
    alone; the other [ValueError]s differ in where they are raised and
    in their message. *)
Inductive py_error : Type :=
| JSONDecodeError
    (* json.loads(s) for a text that is no JSON text *)
| ValueError_int_digits
    (* int(digits): Exceeds the limit for integer string conversion *)
| RecursionError
    (* maximum recursion depth exceeded while decoding a JSON array or
       object *)
| ValueError_unparseable (msg : string)
    (* raise ValueError(f"Unable to parse API response as JSON: ...") *)
| ValueError_input (msg : string)
    (* raise ValueError("base64_image ...") *)
| ValueError_float (arg : pystr)
    (* float(arg): could not convert string to float *)
| TypeError_float
    (* float(None), float([...]), float({...}) *)
| OverflowError_float
    (* float(n): int too large to convert to float *)
| AttributeError_get
    (* x.get(...) on a value that is not a dict *)
| IndexError_list
    (* list index out of range *)
| KeyError_key.
    (* d[k] for a key that is not in d *)

Inductive result (A : Type) : Type :=
| Ok (a : A)
| Raise (e : py_error).

Arguments Ok {A} & a.
Arguments Raise {A} e.

(** The interpreter the program runs in, as far as the modelled
    functions depend on it. *)
Record interpreter : Type := {
  (* sys.get_int_max_str_digits(): the longest digit string int()
     converts, by default 4300; 0 when there is no limit *)
  int_max_str_digits : N;
  (* how many arrays and objects, one inside the other, the JSON
     scanner can enter before the recursion limit is reached, when it
     is called from _parse_response *)
  recursion_room : nat;
  (* float(s) for a text s with a character beyond U+00FF, given by its
     code points: the Unicode database of the interpreter tells which
     of them are decimal digits and blanks; None is for ValueError *)
  float_of_wide : list N -> option pyfloat
}.

Definition bind {A B : Type} (r : result A) (k : A -> result B) : result B :=
  match r with
  | Ok a => k a
  | Raise e => Raise e
  end.

Notation "x <- r ;; k" := (bind r (fun x => k))
  (at level 61, r at next level, right associativity).

(** ** Numbers *)

Module PyNum.
Import PyStr.

Definition is_digit (c : ascii) : bool := in_range 48 57 c.

Definition digit_val (c : ascii) : N := (code c - 48)%N.

(** The longest prefix of decimal digits, and what follows it. *)
Fixpoint span_digits (s : string) : string * string :=
  match s with
  | String c r =>
      if is_digit c
      then let (ds, rest) := span_digits r in (String c ds, rest)
      else (EmptyString, s)
  | EmptyString => (EmptyString, EmptyString)
  end.

Fixpoint digits_value (acc : N) (ds : string) : N :=
  match ds with
  | String c r => digits_value (10 * acc + digit_val c)%N r
  | EmptyString => acc
  end.

Definition nat_of_digits (ds : string) : N := digits_value 0 ds.

(** An exponent part: [e] or [E], an optional sign and at least one
    digit; [None] when there is none at the head of [s]. *)
Definition span_exponent (s : string) : option (Z * string) :=
  match s with
  | String c r =>
      if (c =? "e") || (c =? "E") then
        let (neg, r1) :=
          match r with
          | String sg r' =>
              if sg =? "-" then (true, r')
              else if sg =? "+" then (false, r')
              else (false, r)
          | EmptyString => (false, r)
          end in
        let (ds, rest) := span_digits r1 in
        match ds with
        | EmptyString => None
        | _ =>
            let v := Z.of_N (nat_of_digits ds) in
            Some ((if neg then - v else v)%Z, rest)
        end
      else None
  | EmptyString => None
  end.

(** The decimal with integer digits [ip], fraction digits [fp] and
    exponent [ex]. *)
Definition decimal (neg : bool) (ip fp : string) (ex : Z) : pyfloat :=
  FDec neg (nat_of_digits (ip ++ fp)) (ex - Z.of_nat (String.length fp)).

(** Decimal-to-double conversion rounds to nearest, ties to even, so
    exactly the decimals of magnitude at most 2^-1075 give zero. *)
Definition is_zero (f : pyfloat) : bool :=
  match f with
  | FDec _ m e =>
      (m =? 0)%N ||
      ((e <? 0)%Z && (Z.of_N m * 2 ^ 1075 <=? 10 ^ (- e))%Z)
  | _ => false
  end.

(** [float(n)] for an [int]: the integers that round to 2^1024 or
    beyond raise [OverflowError]. *)
Definition float_of_int (z : Z) : result pyfloat :=
  if (Z.abs z <? 2 ^ 1024 - 2 ^ 970)%Z
  then Ok (FDec (z <? 0)%Z (Z.abs_N z) 0)
  else Raise OverflowError_float.

(** The characters [float] strips from both ends of a [str]. *)
Definition float_space (c : ascii) : bool :=
  in_range 9 13 c || (code c =? 32)%N
  || (code c =? 133)%N || (code c =? 160)%N.

Fixpoint lstrip_float (s : string) : string :=
  match s with
  | String c r => if float_space c then lstrip_float r else s
  | EmptyString => EmptyString
  end.

Fixpoint rstrip_float (s : string) : string :=
  match s with
  | String c r =>
      match rstrip_float r with
      | EmptyString =>
          if float_space c then EmptyString else String c EmptyString
      | r' => String c r'
      end
  | EmptyString => EmptyString
  end.

(** Underscores are dropped; each must stand between two digits. *)
Fixpoint drop_underscores (prev : ascii) (s : string) : option string :=
  match s with
  | EmptyString => if prev =? "_" then None else Some EmptyString
  | String c r =>
      if c =? "_" then
        if is_digit prev then drop_underscores c r else None
      else if (prev =? "_") && negb (is_digit c) then None
      else option_map (String c) (drop_underscores c r)
  end.

(** [inf], [infinity] and [nan], in any case. *)
Definition special (neg : bool) (s : string) : option pyfloat :=
  let w := lower s in
  if String.eqb w "inf" || String.eqb w "infinity" then Some (FInf neg)
  else if String.eqb w "nan" then Some FNan
  else None.

(** An unsigned decimal: digits with an optional point, at least one
    digit in all, and an optional exponent; nothing may follow. *)
Definition unsigned_decimal (neg : bool) (s : string) : option pyfloat :=
  let (ip, r1) := span_digits s in
  let (fp, r2) :=
    match r1 with
    | String c r => if c =? "." then span_digits r else (EmptyString, r1)
    | EmptyString => (EmptyString, r1)
    end in
  match (ip ++ fp)%string with
  | EmptyString => None
  | _ =>
      match span_exponent r2 with
      | Some (ex, EmptyString) => Some (decimal neg ip fp ex)
      | Some _ => None
      | None =>
          match r2 with
          | EmptyString => Some (decimal neg ip fp 0)
          | _ => None
          end
      end
  end.

(** [float(s)] for a [str]. *)
Definition float_of_str (s : string) : result pyfloat :=
  let parsed :=
    match drop_underscores "000" (rstrip_float (lstrip_float s)) with
    | None => None
    | Some t =>
        let (neg, body) :=
          match t with
          | String c r =>
              if c =? "-" then (true, r)
              else if c =? "+" then (false, r)
              else (false, t)
          | EmptyString => (false, t)
          end in
        match unsigned_decimal neg body with
        | Some f => Some f
        | None => special neg body
        end
    end in
  match parsed with
  | Some f => Ok f
  | None => Raise (ValueError_float s)
  end.

(** [float(v)] *)
Definition py_float (py : interpreter) (v : pyval) : result pyfloat :=
  match v with
  | PyBool b => Ok (FDec false (if b then 1 else 0)%N 0)
  | PyInt z => float_of_int z
  | PyFloat f => Ok f
  | PyStr (Latin s) => float_of_str s
  | PyStr (Wide t) =>
      match float_of_wide py t with
      | Some f => Ok f
      | None => Raise (ValueError_float (Wide t))
      end
  | PyNone | PyList _ | PyDict _ => Raise TypeError_float
  end.

(** [bool(v)] *)
Definition py_bool (v : pyval) : bool :=
  match v with
  | PyNone => false
  | PyBool b => b
  | PyInt z => negb (z =? 0)%Z
  | PyFloat f => negb (is_zero f)
  | PyStr s => negb (Text.is_empty s)
  | PyList l => match l with [] => false | _ => true end
  | PyDict d => match d with [] => false | _ => true end
  end.

End PyNum.

(** ** [json.loads]

    The decoder of the standard library, after its scanner: the value
    grammar, the whitespace it skips, strict string literals with their
    escapes (surrogate pairs included), and the number forms it accepts
    ([NaN], [Infinity] and [-Infinity] included).  Besides
    [JSONDecodeError] the decoder lets two other exceptions out: the
    [ValueError] of [int] on a digit string beyond the interpreter's
    limit, and the [RecursionError] of arrays and objects nested deeper
    than the interpreter has room for. *)

Module Json.
Import PyStr PyNum.

(** The outcome of scanning a prefix of the text. *)
Inductive scan (A : Type) : Type :=
| Scanned (a : A) (rest : string)
| Invalid                (* JSONDecodeError *)
| Failed (e : py_error)  (* another exception leaves the scanner *)
| Exhausted.             (* the budget of the model ran out *)

Arguments Scanned {A} a rest.
Arguments Invalid {A}.
Arguments Failed {A} e.
Arguments Exhausted {A}.

Definition is_ws (c : ascii) : bool :=
  (c =? " ") || (c =? tab) || (c =? nl) || (c =? cr).

Fixpoint skip_ws (s : string) : string :=
  match s with
  | String c r => if is_ws c then skip_ws r else s
  | EmptyString => EmptyString
  end.

Definition hex_val (c : ascii) : option N :=
  if is_digit c then Some (code c - 48)%N
  else if in_range 97 102 c then Some (code c - 87)%N
  else if in_range 65 70 c then Some (code c - 55)%N
  else None.

Definition hex4 (a b c d : ascii) : option N :=
  match hex_val a, hex_val b, hex_val c, hex_val d with
  | Some x, Some y, Some z, Some w =>
      Some (((x * 16 + y) * 16 + z) * 16 + w)%N
  | _, _, _, _ => None
  end.

Definition escape (c : ascii) : option ascii :=
  if c =? dquote then Some dquote
  else if c =? "\" then Some "\"
  else if c =? "/" then Some "/"
  else if c =? "b" then Some "008"
  else if c =? "f" then Some "012"
  else if c =? "n" then Some nl
  else if c =? "r" then Some cr
  else if c =? "t" then Some tab
  else None.

(** The surrogates: U+D800..U+DBFF and U+DC00..U+DFFF. *)
Definition is_high (n : N) : bool := (55296 <=? n)%N && (n <=? 56319)%N.
Definition is_low (n : N) : bool := (56320 <=? n)%N && (n <=? 57343)%N.

(** The character a surrogate pair stands for. *)
Definition join_surrogates (hi lo : N) : N :=
  (65536 + (N.land hi 1023) * 1024 + N.land lo 1023)%N.

(** A string literal, from just after its opening quote: the code
    points of its characters.  An escaped high surrogate that is
    followed at once by an escaped low surrogate is read with it as one
    character; followed by another escape [\u] it is a character of its
    own, provided that escape has four hexadecimal digits. *)
Fixpoint scanstring (s : string) : option (list N * string) :=
  match s with
  | EmptyString => None
  | String c r =>
      if c =? dquote then Some ([], r)
      else if c =? "\" then
        match r with
        | String e r' =>
            if e =? "u" then
              match r' with
              | String h1 (String h2 (String h3 (String h4 r''))) =>
                  match hex4 h1 h2 h3 h4 with
                  | Some n =>
                      let alone :=
                        match scanstring r'' with
                        | Some (t, rest) => Some (n :: t, rest)
                        | None => None
                        end in
                      if is_high n then
                        match r'' with
                        | String b (String u (String g1 (String g2
                            (String g3 (String g4 r6))))) =>
                            if (b =? "\") && (u =? "u") then
                              match hex4 g1 g2 g3 g4 with
                              | Some m =>
                                  if is_low m then
                                    match scanstring r6 with
                                    | Some (t, rest) =>
                                        Some (join_surrogates n m :: t, rest)
                                    | None => None
                                    end
                                  else alone
                              | None => None
                              end
                            else alone
                        | _ => alone
                        end
                      else alone
                  | None => None
                  end
              | _ => None
              end
            else
              match escape e with
              | Some x =>
                  match scanstring r' with
                  | Some (t, rest) => Some (code x :: t, rest)
                  | None => None
                  end
              | None => None
              end
        | EmptyString => None
        end
      else if (code c <? 32)%N then None
      else
        match scanstring r with
        | Some (t, rest) => Some (code c :: t, rest)
        | None => None
        end
  end.

(** [int(digits)] refuses a digit string longer than the limit of the
    interpreter, if it has one; no string of 640 digits or fewer is
    refused. *)
Definition over_digit_limit (py : interpreter) (digits : string) : bool :=
  let n := N.of_nat (String.length digits) in
  (0 <? int_max_str_digits py)%N && (640 <? n)%N
  && (int_max_str_digits py <? n)%N.

(** The digits of a number, after its sign: a zero, or a non-zero digit
    and more digits; optionally a point and digits; optionally an
    exponent.  With a fraction or an exponent the number is a [float],
    otherwise an [int], converted by [int]. *)
Definition match_digits (py : interpreter) (neg : bool) (body : string)
  : scan pyval :=
  match body with
  | String c r =>
      if is_digit c then
        let (ip, r1) :=
          if c =? "0" then (String c EmptyString, r)
          else let (ds, rest) := span_digits r in (String c ds, rest) in
        let (fp, r2) :=
          match r1 with
          | String p (String d r') =>
              if (p =? ".") && is_digit d
              then let (ds, rest) := span_digits r' in (String d ds, rest)
              else (EmptyString, r1)
          | _ => (EmptyString, r1)
          end in
        match span_exponent r2, fp with
        | Some (ex, r3), _ => Scanned (PyFloat (decimal neg ip fp ex)) r3
        | None, String _ _ => Scanned (PyFloat (decimal neg ip fp 0)) r2
        | None, EmptyString =>
            if over_digit_limit py ip then Failed ValueError_int_digits
            else
              let v := Z.of_N (nat_of_digits ip) in
              Scanned (PyInt (if neg then - v else v)%Z) r2
        end
      else Invalid
  | EmptyString => Invalid
  end.

(** A number, with its optional minus sign. *)
Definition match_number (py : interpreter) (s : string) : scan pyval :=
  match s with
  | String c r => if c =? "-" then match_digits py true r
                  else match_digits py false s
  | EmptyString => Invalid
  end.

(** [s[n:]] *)
Fixpoint drop (n : nat) (s : string) : string :=
  match n, s with
  | S k, String _ r => drop k r
  | _, _ => s
  end.

(** The constants and numbers: everything but strings and containers. *)
Definition scan_atom (py : interpreter) (s : string) : scan pyval :=
  if startswith "null" s then Scanned PyNone (drop 4 s)
  else if startswith "true" s then Scanned (PyBool true) (drop 4 s)
  else if startswith "false" s then Scanned (PyBool false) (drop 5 s)
  else if startswith "NaN" s then Scanned (PyFloat FNan) (drop 3 s)
  else if startswith "Infinity" s
    then Scanned (PyFloat (FInf false)) (drop 8 s)
  else if startswith "-Infinity" s
    then Scanned (PyFloat (FInf true)) (drop 9 s)
  else match_number py s.

Section Containers.
(** The scanner of one value, at the nesting level below. *)
Variable scan_value : string -> scan pyval.

(** The elements of an array, from the first one; [acc] holds the
    elements read so far, last first. *)
Fixpoint scan_elements (fuel : nat) (acc : list pyval) (s : string)
  : scan (list pyval) :=
  match fuel with
  | O => Exhausted
  | S f =>
      match scan_value s with
      | Scanned v rest =>
          match skip_ws rest with
          | String c r =>
              if c =? "]" then Scanned (rev (v :: acc)) r
              else if c =? ","
                then scan_elements f (v :: acc) (skip_ws r)
              else Invalid
          | EmptyString => Invalid
          end
      | Invalid => Invalid
      | Failed e => Failed e
      | Exhausted => Exhausted
      end
  end.

(** The members of an object, from the first key; a repeated key
    takes the later value. *)
Fixpoint scan_members (fuel : nat) (acc : pydict) (s : string)
  : scan pydict :=
  match fuel with
  | O => Exhausted
  | S f =>
      match s with
      | String q r0 =>
          if q =? dquote then
            match scanstring r0 with
            | Some (key, r1) =>
                match skip_ws r1 with
                | String colon r2 =>
                    if colon =? ":" then
                      match scan_value (skip_ws r2) with
                      | Scanned v rest =>
                          match skip_ws rest with
                          | String c r =>
                              let acc' :=
                                Dict.set acc (Text.of_codes key) v in
                              if c =? "}" then Scanned acc' r
                              else if c =? ","
                                then scan_members f acc' (skip_ws r)
                              else Invalid
                          | EmptyString => Invalid
                          end
                      | Invalid => Invalid
                      | Failed e => Failed e
                      | Exhausted => Exhausted
                      end
                    else Invalid
                | EmptyString => Invalid
                end
            | None => Invalid
            end
          else Invalid
      | EmptyString => Invalid
      end
  end.
End Containers.

(** One JSON value at the head of [s].  [room] is the number of arrays
    and objects that can still be entered: the scanner asks for room
    when it meets the opening bracket, before it reads what follows. *)
Fixpoint scan_once (py : interpreter) (fuel room : nat) (s : string)
  : scan pyval :=
  match fuel with
  | O => Exhausted
  | S f =>
      match s with
      | EmptyString => Invalid
      | String c r =>
          if c =? dquote then
            match scanstring r with
            | Some (t, rest) => Scanned (PyStr (Text.of_codes t)) rest
            | None => Invalid
            end
          else if c =? "{" then
            match room with
            | O => Failed RecursionError
            | S room' =>
                match skip_ws r with
                | String c' r' =>
                    if c' =? "}" then Scanned (PyDict []) r'
                    else
                      match scan_members (scan_once py f room') f []
                              (skip_ws r) with
                      | Scanned d rest => Scanned (PyDict d) rest
                      | Invalid => Invalid
                      | Failed e => Failed e
                      | Exhausted => Exhausted
                      end
                | EmptyString => Invalid
                end
            end
          else if c =? "[" then
            match room with
            | O => Failed RecursionError
            | S room' =>
                match skip_ws r with
                | String c' r' =>
                    if c' =? "]" then Scanned (PyList []) r'
                    else
                      match scan_elements (scan_once py f room') f []
                              (skip_ws r) with
                      | Scanned l rest => Scanned (PyList l) rest
                      | Invalid => Invalid
                      | Failed e => Failed e
                      | Exhausted => Exhausted
                      end
                | EmptyString => Invalid
                end
            end
          else scan_atom py s
      end
  end.

(** [json.loads(s)]: one value, with whitespace allowed before and
    after it and nothing else.  The budget of the model is more than any
    text needs. *)
Definition loads (py : interpreter) (s : string) : result pyval :=
  let t := skip_ws s in
  match scan_once py (S (String.length t)) (recursion_room py) t with
  | Scanned v rest =>
      match skip_ws rest with
      | EmptyString => Ok v
      | _ => Raise JSONDecodeError
      end
  | Failed e => Raise e
  | Invalid | Exhausted => Raise JSONDecodeError
  end.

End Json.

(** ** [Leaf Disease/main.py] *)

Module Detector.
Import PyStr PyNum.

(** [DiseaseAnalysisResult].  The fields filled from the reply hold
    whatever value the reply gave them. *)
Record DiseaseAnalysisResult : Type := {
  disease_detected : bool;
  disease_name : pyval;
  disease_type : pyval;
  severity : pyval;
  confidence : pyfloat;
  symptoms : pyval;
  possible_causes : pyval;
  treatment : pyval;
  common_pests : pyval;
  pest_detected : bool;
  pest_name : pyval;
  pest_severity : pyval;
  pest_confidence : pyfloat;
  pest_symptoms : pyval;
  pest_treatment : pyval;
  analysis_timestamp : string
}.

(** The class object.  The default of [analysis_timestamp] is the value
    [datetime.now().astimezone().isoformat()] had when the [class]
    statement ran; the constructor reads it back for every instance
    that is not given a timestamp. *)
Record dataclass : Type := {
  analysis_timestamp_default : string
}.

(** Running the [class] statement while the clock reads [now]. *)
Definition define_class (now : string) : dataclass :=
  {| analysis_timestamp_default := now |}.

(** [__post_init__]: a list field left at [None] becomes [[]]. *)
Definition post_init (v : pyval) : pyval :=
  match v with
  | PyNone => PyList []
  | _ => v
  end.

(** [disease_data.get]: only a [dict] has the method. *)
Definition get_method (disease_data : pyval) : result pydict :=
  match disease_data with
  | PyDict d => Ok d
  | _ => Raise AttributeError_get
  end.

(** The call [DiseaseAnalysisResult(disease_detected=..., ...)] of
    [_parse_response], written twice there with the same arguments.
    The arguments are evaluated in order; only the two [float]
    conversions can raise once [disease_data] is a [dict]. *)
Definition make_result (py : interpreter) (cls : dataclass)
    (disease_data : pyval) : result DiseaseAnalysisResult :=
  d <- get_method disease_data ;;
  c <- py_float py (Dict.get d "confidence" (PyInt 0)) ;;
  pc <- py_float py (Dict.get d "pest_confidence" (PyInt 0)) ;;
  Ok {| disease_detected :=
          py_bool (Dict.get d "disease_detected" (PyBool false));
        disease_name := Dict.get d "disease_name" PyNone;
        disease_type := Dict.get d "disease_type" (PyStr "unknown");
        severity := Dict.get d "severity" (PyStr "unknown");
        confidence := c;
        symptoms := Dict.get d "symptoms" (PyList []);
        possible_causes := Dict.get d "possible_causes" (PyList []);
        treatment := Dict.get d "treatment" (PyList []);
        common_pests := post_init (Dict.get d "common_pests" (PyList []));
        pest_detected :=
          py_bool (Dict.get d "pest_detected" (PyBool false));
        pest_name := Dict.get d "pest_name" PyNone;
        pest_severity := Dict.get d "pest_severity" (PyStr "none");
        pest_confidence := pc;
        pest_symptoms :=
          post_init (Dict.get d "pest_symptoms" (PyList []));
        pest_treatment :=
          post_init (Dict.get d "pest_treatment" (PyList []));
        analysis_timestamp := analysis_timestamp_default cls |}.

(** The text handed to the first [json.loads]. *)
Definition cleaned_response (response_content : string) : string :=
  let cleaned := strip response_content in
  if startswith "```json" cleaned
  then strip (replace "```" "" (replace "```json" "" cleaned))
  else if startswith "```" cleaned
  then strip (replace "```" "" cleaned)
  else cleaned.

Definition unparseable (response_content : string) : py_error :=
  ValueError_unparseable
    ("Unable to parse API response as JSON: "
     ++ take 200 response_content ++ "...").

(** [_parse_response].  Each of its two handlers catches
    [json.JSONDecodeError] and nothing else. *)
Definition _parse_response (py : interpreter) (cls : dataclass)
    (response_content : string) : result DiseaseAnalysisResult :=
  match Json.loads py (cleaned_response response_content) with
  | Ok disease_data => make_result py cls disease_data
  | Raise JSONDecodeError =>
      match search_braces response_content with
      | Some json_match =>
          match Json.loads py json_match with
          | Ok disease_data => make_result py cls disease_data
          | Raise JSONDecodeError => Raise (unparseable response_content)
          | Raise e => Raise e
          end
      | None => Raise (unparseable response_content)
      end
  | Raise e => Raise e
  end.

(** A running process: its interpreter, what its clock reads, and the
    class object made when the module was imported. *)
Record process : Type := {
  interp : interpreter;
  clock : string;
  result_class : dataclass
}.

(** Importing the module while the clock reads [now]. *)
Definition import_module (py : interpreter) (now : string) : process :=
  {| interp := py; clock := now; result_class := define_class now |}.

(** Time passes: the clock reads [now]. *)
Definition advance (p : process) (now : string) : process :=
  {| interp := interp p; clock := now; result_class := result_class p |}.

(** A call of [_parse_response] in the process [p].  Nothing in the
    call reads the clock. *)
Definition call_parse_response (p : process) (response_content : string)
  : result DiseaseAnalysisResult :=
  _parse_response (interp p) (result_class p) response_content.

(** [result.__dict__] *)
Definition to_dict (r : DiseaseAnalysisResult) : pydict :=
  ([ ("disease_detected", PyBool (disease_detected r));
    ("disease_name", disease_name r);
    ("disease_type", disease_type r);
    ("severity", severity r);
    ("confidence", PyFloat (confidence r));
    ("symptoms", symptoms r);
    ("possible_causes", possible_causes r);
    ("treatment", treatment r);
    ("common_pests", common_pests r);
    ("pest_detected", PyBool (pest_detected r));
    ("pest_name", pest_name r);
    ("pest_severity", pest_severity r);
    ("pest_confidence", PyFloat (pest_confidence r));
    ("pest_symptoms", pest_symptoms r);
    ("pest_treatment", pest_treatment r);
    ("analysis_timestamp", PyStr (analysis_timestamp r)) ])%string.

(** The first steps of [analyze_leaf_image_base64]: the argument is
    checked and a data-URL prefix is cut off.  The outcome is the text
    placed after [data:image/jpeg;base64,] in the request. *)
Definition clean_base64 (base64_image : pyval) : result pystr :=
  match base64_image with
  | PyStr s =>
      if Text.is_empty s
      then Raise (ValueError_input "base64_image cannot be empty")
      else if Text.startswith "data:" s then
        match nth_error (Text.split1 "," s) 1 with
        | Some payload => Ok payload
        | None => Raise IndexError_list
        end
      else Ok s
  | _ => Raise (ValueError_input "base64_image must be a string")
  end.

(** [x or default] *)
Definition py_or (x default : pyval) : pyval :=
  if py_bool x then x else default.

Record completion_request : Type := {
  image_url : pystr;
  temperature : pyval;
  max_completion_tokens : pyval
}.

Definition DEFAULT_TEMPERATURE : pyval := PyFloat (FDec false 3 (-1)).
Definition DEFAULT_MAX_TOKENS : pyval := PyInt 1024.

Section Analyze.
(** [self.client.chat.completions.create], reduced to the content of
    the first choice of its answer. *)
Variable create : completion_request -> result string.

(** [analyze_leaf_image_base64]; its handler logs and raises again. *)
Definition analyze_leaf_image_base64 (py : interpreter) (cls : dataclass)
    (base64_image temperature max_tokens : pyval) : result pydict :=
  payload <- clean_base64 base64_image ;;
  content <- create
    {| image_url := Text.app "data:image/jpeg;base64," payload;
       temperature := py_or temperature DEFAULT_TEMPERATURE;
       max_completion_tokens := py_or max_tokens DEFAULT_MAX_TOKENS |} ;;
  r <- _parse_response py cls content ;;
  Ok (to_dict r).
End Analyze.

End Detector.

(** ** [json.dumps]

    The encoder with its default settings: separators [", "] and [": "],
    non-ASCII and control characters escaped, [NaN] and the infinities
    written out.  A [dict] with [str] keys whose values are built from
    [None], [bool], [int], [float], [str], [list] and such dicts is
    always serialisable, so [dumps] is total on [pyval]. *)

Module JsonDump.
Import PyStr.

Definition hex_digit (n : N) : ascii :=
  if (n <? 10)%N then ascii_of_N (48 + n) else ascii_of_N (87 + n).

(** One character of a string literal. *)
Definition escape_char (c : ascii) : string :=
  if c =? dquote then (String "\" (String dquote EmptyString))
  else if c =? "\" then "\\"
  else if c =? nl then "\n"
  else if c =? cr then "\r"
  else if c =? tab then "\t"
  else if c =? "008" then "\b"
  else if c =? "012" then "\f"
  else if in_range 32 126 c then String c EmptyString
  else "\u00" ++ String (hex_digit (code c / 16))
                   (String (hex_digit (code c mod 16)) EmptyString).

Fixpoint escape_body (s : string) : string :=
  match s with
  | String c r => escape_char c ++ escape_body r
  | EmptyString => EmptyString
  end.

(** A character beyond U+00FF: [\uXXXX], twice for the surrogate pair
    of a character beyond U+FFFF. *)
Definition hex4_of (n : N) : string :=
  String (hex_digit ((n / 4096) mod 16))
    (String (hex_digit ((n / 256) mod 16))
       (String (hex_digit ((n / 16) mod 16))
          (String (hex_digit (n mod 16)) EmptyString))).

Definition escape_code (n : N) : string :=
  if (n <? 256)%N then escape_char (ascii_of_N n)
  else if (n <? 65536)%N then "\u" ++ hex4_of n
  else "\u" ++ hex4_of (55232 + n / 1024)
       ++ "\u" ++ hex4_of (56320 + n mod 1024).

Fixpoint escape_codes (t : list N) : string :=
  match t with
  | n :: r => escape_code n ++ escape_codes r
  | [] => EmptyString
  end.

Definition quote (s : pystr) : string :=
  match s with
  | Latin x => String dquote (escape_body x ++ String dquote EmptyString)
  | Wide t => String dquote (escape_codes t ++ String dquote EmptyString)
  end.

Fixpoint digits_of (fuel : nat) (n : N) (acc : string) : string :=
  match fuel with
  | O => acc
  | S f =>
      let acc' := String (ascii_of_N (48 + n mod 10)) acc in
      if (n <? 10)%N then acc' else digits_of f (n / 10)%N acc'
  end.

(** [str(n)] for a natural number *)
Definition decimal_of_N (n : N) : string :=
  digits_of (S (N.to_nat (N.log2 n))) n EmptyString.

(** [str(z)] for an [int] *)
Definition decimal_of_Z (z : Z) : string :=
  if (z <? 0)%Z then String "-" (decimal_of_N (Z.abs_N z))
  else decimal_of_N (Z.abs_N z).

Section Dumps.
(** [float.__repr__] on a finite double. *)
Variable float_repr : pyfloat -> string.

Definition dump_float (f : pyfloat) : string :=
  match f with
  | FNan => "NaN"
  | FInf false => "Infinity"
  | FInf true => "-Infinity"
  | FDec _ _ _ => float_repr f
  end.

Fixpoint dumps (v : pyval) : string :=
  match v with
  | PyNone => "null"
  | PyBool true => "true"
  | PyBool false => "false"
  | PyInt z => decimal_of_Z z
  | PyFloat f => dump_float f
  | PyStr s => quote s
  | PyList l =>
      "[" ++ (fix items (l : list pyval) : string :=
                match l with
                | [] => EmptyString
                | [x] => dumps x
                | x :: r => dumps x ++ ", " ++ items r
                end) l ++ "]"
  | PyDict d =>
      "{" ++ (fix members (d : list (pystr * pyval)) : string :=
                match d with
                | [] => EmptyString
                | [(k, x)] => quote k ++ ": " ++ dumps x
                | (k, x) :: r => quote k ++ ": " ++ dumps x ++ ", " ++ members r
                end) d ++ "}"
  end.
End Dumps.

End JsonDump.

(** ** [main.py]: the mock pest data of the web page *)

Module App.
Import PyStr PyNum.
Local Open Scope string_scope.

(** An entry of [pest_library]. *)
Record pest : Type := {
  name : string;
  symptoms : list string;
  treatments : list string
}.

Definition pest_library : list (string * pest) :=
  [ ("aphids",
     {| name := "Aphids";
        symptoms := ["Small green/black insects on undersides";
                     "Sticky honeydew residue";
                     "Curled or distorted leaves";
                     "Sooty mold growth"];
        treatments := ["Spray with insecticidal soap";
                       "Apply neem oil solution";
                       "Introduce ladybugs or lacewings";
                       "Use strong water spray to dislodge"] |});
    ("spider_mites",
     {| name := "Spider Mites";
        symptoms := ["Fine webbing on leaves";
                     "Yellow stippling on leaf surfaces";
                     "Leaf discoloration and drop";
                     "Tiny moving dots on undersides"];
        treatments := ["Increase humidity around plants";
                       "Apply miticide or horticultural oil";
                       "Spray with water regularly";
                       "Remove heavily infested leaves"] |});
    ("whiteflies",
     {| name := "Whiteflies";
        symptoms := ["Small white flying insects when disturbed";
                     "Yellowing and wilting leaves";
                     "Sticky honeydew secretion";
                     "Sooty mold development"];
        treatments := ["Use yellow sticky traps";
                       "Apply insecticidal soap";
                       "Introduce parasitic wasps";
                       "Spray with horticultural oil"] |});
    ("mealybugs",
     {| name := "Mealybugs";
        symptoms := ["White cottony masses in leaf axils";
                     "Stunted plant growth";
                     "Yellowing and leaf drop";
                     "Honeydew and sooty mold"];
        treatments := ["Dab with cotton swab dipped in alcohol";
                       "Apply insecticidal soap";
                       "Use systemic insecticides";
                       "Prune heavily infested areas"] |});
    ("scale_insects",
     {| name := "Scale Insects";
        symptoms := ["Brown/white bumps on stems and leaves";
                     "Yellowing and wilting";
                     "Sticky residue on leaves";
                     "Poor plant growth"];
        treatments := ["Scrape off visible scales manually";
                       "Apply horticultural oil spray";
                       "Use systemic insecticides";
                       "Prune affected branches"] |});
    ("thrips",
     {| name := "Thrips";
        symptoms := ["Silvery streaks on leaves";
                     "Deformed flowers and buds";
                     "Black specks (excrement)";
                     "Stunted growth"];
        treatments := ["Use blue sticky traps";
                       "Apply spinosad-based insecticides";
                       "Introduce predatory mites";
                       "Remove affected plant parts"] |});
    ("caterpillars",
     {| name := "Caterpillars";
        symptoms := ["Chewed leaves and holes";
                     "Visible larvae on plants";
                     "Frass (droppings) on leaves";
                     "Skeletonized leaves"];
        treatments := ["Handpick caterpillars manually";
                       "Apply BT (Bacillus thuringiensis)";
                       "Use floating row covers";
                       "Apply spinosad if severe"] |});
    ("leaf_miners",
     {| name := "Leaf Miners";
        symptoms := ["Winding white trails on leaves";
                     "Blotchy white patches";
                     "Reduced photosynthesis";
                     "Leaf drop in severe cases"];
        treatments := ["Remove and destroy affected leaves";
                       "Use yellow sticky traps";
                       "Apply spinosad spray";
                       "Introduce parasitic wasps"] |}) ].

(** [pest_library[key]] *)
Fixpoint library_get (lib : list (string * pest)) (key : string)
  : result pest :=
  match lib with
  | [] => Raise KeyError_key
  | (k, p) :: r => if String.eqb k key then Ok p else library_get r key
  end.

(** [[pest_library[pest]['name'] for pest in keys]] *)
Fixpoint names_of (keys : list string) : result (list string) :=
  match keys with
  | [] => Ok []
  | k :: t =>
      p <- library_get pest_library k ;;
      ns <- names_of t ;;
      Ok (name p :: ns)
  end.

(** What the calls of the [random] module return during one run of
    [add_mock_pest_data], one field per call site. *)
Record draws : Type := {
  uniform : N;              (* random.random() is uniform / 2^53 *)
  pest_index : nat;         (* random.choice(list(pest_library.keys())) *)
  severity_index : nat;     (* random.choice(['mild', ...]) *)
  confidence_offset : N;    (* random.randint(75, 95) *)
  symptom_picks : list nat; (* random.sample(pest_data['symptoms'], 3) *)
  treatment_picks : list nat;
  common_picks : list nat
}.

(** [random.random() < 0.6] and [random.random() < 0.3].  The double
    written [0.6] is 5404319552844595 / 2^53 and the one written [0.3]
    is half of it; the generator returns a multiple of 2^-53. *)
Definition below_0_6 (k : N) : bool := (k <? 5404319552844595)%N.
Definition below_0_3 (k : N) : bool := (2 * k <? 5404319552844595)%N.

(** [random.choice(l)]: the element at the drawn position. *)
Definition choice {A : Type} (i : nat) (l : list A) : option A :=
  nth_error l (i mod List.length l).

Fixpoint remove_at {A : Type} (i : nat) (l : list A) : list A :=
  match i, l with
  | _, [] => []
  | O, _ :: r => r
  | S j, x :: r => x :: remove_at j r
  end.

(** [random.sample(l, k)]: [k] elements at distinct positions, in the
    order drawn. *)
Fixpoint sample {A : Type} (picks : list nat) (k : nat) (l : list A)
  : list A :=
  match k with
  | O => []
  | S k' =>
      let i := hd O picks mod List.length l in
      match nth_error l i with
      | Some x => x :: sample (tl picks) k' (remove_at i l)
      | None => []
      end
  end.

Definition strs (l : list string) : pyval :=
  PyList (map (fun s : string => PyStr s) l).

(** [v == "invalid_image"] *)
Definition is_str (v : option pyval) (s : string) : bool :=
  match v with
  | Some (PyStr t) => Text.eqb t s
  | _ => false
  end.

(** [result.get(key)] as a condition *)
Definition truthy (v : option pyval) : bool :=
  match v with
  | Some x => py_bool x
  | None => false
  end.

(** [add_mock_pest_data]; [now] is what
    [datetime.now().astimezone().isoformat()] returns during the
    call. *)
Definition add_mock_pest_data (rnd : draws) (now : string)
    (result0 : pydict) : result pydict :=
  let pest_detected :=
    if is_str (Dict.lookup result0 "disease_type") "invalid_image"
    then false
    else if truthy (Dict.lookup result0 "disease_detected")
    then below_0_6 (uniform rnd)
    else below_0_3 (uniform rnd) in
  r <- (if pest_detected then
          let keys := map fst pest_library in
          pest_key <- match choice (pest_index rnd) keys with
                      | Some k => Ok k
                      | None => Raise IndexError_list
                      end ;;
          pest_data <- library_get pest_library pest_key ;;
          pest_severity <-
            match choice (severity_index rnd)
                    ["mild"; "moderate"; "severe"] with
            | Some s => Ok s
            | None => Raise IndexError_list
            end ;;
          let r1 := Dict.set result0 "pest_detected" (PyBool true) in
          let r2 := Dict.set r1 "pest_name" (PyStr (name pest_data)) in
          let r3 := Dict.set r2 "pest_severity" (PyStr pest_severity) in
          let r4 := Dict.set r3 "pest_confidence"
                      (PyInt (75 + Z.of_N (confidence_offset rnd mod 21))) in
          let r5 := Dict.set r4 "pest_symptoms"
                      (strs (sample (symptom_picks rnd)
                               (Nat.min 3 (List.length (symptoms pest_data)))
                               (symptoms pest_data))) in
          let r6 := Dict.set r5 "pest_treatment"
                      (strs (sample (treatment_picks rnd)
                               (Nat.min 3 (List.length (treatments pest_data)))
                               (treatments pest_data))) in
          if truthy (Dict.lookup r6 "disease_detected") then
            let common :=
              sample (common_picks rnd)
                (Nat.min 3 (List.length keys)) keys in
            names <- names_of common ;;
            Ok (Dict.set r6 "common_pests" (strs names))
          else Ok r6
        else
          let r1 := Dict.set result0 "pest_detected" (PyBool false) in
          let r2 := Dict.set r1 "pest_name" PyNone in
          let r3 := Dict.set r2 "pest_severity" (PyStr "none") in
          let r4 := Dict.set r3 "pest_confidence" (PyInt 0) in
          let r5 := Dict.set r4 "pest_symptoms" (PyList []) in
          let r6 := Dict.set r5 "pest_treatment" (PyList []) in
          Ok (Dict.set r6 "common_pests" (PyList []))) ;;
  if Dict.mem r "analysis_timestamp" then Ok r
  else Ok (Dict.set r "analysis_timestamp" (PyStr now)).

End App.

(** ** [utils.py]: the keyword rule of the command-line test *)

Module Utils.
Import PyStr.
Local Open Scope string_scope.

Definition pest_keywords : list string :=
  ["insect"; "worm"; "larva"; "chewing"; "holes"; "bite"; "pest";
   "aphid"; "caterpillar"].

(** The dictionary that replaces the result. *)
Definition pest_infestation : pydict :=
  [ ("disease_detected", PyBool true);
    ("disease_name", PyStr "Pest Infestation");
    ("disease_type", PyStr "insect/pest");
    ("severity", PyStr "moderate");
    ("confidence", PyFloat (FDec false 850 (-1)));
    ("symptoms",
     PyList [PyStr "Visible insects or larvae on the leaf surface";
             PyStr "Holes or chewed edges on the leaf";
             PyStr "Yellowing or drooping around pest-affected areas"]);
    ("possible_causes",
     PyList [PyStr ("Aphids, caterpillars, beetles, or leaf miners "
                    ++ "feeding on foliage")]);
    ("treatment",
     PyList [PyStr "Remove and dispose of affected leaves";
             PyStr "Spray neem oil or insecticidal soap";
             PyStr "Use biological controls (ladybugs, lacewings)"]) ].

Section Test.
(** [float.__repr__], used by [json.dumps]. *)
Variable float_repr : pyfloat -> string.
(** [LeafDiseaseDetector().analyze_leaf_image_base64]: building the
    detector and running the analysis; either may raise. *)
Variable analyze : string -> result pydict.

(** [json.dumps(result).lower()] *)
Definition text_blob (result0 : pydict) : string :=
  lower (JsonDump.dumps float_repr (PyDict result0)).

(** [any(keyword in text_blob for keyword in pest_keywords)] *)
Definition mentions_pest (result0 : pydict) : bool :=
  existsb (fun keyword => contains keyword (text_blob result0))
    pest_keywords.

(** The value of [result] after the pest rule.  The rule sits in a
    [try] whose handler only prints a warning; serialising a dictionary
    of this kind does not raise, so the handler is never entered. *)
Definition pest_rule (result0 : pydict) : pydict :=
  if mentions_pest result0 then pest_infestation else result0.

(** [test_with_base64_data]; [None] is returned after any exception. *)
Definition test_with_base64_data (base64_image_string : string)
  : option pydict :=
  match analyze base64_image_string with
  | Ok result0 => Some (pest_rule result0)
  | Raise _ => None
  end.
End Test.

End Utils.

(** ** The vocabulary of the statements *)

Module Vocabulary.
Import PyStr PyNum Json JsonDump App Utils Detector.
Local Open Scope string_scope.

(** The texts of the examples are written with an apostrophe where the
    JSON text has a double quote. *)
Fixpoint json_text (s : string) : string :=
  match s with
  | String c r => String (if (c =? "'")%char then dquote else c) (json_text r)
  | EmptyString => EmptyString
  end.

(** The object text [{body}] inside the prose of the example. *)
Definition in_prose (t : string) : string :=
  "Here is the result: " ++ t ++ " Thanks.".

Definition braced (body : string) : string := String "{" (body ++ "}").

(** Every key the reply leaves out has its default in the record. *)
Definition defaulted (d : pydict) (r : DiseaseAnalysisResult) : Prop :=
  (Dict.lookup d "disease_detected" = None -> disease_detected r = false)
  /\ (Dict.lookup d "disease_name" = None -> disease_name r = PyNone)
  /\ (Dict.lookup d "disease_type" = None -> disease_type r = PyStr "unknown")
  /\ (Dict.lookup d "severity" = None -> severity r = PyStr "unknown")
  /\ (Dict.lookup d "confidence" = None -> confidence r = FDec false 0 0)
  /\ (Dict.lookup d "symptoms" = None -> symptoms r = PyList [])
  /\ (Dict.lookup d "possible_causes" = None -> possible_causes r = PyList [])
  /\ (Dict.lookup d "treatment" = None -> treatment r = PyList [])
  /\ (Dict.lookup d "common_pests" = None -> common_pests r = PyList [])
  /\ (Dict.lookup d "pest_detected" = None -> pest_detected r = false)
  /\ (Dict.lookup d "pest_name" = None -> pest_name r = PyNone)
  /\ (Dict.lookup d "pest_severity" = None -> pest_severity r = PyStr "none")
  /\ (Dict.lookup d "pest_confidence" = None ->
      pest_confidence r = FDec false 0 0)
  /\ (Dict.lookup d "pest_symptoms" = None -> pest_symptoms r = PyList [])
  /\ (Dict.lookup d "pest_treatment" = None -> pest_treatment r = PyList []).

(** Every value the reply gives is copied: the two flags through
    [bool], and the three pest sequences as [__post_init__] leaves them,
    an empty list in the place of [None]. *)
Definition copied (d : pydict) (r : DiseaseAnalysisResult) : Prop :=
  (forall v, Dict.lookup d "disease_detected" = Some v ->
             disease_detected r = py_bool v)
  /\ (forall v, Dict.lookup d "disease_name" = Some v -> disease_name r = v)
  /\ (forall v, Dict.lookup d "disease_type" = Some v -> disease_type r = v)
  /\ (forall v, Dict.lookup d "severity" = Some v -> severity r = v)
  /\ (forall v, Dict.lookup d "symptoms" = Some v -> symptoms r = v)
  /\ (forall v, Dict.lookup d "possible_causes" = Some v ->
                possible_causes r = v)
  /\ (forall v, Dict.lookup d "treatment" = Some v -> treatment r = v)
  /\ (forall v, Dict.lookup d "pest_detected" = Some v ->
                pest_detected r = py_bool v)
  /\ (forall v, Dict.lookup d "pest_name" = Some v -> pest_name r = v)
  /\ (forall v, Dict.lookup d "pest_severity" = Some v ->
                pest_severity r = v)
  /\ (forall v, Dict.lookup d "common_pests" = Some v ->
                common_pests r = post_init v)
  /\ (forall v, Dict.lookup d "pest_symptoms" = Some v ->
                pest_symptoms r = post_init v)
  /\ (forall v, Dict.lookup d "pest_treatment" = Some v ->
                pest_treatment r = post_init v).

(** The pest fields of a record in their default state. *)
Definition no_pest (r : DiseaseAnalysisResult) : Prop :=
  pest_detected r = false
  /\ pest_name r = PyNone
  /\ pest_severity r = PyStr "none"
  /\ pest_confidence r = FDec false 0 0
  /\ pest_symptoms r = PyList []
  /\ pest_treatment r = PyList []
  /\ common_pests r = PyList [].

Definition pest_keys : list pystr :=
  ["common_pests"; "pest_detected"; "pest_name"; "pest_severity";
   "pest_confidence"; "pest_symptoms"; "pest_treatment"].

(** The pest entries of a dictionary in their default state. *)
Definition no_pest_entries (d : pydict) : Prop :=
  Dict.lookup d "pest_detected" = Some (PyBool false)
  /\ Dict.lookup d "pest_name" = Some PyNone
  /\ Dict.lookup d "pest_severity" = Some (PyStr "none")
  /\ Dict.lookup d "pest_confidence" = Some (PyInt 0)
  /\ Dict.lookup d "pest_symptoms" = Some (PyList [])
  /\ Dict.lookup d "pest_treatment" = Some (PyList [])
  /\ Dict.lookup d "common_pests" = Some (PyList []).

(** The reply the model is told to give for a picture without a leaf,
    with the two texts it may choose. *)
Definition invalid_image_reply (symptom advice : string) : pydict :=
  [ ("disease_detected", PyBool false);
    ("disease_type", PyStr "invalid_image");
    ("confidence", PyInt 95);
    ("symptoms", PyList [PyStr symptom]);
    ("treatment", PyList [PyStr advice]) ].


(** The text [t] inside a fenced block tagged [json]. *)
Definition fenced (t : string) : string :=
  ("```json" ++ String nl (t ++ String nl "```"))%string.

(** A scanner of values that is well behaved on the texts shorter
    than [n]: it does not run out of budget and consumes something. *)
Definition progresses (scan_value : string -> scan pyval) (n : nat) : Prop :=
  forall s, String.length s < n ->
    scan_value s <> Exhausted /\
    forall v rest, scan_value s = Scanned v rest ->
                   String.length rest < String.length s.

(** The two exceptions [json.loads] raises besides [JSONDecodeError]:
    they are not caught in [_parse_response]. *)
Definition limit_error (e : py_error) : Prop :=
  e = ValueError_int_digits \/ e = RecursionError.

Definition is_dict (v : pyval) : bool :=
  match v with
  | PyDict _ => true
  | _ => false
  end.


(** The characters a JSON value can begin with. *)
Definition value_start (c : ascii) : bool :=
  is_digit c
  || existsb (Ascii.eqb c)
       ([dquote; "{"; "["; "n"; "t"; "f"; "N"; "I"; "-"])%char.

(** Whether a run reports a pest: never for an invalid image, else by
    the uniform draw. *)
Definition draws_pest (rnd : draws) (d : pydict) : bool :=
  if is_str (Dict.lookup d "disease_type") "invalid_image" then false
  else if truthy (Dict.lookup d "disease_detected")
       then below_0_6 (uniform rnd)
       else below_0_3 (uniform rnd).

(** The members of an object as [dumps] writes them. *)
Definition members_text (float_repr : pyfloat -> string)
  : list (pystr * pyval) -> string :=
  fix members (d : list (pystr * pyval)) : string :=
    match d with
    | [] => EmptyString
    | [(k, x)] => quote k ++ ": " ++ dumps float_repr x
    | (k, x) :: r =>
        quote k ++ ": " ++ dumps float_repr x ++ ", " ++ members r
    end.

(** *** The replies of the examples *)

Definition reply_word_confidence : string :=
  json_text "{'confidence': 'eighty-five'}".

Definition reply_detected : string :=
  json_text "{'disease_detected': true, 'confidence': 85}".

Definition reply_marker_in_name : string :=
  json_text "{'disease_name': 'a```b'}".

Definition body_fungal : string :=
  json_text "'disease_type': 'fungal', 'confidence': 70".

Definition reply_pest_unnamed : string :=
  json_text "{'pest_detected': true}".

Definition reply_invalid_image : string :=
  json_text ("{'disease_detected': false, 'disease_type': 'invalid_image', "
             ++ "'confidence': 95, 'symptoms': ['...'], "
             ++ "'treatment': ['...']}").

Definition reply_invalid_with_findings : string :=
  json_text ("{'disease_type': 'invalid_image', 'disease_detected': true, "
             ++ "'pest_detected': true, 'pest_name': 'Aphids'}").

(** [float.__repr__] on the doubles of the examples: a whole number
    below 10^16 is written with [.0] after its digits. *)
Definition repr_whole (f : pyfloat) : string :=
  match f with
  | FDec neg m 0 => (if neg then "-" else "") ++ decimal_of_N m ++ ".0"
  | _ => "nan"
  end.

(** A result whose symptoms mention a keyword in capitals. *)
Definition result_with_holes : pydict :=
  [ ("disease_detected", PyBool true);
    ("confidence", PyFloat (FDec false 90 0));
    ("symptoms", PyList [PyStr "Small HOLES near the edge"]) ].

(** A clock reading for the examples. *)
Definition t0 : string := "2024-05-01T09:00:00+00:00".

(** An interpreter for the examples: the default limit on the digits
    of an [int], room for 900 nested arrays and objects, and a [float]
    that accepts no text beyond U+00FF (no example converts one). *)
Definition py0 : interpreter :=
  {| int_max_str_digits := 4300;
     recursion_room := 900;
     float_of_wide := fun _ => None |}.
End Vocabulary.

(** ** [base64.b64encode]

    The standard encoding of the library: three bytes give four
    characters of the alphabet, and a last group of one or two bytes is
    padded with [=].  A [bytes] value is a sequence of 8-bit values,
    here one [ascii] each. *)

Module Base64.
Import PyStr.
Local Open Scope string_scope.

Definition alphabet : string :=
  "ABCDEFGHIJKLMNOPQRSTUVWXYZabcdefghijklmnopqrstuvwxyz0123456789+/".

(** The character for a 6-bit value. *)
Definition digit (n : N) : ascii :=
  match String.get (N.to_nat (N.land n 63)) alphabet with
  | Some c => c
  | None => "="%char
  end.

Fixpoint b64encode (data : string) : string :=
  match data with
  | String a (String b (String c r)) =>
      let n := (N.shiftl (code a) 16 + N.shiftl (code b) 8 + code c)%N in
      String (digit (N.shiftr n 18))
        (String (digit (N.shiftr n 12))
           (String (digit (N.shiftr n 6))
              (String (digit n) (b64encode r))))
  | String a (String b EmptyString) =>
      let n := (N.shiftl (code a) 16 + N.shiftl (code b) 8)%N in
      String (digit (N.shiftr n 18))
        (String (digit (N.shiftr n 12))
           (String (digit (N.shiftr n 6)) "="))
  | String a EmptyString =>
      let n := N.shiftl (code a) 16 in
      String (digit (N.shiftr n 18))
        (String (digit (N.shiftr n 12)) "==")
  | EmptyString => EmptyString
  end.

End Base64.

(** ** The detector's constructor and the byte-level test of [utils.py] *)

Module Harness.
Import PyStr PyNum Detector Utils Base64.
Local Open Scope string_scope.

(** [LeafDiseaseDetector.__init__], up to its key check: [api_key] is the
    argument and [environ_key] what [os.environ.get("GROQ_API_KEY")]
    returns after [load_dotenv()].  [None] stands for the [ValueError]
    raised when no key is found, [Some key] for the key kept. *)
Definition init_api_key (api_key environ_key : pyval) : option pyval :=
  let key := py_or api_key environ_key in
  if negb (py_bool key) then None else Some key.

Section Convert.
Variable float_repr : pyfloat -> string.
Variable analyze : string -> result pydict.

(** [convert_image_to_base64_and_test]: no bytes, no test. *)
Definition convert_image_to_base64_and_test (image_bytes : string)
  : option pydict :=
  match image_bytes with
  | EmptyString => None
  | _ => test_with_base64_data float_repr analyze (b64encode image_bytes)
  end.
End Convert.

End Harness.

(** ** More vocabulary for the statements *)

Module Wording.
Import PyStr PyNum Json JsonDump App Utils Detector Vocabulary.
Local Open Scope string_scope.

(** Whitespace only. *)
Fixpoint blank (s : string) : bool :=
  match s with
  | String c r => isspace c && blank r
  | EmptyString => true
  end.

(** The text [t] in a fenced block without a language tag, and in one
    with the tag [tag]. *)
Definition fenced_plain (t : string) : string :=
  "```" ++ String nl (t ++ String nl "```").

Definition fenced_as (tag t : string) : string :=
  "```" ++ tag ++ String nl (t ++ String nl "```").

(** The outcome [r] of parsing another text, as it reads for [raw]: the
    parse error quotes [raw]. *)
Definition quoting (raw : string) (r : result DiseaseAnalysisResult)
  : result DiseaseAnalysisResult :=
  match r with
  | Raise (ValueError_unparseable _) => Raise (unparseable raw)
  | other => other
  end.

(** The fields of a result, in the order of the class. *)
Definition result_keys : list pystr :=
  ["disease_detected"; "disease_name"; "disease_type"; "severity";
   "confidence"; "symptoms"; "possible_causes"; "treatment";
   "common_pests"; "pest_detected"; "pest_name"; "pest_severity";
   "pest_confidence"; "pest_symptoms"; "pest_treatment";
   "analysis_timestamp"].

(** The keys [add_mock_pest_data] may write. *)
Definition mock_keys : list pystr :=
  ["pest_detected"; "pest_name"; "pest_severity"; "pest_confidence";
   "pest_symptoms"; "pest_treatment"; "common_pests";
   "analysis_timestamp"].

(** The keys it writes on every run. *)
Definition mock_keys_always : list pystr :=
  ["pest_detected"; "pest_name"; "pest_severity"; "pest_confidence";
   "pest_symptoms"; "pest_treatment"; "analysis_timestamp"].

(** The last step of [add_mock_pest_data]: a result without timestamp
    gets the clock reading. *)
Definition stamped (now : string) (r : pydict) : pydict :=
  if Dict.mem r "analysis_timestamp" then r
  else Dict.set r "analysis_timestamp" (PyStr now).

(** The entries [add_mock_pest_data] writes for the pest [p]. *)
Definition with_pest (rnd : draws) (p : pest) (sev : string) (d : pydict)
  : pydict :=
  Dict.set
    (Dict.set
       (Dict.set
          (Dict.set
             (Dict.set (Dict.set d "pest_detected" (PyBool true))
                "pest_name" (PyStr (name p)))
             "pest_severity" (PyStr sev))
          "pest_confidence"
          (PyInt (75 + Z.of_N (confidence_offset rnd mod 21))))
       "pest_symptoms"
       (strs (sample (symptom_picks rnd) 3 (App.symptoms p))))
    "pest_treatment"
    (strs (sample (treatment_picks rnd) 3 (treatments p))).

(** The entries it writes when there is no pest. *)
Definition without_pest (d : pydict) : pydict :=
  Dict.set
    (Dict.set
       (Dict.set
          (Dict.set
             (Dict.set
                (Dict.set (Dict.set d "pest_detected" (PyBool false))
                   "pest_name" PyNone)
                "pest_severity" (PyStr "none"))
             "pest_confidence" (PyInt 0))
          "pest_symptoms" (PyList []))
       "pest_treatment" (PyList []))
    "common_pests" (PyList []).

(** Every character of [s] passes the test [ok]. *)
Fixpoint all_chars (ok : ascii -> bool) (s : string) : bool :=
  match s with
  | String c r => ok c && all_chars ok r
  | EmptyString => true
  end.

(** The characters a text that [float] accepts is made of: digits, the
    signs, the point, the underscore, the letters of the exponent and of
    [inf], [infinity] and [nan] in either case, and whitespace. *)
Definition float_char (c : ascii) : bool :=
  is_digit c || float_space c
  || existsb (Ascii.eqb (lower_char c))
       ["+"; "-"; "."; "_"; "e"; "i"; "n"; "f"; "t"; "y"; "a"]%char.

(** The text of [n] characters [c]. *)
Fixpoint run_of (c : ascii) (n : nat) : string :=
  match n with
  | O => EmptyString
  | S k => String c (run_of c k)
  end.

(** The request of an analysis with the default options. *)
Definition default_request (payload : string) : completion_request :=
  {| image_url := "data:image/jpeg;base64," ++ payload;
     temperature := DEFAULT_TEMPERATURE;
     max_completion_tokens := DEFAULT_MAX_TOKENS |}.

(** A service for the examples: it answers with the URL it is sent. *)
Definition echo_url (request : completion_request) : result string :=
  match image_url request with
  | Latin url => Ok url
  | Wide _ => Ok EmptyString
  end.

(** A value none of the Python conversions to [float] accepts by type. *)
Definition not_a_number (v : pyval) : bool :=
  match v with
  | PyNone | PyList _ | PyDict _ => true
  | _ => false
  end.

End Wording.



(** * Properties *)

#[local] Arguments Ascii.eqb : simpl never.

(** ** Text *)

Module PyStrFacts.
Import PyStr.

Lemma append_assoc (a b c : string) : ((a ++ b) ++ c = a ++ (b ++ c))%string.
Proof.
  induction a as [|x a IH]; simpl; [reflexivity | now rewrite IH].
Qed.

Lemma append_empty_r (a : string) : (a ++ "")%string = a.
Proof.
  induction a as [|x a IH]; simpl; [reflexivity | now rewrite IH].
Qed.

Lemma append_is_empty (a b : string) :
  (a ++ b)%string = EmptyString -> a = EmptyString /\ b = EmptyString.
Proof.
  destruct a; simpl; intros H; [now split | discriminate].
Qed.

(** *** [startswith] and [contains] *)

Lemma startswith_app_l (p a w : string) :
  startswith p a = true -> startswith p (a ++ w) = true.
Proof.
  revert a; induction p as [|x p IH]; intros a H; [reflexivity|].
  destruct a as [|y a]; simpl in *; [discriminate|].
  apply andb_true_iff in H as [Hxy Hp].
  now rewrite Hxy, (IH _ Hp).
Qed.

Lemma startswith_contains (p s : string) :
  startswith p s = true -> contains p s = true.
Proof.
  intros H; destruct s; simpl in *; now rewrite H.
Qed.

Lemma contains_tail (p : string) (c : ascii) (s : string) :
  contains p s = true -> contains p (String c s) = true.
Proof.
  intros H; cbn [contains]; rewrite H; apply orb_true_r.
Qed.

Lemma contains_app_l (p a w : string) :
  contains p a = true -> contains p (a ++ w) = true.
Proof.
  induction a as [|x a IH]; intros H.
  - cbn [contains] in H; rewrite orb_false_r in H.
    apply startswith_contains.
    now apply (startswith_app_l p EmptyString w).
  - cbn [contains] in H; apply orb_true_iff in H as [H | H].
    + apply startswith_contains.
      now apply (startswith_app_l p (String x a) w).
    + change (String x a ++ w)%string with (String x (a ++ w)).
      apply contains_tail; auto.
Qed.

(** *** [strip] *)

(** [rstrip] cuts a suffix off. *)
Lemma rstrip_prefix (s : string) : exists w, s = (rstrip s ++ w)%string.
Proof.
  induction s as [|c s [w IH]]; [now exists EmptyString|].
  cbn [rstrip]; destruct (rstrip s) as [|d r] eqn:E.
  - destruct (isspace c).
    + now exists (String c s).
    + exists w; simpl; simpl in IH; now rewrite <- IH.
  - exists w; simpl; simpl in IH; now f_equal.
Qed.

Lemma contains_lstrip (p s : string) :
  contains p (lstrip s) = true -> contains p s = true.
Proof.
  induction s as [|c s IH]; [auto|].
  cbn [lstrip]; destruct (isspace c); [|auto].
  intros H; apply contains_tail; auto.
Qed.

Lemma contains_strip (p s : string) :
  contains p (strip s) = true -> contains p s = true.
Proof.
  unfold strip; intros H; apply contains_lstrip in H.
  destruct (rstrip_prefix s) as [w Hw]; rewrite Hw.
  now apply contains_app_l.
Qed.

(** A text that ends in something [rstrip] keeps is kept whole. *)
Lemma rstrip_app_keep (s t : string) :
  rstrip t <> EmptyString -> rstrip (s ++ t) = (s ++ rstrip t)%string.
Proof.
  intros Ht; induction s as [|c s IH]; [reflexivity|].
  simpl; rewrite IH.
  destruct (s ++ rstrip t)%string eqn:E; [|reflexivity].
  apply append_is_empty in E as [_ E]; contradiction.
Qed.

(** Trailing whitespace does not matter. *)
Lemma rstrip_app_space (s w : string) :
  rstrip w = EmptyString -> rstrip (s ++ w) = rstrip s.
Proof.
  intros Hw; induction s as [|c s IH]; simpl; [assumption|].
  now rewrite IH.
Qed.

Lemma lstrip_rstrip_cons (c : ascii) (s : string) :
  isspace c = true -> lstrip (rstrip (String c s)) = lstrip (rstrip s).
Proof.
  intros Hc; cbn [rstrip]; destruct (rstrip s) as [|d r] eqn:E.
  - now rewrite Hc.
  - cbn [lstrip]; now rewrite Hc.
Qed.

Lemma rstrip_head (c : ascii) (s : string) :
  isspace c = false -> exists s', rstrip (String c s) = String c s'.
Proof.
  intros Hc; cbn [rstrip]; destruct (rstrip s); [rewrite Hc|]; eauto.
Qed.

Lemma strip_head (c : ascii) (s : string) :
  isspace c = false -> exists s', strip (String c s) = String c s'.
Proof.
  intros Hc; unfold strip; destruct (rstrip_head c s Hc) as [s' ->].
  cbn [lstrip]; rewrite Hc; eauto.
Qed.

(** *** Characters that do not occur *)

Lemma lacks_app (c : ascii) (a b : string) :
  lacks c (a ++ b) = lacks c a && lacks c b.
Proof.
  induction a as [|x a IH]; simpl; [reflexivity|].
  now rewrite IH, andb_assoc.
Qed.

Lemma lacks_lstrip (c : ascii) (s : string) :
  lacks c s = true -> lacks c (lstrip s) = true.
Proof.
  induction s as [|x s IH]; [auto|].
  cbn [lstrip]; destruct (isspace x); [|auto].
  simpl; intros H; apply andb_true_iff in H as [_ H]; auto.
Qed.

Lemma lacks_rstrip (c : ascii) (s : string) :
  lacks c s = true -> lacks c (rstrip s) = true.
Proof.
  intros H; destruct (rstrip_prefix s) as [w Hw].
  rewrite Hw, lacks_app in H.
  now apply andb_true_iff in H as [H _].
Qed.

Lemma lacks_strip (c : ascii) (s : string) :
  lacks c s = true -> lacks c (strip s) = true.
Proof.
  intros H; unfold strip; now apply lacks_lstrip, lacks_rstrip.
Qed.

Lemma lacks_replace_from (c : ascii) (old : string) (s : string) :
  forall skip, lacks c s = true ->
               lacks c (replace_from old "" skip s) = true.
Proof.
  induction s as [|x s IH]; intros skip H; [reflexivity|].
  simpl in H; apply andb_true_iff in H as [Hx Hs].
  cbn [replace_from]; destruct skip as [|k]; [|auto].
  destruct (startswith old (String x s)); simpl; [auto|].
  now rewrite Hx, IH.
Qed.

Lemma lacks_replace (c : ascii) (old s : string) :
  lacks c s = true -> lacks c (replace old "" s) = true.
Proof.
  intros H; unfold replace; destruct old; [assumption|].
  now apply lacks_replace_from.
Qed.

(** *** The brace search *)

Lemma from_first_lacks (c : ascii) (s : string) :
  lacks c s = true -> from_first c s = None.
Proof.
  induction s as [|x s IH]; [reflexivity|].
  simpl; intros H; apply andb_true_iff in H as [Hx Hs].
  apply negb_true_iff in Hx; now rewrite Hx, IH.
Qed.

Lemma from_first_app (c : ascii) (a w : string) :
  from_first c (a ++ w) =
  match from_first c a with
  | Some x => Some (x ++ w)%string
  | None => from_first c w
  end.
Proof.
  induction a as [|x a IH]; simpl; [reflexivity|].
  destruct (x =? c); [reflexivity | exact IH].
Qed.

Lemma from_first_some (c : ascii) (s x : string) :
  from_first c s = Some x -> exists r, x = String c r.
Proof.
  induction s as [|a s IH]; simpl; [discriminate|].
  destruct (a =? c) eqn:E; [|exact IH].
  apply Ascii.eqb_eq in E; subst a.
  intros H; injection H as <-; now exists s.
Qed.

Lemma upto_last_lacks (c : ascii) (s : string) :
  lacks c s = true -> upto_last c s = None.
Proof.
  induction s as [|x s IH]; [reflexivity|].
  simpl; intros H; apply andb_true_iff in H as [Hx Hs].
  apply negb_true_iff in Hx; now rewrite IH, Hx.
Qed.

Lemma upto_last_app_none (c : ascii) (a w : string) :
  upto_last c w = None -> upto_last c (a ++ w) = upto_last c a.
Proof.
  intros Hw; induction a as [|x a IH]; simpl; [assumption|].
  now rewrite IH.
Qed.

Lemma upto_last_snoc (c : ascii) (a : string) :
  upto_last c (a ++ String c EmptyString)
  = Some (a ++ String c EmptyString)%string.
Proof.
  induction a as [|x a IH]; simpl.
  - now rewrite Ascii.eqb_refl.
  - now rewrite IH.
Qed.

Lemma search_braces_lacks (s : string) :
  lacks "{" s = true -> search_braces s = None.
Proof.
  intros H; unfold search_braces; now rewrite from_first_lacks.
Qed.

(** Text without braces around the candidate does not change the match. *)
Lemma search_braces_context (pre s post : string) :
  lacks "{" pre = true -> lacks "{" post = true -> lacks "}" post = true ->
  search_braces (pre ++ s ++ post) = search_braces s.
Proof.
  intros Hpre Hpost Hpost'; unfold search_braces.
  rewrite from_first_app, (from_first_lacks _ _ Hpre), from_first_app.
  destruct (from_first "{" s) as [x|] eqn:E.
  - destruct (from_first_some _ _ _ E) as [r ->].
    change (String "{" r ++ post)%string with (String "{" (r ++ post)).
    cbn iota.
    now rewrite upto_last_app_none by now apply upto_last_lacks.
  - now rewrite from_first_lacks.
Qed.

(** An object text in brace-free prose is found whole. *)
Lemma search_braces_embedded (pre body post : string) :
  lacks "{" pre = true -> lacks "}" post = true ->
  search_braces (pre ++ String "{" (body ++ "}") ++ post)
  = Some (String "{" (body ++ "}")).
Proof.
  intros Hpre Hpost; unfold search_braces.
  rewrite from_first_app, (from_first_lacks _ _ Hpre).
  cbn [append from_first]; rewrite Ascii.eqb_refl.
  rewrite upto_last_app_none by now apply upto_last_lacks.
  now rewrite upto_last_snoc.
Qed.

End PyStrFacts.

(** ** The scanner *)

Module JsonFacts.
Import PyStr PyNum Json PyStrFacts Vocabulary.

Lemma skip_ws_length (s : string) :
  String.length (skip_ws s) <= String.length s.
Proof.
  induction s as [|c s IH]; simpl; [lia|].
  destruct (is_ws c); simpl; lia.
Qed.

Lemma lacks_skip_ws (c : ascii) (s : string) :
  lacks c s = true -> lacks c (skip_ws s) = true.
Proof.
  induction s as [|x s IH]; [auto|].
  cbn [skip_ws]; destruct (is_ws x); [|auto].
  simpl; intros H; apply andb_true_iff in H as [_ H]; auto.
Qed.

Lemma drop_length (n : nat) (s : string) :
  String.length (drop n s) = String.length s - n.
Proof.
  revert s; induction n as [|n IH]; intros [|c s]; simpl; auto; lia.
Qed.

Lemma startswith_nonempty (p s : string) :
  startswith p s = true -> p <> EmptyString -> 0 < String.length s.
Proof.
  destruct p; [congruence|]; destruct s; simpl; [discriminate | lia].
Qed.

(** *** Every scanner consumes something *)

Lemma scanstring_shorter (n : nat) :
  forall s t rest,
    String.length s <= n -> scanstring s = Some (t, rest) ->
    String.length rest < String.length s.
Proof.
  induction n as [|n IH]; intros s t rest Hn H.
  - destruct s; [discriminate | simpl in Hn; lia].
  - destruct s as [|c r]; [discriminate|].
    cbn [scanstring] in H; cbn [String.length] in Hn.
    destruct (c =? dquote); [injection H as _ <-; simpl; lia|].
    destruct (c =? "\").
    + destruct r as [|e r']; [discriminate|].
      destruct (e =? "u").
      * destruct r' as [|h1 [|h2 [|h3 [|h4 r'']]]]; try discriminate.
        destruct (hex4 h1 h2 h3 h4) as [k|]; [|discriminate].
        cbv zeta in H; cbn [String.length] in *.
        assert (Ha : forall t0 rest0,
                   match scanstring r'' with
                   | Some (t1, rest1) => Some (k :: t1, rest1)
                   | None => None
                   end = Some (t0, rest0) ->
                   String.length rest0 < String.length r'' + 6).
        { intros t0 rest0 E.
          destruct (scanstring r'') as [[t' rest']|] eqn:E'; [|discriminate].
          injection E as _ <-; apply IH in E'; lia. }
        destruct (is_high k); [|apply Ha in H; lia].
        destruct r'' as [|b [|u [|g1 [|g2 [|g3 [|g4 r6]]]]]];
          try (apply Ha in H; cbn [String.length] in *; lia).
        destruct ((b =? "\") && (u =? "u"));
          [|apply Ha in H; cbn [String.length] in *; lia].
        destruct (hex4 g1 g2 g3 g4) as [m|]; [|discriminate].
        destruct (is_low m);
          [|apply Ha in H; cbn [String.length] in *; lia].
        destruct (scanstring r6) as [[t' rest']|] eqn:E; [|discriminate].
        injection H as _ <-; apply IH in E; cbn [String.length] in *; lia.
      * destruct (escape e); [|discriminate].
        destruct (scanstring r') as [[t' rest']|] eqn:E; [|discriminate].
        injection H as _ <-; apply IH in E; simpl in *; lia.
    + destruct (code c <? 32)%N; [discriminate|].
      destruct (scanstring r) as [[t' rest']|] eqn:E; [|discriminate].
      injection H as _ <-; apply IH in E; simpl in *; lia.
Qed.

Lemma span_digits_length (s : string) :
  String.length (snd (span_digits s)) <= String.length s.
Proof.
  induction s as [|c s IH]; simpl; [lia|].
  destruct (is_digit c); [|simpl; lia].
  destruct (span_digits s); simpl in *; lia.
Qed.

Lemma span_exponent_shorter (s : string) (z : Z) (rest : string) :
  span_exponent s = Some (z, rest) ->
  String.length rest < String.length s.
Proof.
  unfold span_exponent; destruct s as [|c r]; [discriminate|].
  destruct ((c =? "e") || (c =? "E")); [|discriminate].
  assert (Hgen : forall neg r1,
             String.length r1 <= String.length r ->
             (let (ds, rest0) := span_digits r1 in
              match ds with
              | EmptyString => None
              | String _ _ =>
                  Some ((if neg : bool then - Z.of_N (nat_of_digits ds)
                         else Z.of_N (nat_of_digits ds))%Z, rest0)
              end) = Some (z, rest) ->
             String.length rest < String.length (String c r)).
  { intros neg r1 Hr1 H.
    pose proof (span_digits_length r1) as Hd.
    destruct (span_digits r1) as [ds rest0]; destruct ds; [discriminate|].
    injection H as _ <-; simpl in *; lia. }
  destruct r as [|sg r'].
  - apply (Hgen false); simpl; lia.
  - destruct (sg =? "-"); [apply (Hgen true); simpl; lia|].
    destruct (sg =? "+"); apply (Hgen false); simpl; lia.
Qed.

Lemma match_digits_shorter (py : interpreter) (neg : bool) (body : string)
      (v : pyval) (rest : string) :
  match_digits py neg body = Scanned v rest ->
  String.length rest < String.length body.
Proof.
  unfold match_digits; destruct body as [|c r]; [discriminate|].
  destruct (is_digit c); [|discriminate].
  assert (H1 : exists ip r1,
             (if c =? "0" then (String c EmptyString, r)
              else let (ds, rest) := span_digits r in (String c ds, rest))
             = (ip, r1) /\ String.length r1 <= String.length r).
  { destruct (c =? "0"); [now eexists _, _|].
    pose proof (span_digits_length r).
    destruct (span_digits r); now eexists _, _. }
  destruct H1 as (ip & r1 & -> & Hr1).
  assert (H2 : exists fp r2,
             match r1 with
             | String p (String d r') =>
                 if (p =? ".") && is_digit d
                 then let (ds, rest) := span_digits r' in
                      (String d ds, rest)
                 else (EmptyString, r1)
             | _ => (EmptyString, r1)
             end = (fp, r2) /\ String.length r2 <= String.length r1).
  { destruct r1 as [|p [|d r']]; try (now eexists _, _).
    destruct ((p =? ".") && is_digit d); [|now eexists _, _].
    pose proof (span_digits_length r').
    destruct (span_digits r'); eexists _, _; split; [reflexivity|].
    simpl in *; lia. }
  destruct H2 as (fp & r2 & -> & Hr2).
  destruct (span_exponent r2) as [[ex r3]|] eqn:E.
  - apply span_exponent_shorter in E.
    intros H; injection H as _ <-; simpl; lia.
  - destruct fp; cbv zeta.
    + destruct (over_digit_limit py ip); [discriminate|].
      intros H; injection H as _ <-; simpl; lia.
    + intros H; injection H as _ <-; simpl; lia.
Qed.

Lemma match_number_shorter (py : interpreter) (s : string)
      (v : pyval) (rest : string) :
  match_number py s = Scanned v rest ->
  String.length rest < String.length s.
Proof.
  unfold match_number; destruct s as [|c r]; [discriminate|].
  destruct (c =? "-"); intros H; apply match_digits_shorter in H;
    simpl in *; lia.
Qed.

Lemma match_digits_outcome (py : interpreter) (neg : bool) (body : string) :
  match_digits py neg body <> Exhausted
  /\ (forall e, match_digits py neg body = Failed e ->
                e = ValueError_int_digits)
  /\ (forall v rest, match_digits py neg body = Scanned v rest ->
                     is_dict v = false).
Proof.
  unfold match_digits; destruct body as [|c r];
    [repeat split; discriminate|].
  destruct (is_digit c); [|repeat split; discriminate].
  destruct (if c =? "0" then _ else _) as [ip r1].
  destruct (match r1 with String _ _ => _ | _ => _ end) as [fp r2].
  destruct (span_exponent r2) as [[ex r3]|]; [|destruct fp]; cbv zeta;
    try destruct (over_digit_limit py ip);
    (split; [discriminate|]); (split; [try discriminate|]);
    try (intros v rest H; injection H as <- _; reflexivity);
    try discriminate.
  intros e H; injection H as <-; reflexivity.
Qed.

Lemma match_number_outcome (py : interpreter) (s : string) :
  match_number py s <> Exhausted
  /\ (forall e, match_number py s = Failed e -> e = ValueError_int_digits)
  /\ (forall v rest, match_number py s = Scanned v rest ->
                     is_dict v = false).
Proof.
  unfold match_number; destruct s as [|c r];
    [repeat split; discriminate|].
  destruct (c =? "-"); apply match_digits_outcome.
Qed.

Lemma scan_atom_shorter (py : interpreter) (s : string)
      (v : pyval) (rest : string) :
  scan_atom py s = Scanned v rest -> String.length rest < String.length s.
Proof.
  unfold scan_atom.
  repeat match goal with
         | |- context [if startswith ?p s then _ else _] =>
             let E := fresh "E" in
             destruct (startswith p s) eqn:E;
             [ apply startswith_nonempty in E; [|discriminate];
               intros H;
               match type of H with
               | Scanned _ ?d = _ =>
                   assert (rest = d) as -> by congruence
               end;
               rewrite drop_length; lia
             | clear E ]
         end.
  apply match_number_shorter.
Qed.

Lemma scan_atom_outcome (py : interpreter) (s : string) :
  scan_atom py s <> Exhausted
  /\ (forall e, scan_atom py s = Failed e -> e = ValueError_int_digits)
  /\ (forall v rest, scan_atom py s = Scanned v rest -> is_dict v = false).
Proof.
  unfold scan_atom.
  repeat match goal with
         | |- context [if ?b then _ else _] =>
             destruct b;
             [split; [discriminate|]; split; [discriminate|];
              intros v rest H; injection H as <- _; reflexivity|]
         end.
  apply match_number_outcome.
Qed.

Lemma scan_atom_not_exhausted (py : interpreter) (s : string) :
  scan_atom py s <> Exhausted.
Proof. apply scan_atom_outcome. Qed.

(** *** The budget of the model is never used up *)

Lemma scan_elements_progress (scan_value : string -> scan pyval) (n : nat) :
  progresses scan_value n ->
  forall fuel acc s,
    String.length s < fuel -> String.length s < n ->
    scan_elements scan_value fuel acc s <> Exhausted /\
    forall l rest, scan_elements scan_value fuel acc s = Scanned l rest ->
                   String.length rest < String.length s.
Proof.
  intros Hv; induction fuel as [|f IH]; intros acc s Hf Hn; [lia|].
  cbn [scan_elements].
  destruct (Hv s Hn) as [Hne Hlt].
  destruct (scan_value s) as [v rest| |e|] eqn:E;
    [|split; [discriminate|easy]|split; [discriminate|easy]|congruence].
  specialize (Hlt _ _ eq_refl).
  pose proof (skip_ws_length rest) as Hws.
  destruct (skip_ws rest) as [|c r]; [split; [discriminate|easy]|].
  simpl in Hws.
  destruct (c =? "]").
  { split; [discriminate|].
    intros l rest' H; injection H as _ <-; lia. }
  destruct (c =? ","); [|split; [discriminate|easy]].
  pose proof (skip_ws_length r) as Hws'.
  destruct (IH (v :: acc) (skip_ws r)) as [Hne' Hlt']; [lia|lia|].
  split; [assumption|].
  intros l rest' H; apply Hlt' in H; lia.
Qed.

Lemma scan_members_progress (scan_value : string -> scan pyval) (n : nat) :
  progresses scan_value n ->
  forall fuel acc s,
    String.length s < fuel -> String.length s < n ->
    scan_members scan_value fuel acc s <> Exhausted /\
    forall d rest, scan_members scan_value fuel acc s = Scanned d rest ->
                   String.length rest < String.length s.
Proof.
  intros Hv; induction fuel as [|f IH]; intros acc s Hf Hn; [lia|].
  cbn [scan_members].
  destruct s as [|q r0]; [split; [discriminate|easy]|].
  simpl in Hf, Hn.
  destruct (q =? dquote); [|split; [discriminate|easy]].
  destruct (scanstring r0) as [[key r1]|] eqn:Ek;
    [|split; [discriminate|easy]].
  apply (scanstring_shorter _ _ _ _ (le_n _)) in Ek.
  pose proof (skip_ws_length r1) as Hw1.
  destruct (skip_ws r1) as [|colon r2]; [split; [discriminate|easy]|].
  simpl in Hw1.
  destruct (colon =? ":"); [|split; [discriminate|easy]].
  pose proof (skip_ws_length r2) as Hw2.
  destruct (Hv (skip_ws r2)) as [Hne Hlt]; [lia|].
  destruct (scan_value (skip_ws r2)) as [v rest| |e|] eqn:E;
    [|split; [discriminate|easy]|split; [discriminate|easy]|congruence].
  specialize (Hlt _ _ eq_refl).
  pose proof (skip_ws_length rest) as Hws.
  destruct (skip_ws rest) as [|c r]; [split; [discriminate|easy]|].
  simpl in Hws; cbv zeta.
  destruct (c =? "}").
  { split; [discriminate|].
    intros d rest' H; injection H as _ <-; simpl; lia. }
  destruct (c =? ","); [|split; [discriminate|easy]].
  pose proof (skip_ws_length r) as Hws'.
  destruct (IH (Dict.set acc (Text.of_codes key) v) (skip_ws r))
    as [Hne' Hlt']; [lia|lia|].
  split; [assumption|].
  intros d rest' H; apply Hlt' in H; simpl; lia.
Qed.

Lemma scan_once_progress (py : interpreter) (fuel : nat) :
  forall room, progresses (scan_once py fuel room) fuel.
Proof.
  induction fuel as [|f IH]; intros room s Hs; [lia|].
  cbn [scan_once].
  destruct s as [|c r]; [split; [discriminate|easy]|].
  simpl in Hs.
  destruct (c =? dquote).
  { destruct (scanstring r) as [[t rest]|] eqn:E;
      [|split; [discriminate|easy]].
    apply (scanstring_shorter _ _ _ _ (le_n _)) in E.
    split; [discriminate|].
    intros v rest' H; injection H as _ <-; simpl; lia. }
  pose proof (skip_ws_length r) as Hw.
  destruct (c =? "{").
  { destruct room as [|room']; [split; [discriminate|easy]|].
    destruct (skip_ws r) as [|c' r'] eqn:Er; [split; [discriminate|easy]|].
    simpl in Hw.
    destruct (c' =? "}").
    { split; [discriminate|].
      intros v rest' H; injection H as _ <-; simpl; lia. }
    destruct (scan_members_progress _ _ (IH room') f [] (String c' r'))
      as [Hne Hlt]; [simpl; lia|simpl; lia|].
    destruct (scan_members (scan_once py f room') f [] (String c' r'))
      as [d rest| |e|];
      [|split; [discriminate|easy]|split; [discriminate|easy]|congruence].
    split; [discriminate|].
    intros v rest' H; injection H as _ <-.
    specialize (Hlt _ _ eq_refl); simpl in *; lia. }
  destruct (c =? "[").
  { destruct room as [|room']; [split; [discriminate|easy]|].
    destruct (skip_ws r) as [|c' r'] eqn:Er; [split; [discriminate|easy]|].
    simpl in Hw.
    destruct (c' =? "]").
    { split; [discriminate|].
      intros v rest' H; injection H as _ <-; simpl; lia. }
    destruct (scan_elements_progress _ _ (IH room') f [] (String c' r'))
      as [Hne Hlt]; [simpl; lia|simpl; lia|].
    destruct (scan_elements (scan_once py f room') f [] (String c' r'))
      as [l rest| |e|];
      [|split; [discriminate|easy]|split; [discriminate|easy]|congruence].
    split; [discriminate|].
    intros v rest' H; injection H as _ <-.
    specialize (Hlt _ _ eq_refl); simpl in *; lia. }
  split; [apply scan_atom_not_exhausted|].
  intros v rest H; now apply scan_atom_shorter in H.
Qed.

(** [loads] gives its scanner enough budget for any text: what the
    scanner returns is the value, a decoding error, or one of the two
    other exceptions. *)
Lemma loads_budget (py : interpreter) (s : string) :
  scan_once py (S (String.length (skip_ws s))) (recursion_room py)
    (skip_ws s) <> Exhausted.
Proof.
  apply (scan_once_progress py (S (String.length (skip_ws s)))); lia.
Qed.

(** *** The exceptions of the scanner *)

Lemma scan_elements_failed (scan_value : string -> scan pyval) :
  (forall s e, scan_value s = Failed e -> limit_error e) ->
  forall fuel acc s e,
    scan_elements scan_value fuel acc s = Failed e -> limit_error e.
Proof.
  intros Hv; induction fuel as [|f IH]; intros acc s e; [discriminate|].
  cbn [scan_elements].
  destruct (scan_value s) as [v rest| |e'|] eqn:E; try discriminate.
  - destruct (skip_ws rest) as [|c r]; [discriminate|].
    destruct (c =? "]"); [discriminate|].
    destruct (c =? ","); [apply IH | discriminate].
  - intros H; injection H as <-; eapply Hv; eauto.
Qed.

Lemma scan_members_failed (scan_value : string -> scan pyval) :
  (forall s e, scan_value s = Failed e -> limit_error e) ->
  forall fuel acc s e,
    scan_members scan_value fuel acc s = Failed e -> limit_error e.
Proof.
  intros Hv; induction fuel as [|f IH]; intros acc s e; [discriminate|].
  cbn [scan_members].
  destruct s as [|q r0]; [discriminate|].
  destruct (q =? dquote); [|discriminate].
  destruct (scanstring r0) as [[key r1]|]; [|discriminate].
  destruct (skip_ws r1) as [|colon r2]; [discriminate|].
  destruct (colon =? ":"); [|discriminate].
  destruct (scan_value (skip_ws r2)) as [v rest| |e'|] eqn:E;
    try discriminate.
  - destruct (skip_ws rest) as [|c r]; [discriminate|]; cbv zeta.
    destruct (c =? "}"); [discriminate|].
    destruct (c =? ","); [apply IH | discriminate].
  - intros H; injection H as <-; eapply Hv; eauto.
Qed.

Lemma scan_once_failed (py : interpreter) (fuel : nat) :
  forall room s e, scan_once py fuel room s = Failed e -> limit_error e.
Proof.
  induction fuel as [|f IH]; intros room s e; [discriminate|].
  cbn [scan_once].
  destruct s as [|c r]; [discriminate|].
  destruct (c =? dquote).
  { destruct (scanstring r) as [[t rest]|]; discriminate. }
  destruct (c =? "{").
  { destruct room as [|room'];
      [intros H; injection H as <-; now right|].
    destruct (skip_ws r) as [|c' r']; [discriminate|].
    destruct (c' =? "}"); [discriminate|].
    destruct (scan_members _ _ _ _) as [d rest| |e'|] eqn:E;
      try discriminate.
    intros H; injection H as <-.
    eapply scan_members_failed; [|exact E]; apply IH. }
  destruct (c =? "[").
  { destruct room as [|room'];
      [intros H; injection H as <-; now right|].
    destruct (skip_ws r) as [|c' r']; [discriminate|].
    destruct (c' =? "]"); [discriminate|].
    destruct (scan_elements _ _ _ _) as [l rest| |e'|] eqn:E;
      try discriminate.
    intros H; injection H as <-.
    eapply scan_elements_failed; [|exact E]; apply IH. }
  intros H; apply scan_atom_outcome in H; now left.
Qed.

(** [json.loads] raises [JSONDecodeError], the [ValueError] of a digit
    string beyond the limit, or [RecursionError], and nothing else. *)
Lemma loads_errors (py : interpreter) (s : string) (e : py_error) :
  loads py s = Raise e -> e = JSONDecodeError \/ limit_error e.
Proof.
  unfold loads.
  destruct (scan_once _ _ _ _) as [v rest| |e'|] eqn:E.
  - destruct (skip_ws rest); [discriminate|].
    intros H; injection H as <-; now left.
  - intros H; injection H as <-; now left.
  - intros H; injection H as <-; right.
    now apply scan_once_failed in E.
  - intros H; injection H as <-; now left.
Qed.

(** *** What the first character decides *)

Lemma scan_atom_not_dict (py : interpreter) (s : string)
      (v : pyval) (rest : string) :
  scan_atom py s = Scanned v rest -> is_dict v = false.
Proof. apply scan_atom_outcome. Qed.

(** Only a text that opens with a brace scans as a [dict]. *)
Lemma scan_once_dict (py : interpreter) (fuel room : nat) (s : string)
      (d : pydict) (rest : string) :
  scan_once py fuel room s = Scanned (PyDict d) rest ->
  exists r, s = String "{" r.
Proof.
  destruct fuel as [|f]; [discriminate|].
  cbn [scan_once]; destruct s as [|c r]; [discriminate|].
  destruct (c =? dquote).
  { destruct (scanstring r) as [[t rest']|]; discriminate. }
  destruct (c =? "{") eqn:E.
  { apply Ascii.eqb_eq in E; subst c; now exists r. }
  destruct (c =? "[").
  { destruct room as [|room']; [discriminate|].
    destruct (skip_ws r) as [|c' r']; [discriminate|].
    destruct (c' =? "]"); [discriminate|].
    destruct (scan_elements _ _ _ _); discriminate. }
  intros H; apply scan_atom_not_dict in H; discriminate.
Qed.

Lemma loads_dict_brace (py : interpreter) (s : string) (d : pydict) :
  loads py s = Ok (PyDict d) -> lacks "{" s = false.
Proof.
  unfold loads.
  destruct (scan_once _ _ _ (skip_ws s)) as [v rest| |e|] eqn:E;
    [|easy|easy|easy].
  destruct (skip_ws rest); [|easy].
  intros H; injection H as ->.
  apply scan_once_dict in E as [r Er].
  destruct (lacks "{" s) eqn:L; [|reflexivity].
  apply (lacks_skip_ws "{") in L; rewrite Er in L.
  cbn [lacks] in L; rewrite Ascii.eqb_refl in L; discriminate.
Qed.

(** A text that begins with any other character is no JSON text. *)
Lemma loads_bad_start (py : interpreter) (c : ascii) (r : string) :
  is_ws c = false -> value_start c = false ->
  loads py (String c r) = Raise JSONDecodeError.
Proof.
  intros Hws Hc; unfold value_start in Hc; cbn [existsb] in Hc.
  repeat (apply orb_false_iff in Hc as [? Hc]).
  unfold loads; cbn [skip_ws]; rewrite Hws.
  cbn [scan_once String.length].
  unfold scan_atom, match_number, match_digits; cbn [startswith].
  rewrite !(Ascii.eqb_sym _ c).
  repeat match goal with
         | H : _ = false |- _ => rewrite H; clear H
         end.
  reflexivity.
Qed.

End JsonFacts.
(** ** Fence markers *)

Module FenceFacts.
Import PyStr PyStrFacts Vocabulary.

Lemma startswith_json_fence (x : string) :
  startswith "```json" x = true -> startswith "```" x = true.
Proof.
  destruct x as [|a [|b [|c r]]]; simpl; intros H;
    try discriminate H;
    try (destruct ("`" =? a); discriminate H);
    try (destruct ("`" =? a); destruct ("`" =? b); discriminate H).
  apply andb_true_iff in H as [Ha H].
  apply andb_true_iff in H as [Hb H].
  apply andb_true_iff in H as [Hc _].
  now rewrite Ha, Hb, Hc.
Qed.

(** A marker cannot straddle the line break before the closing fence. *)
Lemma startswith_fence_boundary (u : string) :
  startswith "```" (u ++ String nl "```") = true ->
  startswith "```" u = true.
Proof.
  destruct u as [|a [|b [|c r]]]; simpl; intros H.
  - discriminate H.
  - destruct ("`" =? a); discriminate H.
  - destruct ("`" =? a); destruct ("`" =? b); discriminate H.
  - exact H.
Qed.

Lemma contains_cons_false (p : string) (c : ascii) (s : string) :
  contains p (String c s) = false ->
  startswith p (String c s) = false /\ contains p s = false.
Proof.
  cbn [contains]; intros H; now apply orb_false_iff in H.
Qed.

Lemma no_marker_ahead (old : string) (c : ascii) (t : string) :
  (forall x, startswith old x = true -> startswith "```" x = true) ->
  startswith "```" (String c t) = false ->
  startswith old (String c t ++ String nl "```") = false.
Proof.
  intros Hold Hc.
  destruct (startswith old (String c t ++ String nl "```")) eqn:E;
    [|reflexivity].
  apply Hold, startswith_fence_boundary in E; congruence.
Qed.

(** Removing ["```json"] leaves a marker-free text and its closing
    fence alone. *)
Lemma replace_json_fence (t : string) :
  contains "```" t = false ->
  replace_from "```json" "" 0 (t ++ String nl "```")
  = (t ++ String nl "```")%string.
Proof.
  induction t as [|c t IH]; intros H; [reflexivity|].
  apply contains_cons_false in H as [Hc Ht].
  change (String c t ++ String nl "```")%string
    with (String c (t ++ String nl "```")).
  cbn [replace_from].
  change (String c (t ++ String nl "```"))
    with (String c t ++ String nl "```")%string at 1.
  rewrite (no_marker_ahead _ _ _ startswith_json_fence Hc).
  now rewrite (IH Ht).
Qed.

(** Removing ["```"] removes exactly the closing fence. *)
Lemma replace_fence (t : string) :
  contains "```" t = false ->
  replace_from "```" "" 0 (t ++ String nl "```")
  = (t ++ String nl "")%string.
Proof.
  induction t as [|c t IH]; intros H; [reflexivity|].
  apply contains_cons_false in H as [Hc Ht].
  change (String c t ++ String nl "```")%string
    with (String c (t ++ String nl "```")).
  cbn [replace_from].
  change (String c (t ++ String nl "```"))
    with (String c t ++ String nl "```")%string at 1.
  rewrite (no_marker_ahead _ _ _ (fun x H => H) Hc).
  now rewrite (IH Ht).
Qed.

Lemma strip_fenced (t : string) : strip (fenced t) = fenced t.
Proof.
  unfold strip.
  change (fenced t)
    with (("```json" ++ String nl t) ++ String nl "```")%string at 1.
  rewrite rstrip_app_keep by (vm_compute; discriminate).
  reflexivity.
Qed.

Lemma strip_between_breaks (t : string) :
  strip (String nl (t ++ String nl "")) = strip t.
Proof.
  unfold strip.
  rewrite lstrip_rstrip_cons by reflexivity.
  now rewrite rstrip_app_space by reflexivity.
Qed.

Lemma no_fence_at_start (t : string) :
  contains "```" t = false ->
  startswith "```" (strip t) = false
  /\ startswith "```json" (strip t) = false.
Proof.
  intros H.
  assert (H3 : startswith "```" (strip t) = false).
  { destruct (startswith "```" (strip t)) eqn:E; [|reflexivity].
    apply startswith_contains, contains_strip in E; congruence. }
  split; [assumption|].
  destruct (startswith "```json" (strip t)) eqn:E; [|reflexivity].
  apply startswith_json_fence in E; congruence.
Qed.

Lemma search_braces_fenced (t : string) :
  search_braces (fenced t) = search_braces t.
Proof.
  change (fenced t)
    with (("```json" ++ String nl "") ++ t ++ String nl "```")%string.
  now apply search_braces_context.
Qed.

End FenceFacts.

(** ** Field extraction and the two parsing attempts *)

Module DetectorFacts.
Import PyStr PyNum Json Detector PyStrFacts JsonFacts FenceFacts Vocabulary.

Lemma py_float_error (py : interpreter) (v : pyval) (e : py_error) :
  py_float py v = Raise e ->
  (exists s, e = ValueError_float s) \/ e = TypeError_float
  \/ e = OverflowError_float.
Proof.
  destruct v as [| | | |[s|t]| |]; simpl; try discriminate;
    try (intros H; injection H as <-; auto).
  - unfold float_of_int; destruct (_ <? _)%Z; [discriminate|].
    intros H; injection H as <-; auto.
  - unfold float_of_str.
    destruct (match drop_underscores _ _ with Some _ => _ | None => _ end);
      [discriminate|].
    intros H; injection H as <-; eauto.
  - destruct (float_of_wide py t); [discriminate|].
    intros H; injection H as <-; eauto.
Qed.

(** Field extraction raises the [AttributeError] of a value without
    [get] and the errors of [float], and nothing else. *)
Lemma make_result_raises (py : interpreter) (cls : dataclass) (v : pyval)
      (e : py_error) :
  make_result py cls v = Raise e ->
  e = AttributeError_get \/ (exists s, e = ValueError_float s)
  \/ e = TypeError_float \/ e = OverflowError_float.
Proof.
  unfold make_result, get_method.
  destruct v; simpl; try (intros H; injection H as <-; now left).
  destruct (py_float py (Dict.get d "confidence" (PyInt 0))) eqn:E1; simpl.
  - destruct (py_float py (Dict.get d "pest_confidence" (PyInt 0))) eqn:E2;
      simpl; [discriminate|].
    intros H; injection H as <-; right.
    now apply py_float_error in E2.
  - intros H; injection H as <-; right.
    now apply py_float_error in E1.
Qed.

Lemma make_result_error (py : interpreter) (cls : dataclass) (v : pyval)
      (e : py_error) :
  make_result py cls v = Raise e ->
  forall msg, e <> ValueError_unparseable msg.
Proof.
  intros H msg ->.
  apply make_result_raises in H as [H|[[s H]|[H|H]]]; discriminate.
Qed.

Lemma make_result_dict (py : interpreter) (cls : dataclass) (d : pydict)
      (c pc : pyfloat) :
  py_float py (Dict.get d "confidence" (PyInt 0)) = Ok c ->
  py_float py (Dict.get d "pest_confidence" (PyInt 0)) = Ok pc ->
  exists r, make_result py cls (PyDict d) = Ok r
            /\ confidence r = c /\ pest_confidence r = pc
            /\ analysis_timestamp r = analysis_timestamp_default cls
            /\ defaulted d r /\ copied d r.
Proof.
  intros Hc Hpc; unfold make_result; simpl; rewrite Hc, Hpc; simpl.
  eexists; split; [reflexivity|]; simpl.
  unfold defaulted, copied, Dict.get in *; simpl.
  repeat split; try reflexivity;
    try (intros H; rewrite H in *; simpl in *; congruence);
    try (intros v H; rewrite H; reflexivity).
  - intros H; rewrite H in Hc; vm_compute in Hc; congruence.
  - intros H; rewrite H in Hpc; vm_compute in Hpc; congruence.
Qed.

(** *** The two parsing attempts *)

Lemma parse_direct (py : interpreter) (cls : dataclass) (raw : string)
      (v : pyval) :
  loads py (cleaned_response raw) = Ok v ->
  _parse_response py cls raw = make_result py cls v.
Proof.
  intros H; unfold _parse_response; now rewrite H.
Qed.

(** An exception of the first [json.loads] that is no
    [JSONDecodeError] is not caught. *)
Lemma parse_limit (py : interpreter) (cls : dataclass) (raw : string)
      (e : py_error) :
  loads py (cleaned_response raw) = Raise e -> limit_error e ->
  _parse_response py cls raw = Raise e.
Proof.
  intros H [-> | ->]; unfold _parse_response; now rewrite H.
Qed.

Lemma parse_embedded (py : interpreter) (cls : dataclass) (raw m : string) :
  loads py (cleaned_response raw) = Raise JSONDecodeError ->
  search_braces raw = Some m ->
  _parse_response py cls raw =
  match loads py m with
  | Ok v => make_result py cls v
  | Raise JSONDecodeError => Raise (unparseable raw)
  | Raise e => Raise e
  end.
Proof.
  intros H1 H2; unfold _parse_response; now rewrite H1, H2.
Qed.

Lemma parse_no_match (py : interpreter) (cls : dataclass) (raw : string) :
  loads py (cleaned_response raw) = Raise JSONDecodeError ->
  search_braces raw = None ->
  _parse_response py cls raw = Raise (unparseable raw).
Proof.
  intros H1 H2; unfold _parse_response; now rewrite H1, H2.
Qed.

Lemma lacks_cleaned (c : ascii) (raw : string) :
  lacks c raw = true -> lacks c (cleaned_response raw) = true.
Proof.
  intros H; unfold cleaned_response.
  pose proof (lacks_strip _ _ H) as Hs.
  destruct (startswith "```json" (strip raw)).
  - now apply lacks_strip, lacks_replace, lacks_replace.
  - destruct (startswith "```" (strip raw)); [|assumption].
    now apply lacks_strip, lacks_replace.
Qed.

Lemma make_result_not_dict (py : interpreter) (cls : dataclass)
      (v : pyval) :
  is_dict v = false -> make_result py cls v = Raise AttributeError_get.
Proof.
  destruct v; simpl; intros H; try reflexivity; discriminate.
Qed.

(** *** Cleaning *)

Lemma cleaned_fenced (t : string) :
  contains "```" t = false -> cleaned_response (fenced t) = strip t.
Proof.
  intros H; unfold cleaned_response.
  rewrite strip_fenced.
  change (startswith "```json" (fenced t)) with true; cbv iota.
  change (replace "```json" "" (fenced t))
    with (String nl (replace_from "```json" "" 0 (t ++ String nl "```"))).
  rewrite (replace_json_fence _ H).
  change (replace "```" "" (String nl (t ++ String nl "```")))
    with (String nl (replace_from "```" "" 0 (t ++ String nl "```"))).
  rewrite (replace_fence _ H).
  apply strip_between_breaks.
Qed.

Lemma cleaned_plain (t : string) :
  contains "```" t = false -> cleaned_response t = strip t.
Proof.
  intros H; unfold cleaned_response.
  destruct (no_fence_at_start _ H) as [H3 H7]; now rewrite H7, H3.
Qed.

Lemma strip_braced (body : string) : strip (braced body) = braced body.
Proof.
  unfold strip, braced.
  change (String "{" (body ++ "}"))
    with ((String "{" body) ++ "}")%string at 1.
  rewrite rstrip_app_keep by (vm_compute; discriminate).
  reflexivity.
Qed.

Lemma cleaned_braced (body : string) :
  cleaned_response (braced body) = braced body.
Proof.
  unfold cleaned_response; rewrite strip_braced; reflexivity.
Qed.

Lemma cleaned_in_prose (t : string) :
  cleaned_response (in_prose t) = in_prose t.
Proof.
  unfold cleaned_response.
  assert (Hs : strip (in_prose t) = in_prose t).
  { unfold strip, in_prose.
    rewrite <- append_assoc.
    rewrite rstrip_app_keep by (vm_compute; discriminate).
    reflexivity. }
  rewrite Hs; reflexivity.
Qed.

(** A text whose first character is no blank and no backquote is
    cleaned to a text with the same first character; when no JSON value
    begins with that character, the first [json.loads] rejects it. *)
Lemma cleaned_head (c : ascii) (s : string) :
  isspace c = false -> (c =? "`") = false ->
  exists s', cleaned_response (String c s) = String c s'.
Proof.
  intros Hc Hq; unfold cleaned_response.
  destruct (strip_head c s Hc) as [s' ->].
  cbn [startswith]; rewrite (Ascii.eqb_sym _ c), Hq; cbn [andb]; eauto.
Qed.

Lemma loads_prose_head (py : interpreter) (c : ascii) (s : string) :
  isspace c = false -> (c =? "`") = false -> value_start c = false ->
  loads py (cleaned_response (String c s)) = Raise JSONDecodeError.
Proof.
  intros Hc Hq Hv.
  destruct (cleaned_head c s Hc Hq) as [s' ->].
  apply loads_bad_start; [|assumption].
  unfold isspace in Hc; unfold is_ws.
  repeat (apply orb_false_iff in Hc as [Hc ?]).
  unfold in_range in *.
  destruct (c =? " ") eqn:E1;
    [apply Ascii.eqb_eq in E1; subst c; discriminate|].
  destruct (c =? tab) eqn:E2;
    [apply Ascii.eqb_eq in E2; subst c; discriminate|].
  destruct (c =? nl) eqn:E3;
    [apply Ascii.eqb_eq in E3; subst c; discriminate|].
  destruct (c =? cr) eqn:E4;
    [apply Ascii.eqb_eq in E4; subst c; discriminate|].
  reflexivity.
Qed.

(** An object text inside brace-free prose that is not JSON itself is
    read through the brace search. *)
Lemma parse_in_context (py : interpreter) (cls : dataclass)
      (pre body post : string) :
  lacks "{" pre = true -> lacks "}" post = true ->
  loads py (cleaned_response (pre ++ braced body ++ post))
  = Raise JSONDecodeError ->
  _parse_response py cls (pre ++ braced body ++ post) =
  match loads py (braced body) with
  | Ok v => make_result py cls v
  | Raise JSONDecodeError => Raise (unparseable (pre ++ braced body ++ post))
  | Raise e => Raise e
  end.
Proof.
  intros Hpre Hpost Hd.
  apply parse_embedded; [assumption|].
  now apply search_braces_embedded.
Qed.

Lemma parse_braced (py : interpreter) (cls : dataclass) (body : string)
      (v : pyval) :
  loads py (braced body) = Ok v ->
  _parse_response py cls (braced body) = make_result py cls v.
Proof.
  intros H; apply parse_direct; now rewrite cleaned_braced.
Qed.

(** The outcome of [_parse_response], by cases on the two calls of
    [json.loads]. *)
Lemma parse_cases (py : interpreter) (cls : dataclass) (raw : string) :
  (loads py (cleaned_response raw) = Raise JSONDecodeError
   /\ (forall m, search_braces raw = Some m ->
                 loads py m = Raise JSONDecodeError)
   /\ _parse_response py cls raw = Raise (unparseable raw))
  \/ (exists v, _parse_response py cls raw = make_result py cls v
                /\ (loads py (cleaned_response raw) = Ok v
                    \/ exists m, loads py (cleaned_response raw)
                                 = Raise JSONDecodeError
                                 /\ search_braces raw = Some m
                                 /\ loads py m = Ok v))
  \/ (exists e, _parse_response py cls raw = Raise e /\ limit_error e
                /\ (loads py (cleaned_response raw) = Raise e
                    \/ exists m, loads py (cleaned_response raw)
                                 = Raise JSONDecodeError
                                 /\ search_braces raw = Some m
                                 /\ loads py m = Raise e)).
Proof.
  unfold _parse_response.
  destruct (loads py (cleaned_response raw)) as [v|e] eqn:E1.
  { right; left; exists v; auto. }
  destruct (loads_errors _ _ _ E1) as [-> | He].
  - destruct (search_braces raw) as [m|] eqn:E2.
    + destruct (loads py m) as [v|e] eqn:E3.
      * right; left; exists v; split; [reflexivity|]; right; exists m; auto.
      * destruct (loads_errors _ _ _ E3) as [-> | He].
        -- left; split; [reflexivity|]; split; [|reflexivity].
           intros m' Hm; injection Hm as <-; assumption.
        -- right; right; exists e; split;
             [destruct He as [-> | ->]; reflexivity|].
           split; [assumption|]; right; exists m; auto.
    + left; split; [reflexivity|]; split; [discriminate | reflexivity].
  - right; right; exists e; split;
      [destruct He as [-> | ->]; reflexivity|]; auto.
Qed.
End DetectorFacts.

(** ** The response normaliser *)

Module Normalizer.
Import PyStr PyNum Json Detector.
Import PyStrFacts JsonFacts FenceFacts Vocabulary DetectorFacts.
Local Open Scope string_scope.

(** C1, as the code has it.  For a parsed object, field extraction
    succeeds whenever [float] accepts the two confidence values (an
    absent one counts as 0): each absent key then has its default in
    the record and each present value is copied, the flags through
    [bool], the confidences through [float], and the three pest
    sequences with an empty list in the place of a [null].  When
    [float] rejects a confidence, its error leaves the extraction. *)
Theorem extraction_defaults (py : interpreter) (cls : dataclass)
        (d : pydict) :
  (forall c pc,
      py_float py (Dict.get d "confidence" (PyInt 0)) = Ok c ->
      py_float py (Dict.get d "pest_confidence" (PyInt 0)) = Ok pc ->
      exists r, make_result py cls (PyDict d) = Ok r
                /\ confidence r = c /\ pest_confidence r = pc
                /\ defaulted d r /\ copied d r)
  /\ (forall e,
         py_float py (Dict.get d "confidence" (PyInt 0)) = Raise e ->
         make_result py cls (PyDict d) = Raise e)
  /\ (forall c e,
         py_float py (Dict.get d "confidence" (PyInt 0)) = Ok c ->
         py_float py (Dict.get d "pest_confidence" (PyInt 0)) = Raise e ->
         make_result py cls (PyDict d) = Raise e).
Proof.
  repeat split.
  - intros c pc Hc Hpc.
    destruct (make_result_dict py cls d c pc Hc Hpc)
      as (r & Hr & H1 & H2 & _ & H3 & H4).
    exists r; auto.
  - intros e He; unfold make_result; simpl; now rewrite He.
  - intros c e Hc He; unfold make_result; simpl; now rewrite Hc, He.
Qed.

Lemma extraction_defaults_witness :
  exists r,
    make_result py0 (define_class t0)
      (PyDict [("confidence", PyStr " 85.5 "); ("symptoms", PyNone);
               ("pest_symptoms", PyNone);
               ("common_pests", PyList [PyStr "Aphids"])]) = Ok r
    /\ confidence r = FDec false 855 (-1)
    /\ pest_confidence r = FDec false 0 0
    /\ symptoms r = PyNone
    /\ treatment r = PyList []
    /\ pest_symptoms r = PyList []
    /\ common_pests r = PyList [PyStr "Aphids"].
Proof.
  destruct (extraction_defaults py0 (define_class t0)
              [("confidence", PyStr " 85.5 "); ("symptoms", PyNone);
               ("pest_symptoms", PyNone);
               ("common_pests", PyList [PyStr "Aphids"])])
    as [H _].
  destruct (H (FDec false 855 (-1)) (FDec false 0 0) eq_refl eq_refl)
    as (r & Hr & Hc & Hpc & Hd & Hk).
  exists r; split; [exact Hr|]; split; [exact Hc|]; split; [exact Hpc|].
  unfold copied in Hk; unfold defaulted in Hd.
  destruct Hk as (_ & _ & _ & _ & Hs & _ & _ & _ & _ & _ & Hcp & Hps & _).
  destruct Hd as (_ & _ & _ & _ & _ & _ & _ & Ht & _).
  split; [now apply Hs|]; split; [now apply Ht|].
  split; [now rewrite (Hps PyNone) | now rewrite (Hcp (PyList [PyStr "Aphids"]))].
Defined.

(** C1 as stated fails: a reply whose confidence is a word parses as an
    object, and extracting its fields raises the conversion error. *)
Lemma confidence_word_raises :
  loads py0 reply_word_confidence
  = Ok (PyDict [("confidence", PyStr "eighty-five")])
  /\ make_result py0 (define_class t0)
       (PyDict [("confidence", PyStr "eighty-five")])
     = Raise (ValueError_float "eighty-five")
  /\ _parse_response py0 (define_class t0) reply_word_confidence
     = Raise (ValueError_float "eighty-five").
Proof.
  repeat split; vm_compute; reflexivity.
Qed.

(** C2, as the code has it.  [_parse_response] raises its own
    [ValueError] exactly when [json.loads] raises [JSONDecodeError] for
    the cleaned text and also for the brace-to-brace match, if there is
    one; the message quotes the first 200 characters of the raw text.
    A raw text without an opening brace always raises: that error when
    the cleaned text is no JSON text; the [AttributeError] of field
    extraction when it is a JSON value, which is then no object; and
    otherwise the [ValueError] of a digit string beyond the limit or
    the [RecursionError] of [json.loads], which no handler catches. *)
Theorem unparseable_iff (py : interpreter) (cls : dataclass) (raw : string) :
  ((exists msg,
       _parse_response py cls raw = Raise (ValueError_unparseable msg))
   <-> loads py (cleaned_response raw) = Raise JSONDecodeError
       /\ forall m, search_braces raw = Some m ->
                    loads py m = Raise JSONDecodeError)
  /\ (forall msg,
         _parse_response py cls raw = Raise (ValueError_unparseable msg) ->
         msg = "Unable to parse API response as JSON: "
               ++ take 200 raw ++ "...")
  /\ (lacks "{" raw = true ->
      (loads py (cleaned_response raw) = Raise JSONDecodeError
       /\ _parse_response py cls raw = Raise (unparseable raw))
      \/ (exists v, loads py (cleaned_response raw) = Ok v
                    /\ is_dict v = false
                    /\ _parse_response py cls raw = Raise AttributeError_get)
      \/ (exists e, loads py (cleaned_response raw) = Raise e
                    /\ limit_error e
                    /\ _parse_response py cls raw = Raise e)).
Proof.
  pose proof (parse_cases py cls raw) as Hcases.
  split; [|split].
  - split.
    + intros [msg Hmsg].
      destruct Hcases as [(H1 & H2 & _) | [(v & Hv & _) | (e & He & Hl & _)]];
        [auto| |].
      * rewrite Hv in Hmsg.
        now destruct (make_result_error _ _ _ _ Hmsg msg).
      * rewrite He in Hmsg; injection Hmsg as ->.
        destruct Hl; discriminate.
    + intros [H1 H2].
      destruct Hcases
        as [(_ & _ & H) | [(v & _ & [Hv | (m & _ & Hm & Hv)])
                          | (e & _ & Hl & [He | (m & _ & Hm & He)])]].
      * eexists; exact H.
      * congruence.
      * rewrite (H2 _ Hm) in Hv; discriminate.
      * rewrite H1 in He; injection He as <-; destruct Hl; discriminate.
      * rewrite (H2 _ Hm) in He; injection He as <-;
          destruct Hl; discriminate.
  - intros msg Hmsg.
    destruct Hcases as [(_ & _ & H) | [(v & Hv & _) | (e & He & Hl & _)]].
    + rewrite H in Hmsg; unfold unparseable in Hmsg; congruence.
    + rewrite Hv in Hmsg.
      now destruct (make_result_error _ _ _ _ Hmsg msg).
    + rewrite He in Hmsg; injection Hmsg as ->.
      destruct Hl; discriminate.
  - intros Hb.
    pose proof (search_braces_lacks _ Hb) as Hs.
    destruct (loads py (cleaned_response raw)) as [v|e] eqn:E.
    + right; left; exists v; split; [reflexivity|].
      assert (Hv : is_dict v = false).
      { destruct v; try reflexivity.
        apply loads_dict_brace in E.
        rewrite (lacks_cleaned _ _ Hb) in E; discriminate. }
      split; [assumption|].
      rewrite (parse_direct _ _ _ _ E).
      now apply make_result_not_dict.
    + destruct (loads_errors _ _ _ E) as [-> | He].
      * left; split; [reflexivity|].
        now apply parse_no_match.
      * right; right; exists e; split; [reflexivity|].
        split; [assumption|].
        now apply parse_limit.
Qed.

Lemma unparseable_iff_witness :
  lacks "{" "I cannot analyze this image." = true
  /\ _parse_response py0 (define_class t0) "I cannot analyze this image."
     = Raise (ValueError_unparseable
                ("Unable to parse API response as JSON: "
                 ++ "I cannot analyze this image." ++ "...")).
Proof.
  destruct (unparseable_iff py0 (define_class t0)
              "I cannot analyze this image.") as (_ & _ & H).
  split; [reflexivity|].
  destruct (H eq_refl) as [[_ Hr] | [(v & Hl & _) | (e & Hl & He & _)]].
  - exact Hr.
  - exfalso; vm_compute in Hl; discriminate.
  - exfalso; vm_compute in Hl; injection Hl as <-.
    destruct He; discriminate.
Defined.

(** C2 as stated fails: the text of an empty array has no brace and is
    no object, yet the error raised is not the parse error. *)
Lemma array_text_attribute_error :
  lacks "{" "[]" = true /\ lacks "}" "[]" = true
  /\ loads py0 (cleaned_response "[]") = Ok (PyList [])
  /\ search_braces "[]" = None
  /\ _parse_response py0 (define_class t0) "[]" = Raise AttributeError_get.
Proof.
  repeat split; vm_compute; reflexivity.
Qed.

(** C3, as the code has it.  For a text without the marker ["```"],
    wrapping it in a fenced block tagged [json] changes nothing but the
    excerpt quoted in the parse error: the same record is returned, or
    the same conversion or attribute error is raised. *)
Theorem fenced_same_result (py : interpreter) (cls : dataclass)
        (t : string) :
  contains "```" t = false ->
  _parse_response py cls (fenced t) =
  match _parse_response py cls t with
  | Raise (ValueError_unparseable _) => Raise (unparseable (fenced t))
  | other => other
  end.
Proof.
  intros H; unfold _parse_response.
  rewrite (cleaned_fenced _ H), (cleaned_plain _ H), search_braces_fenced.
  assert (Hm : forall v,
             make_result py cls v =
             match make_result py cls v with
             | Raise (ValueError_unparseable _) =>
                 Raise (unparseable (fenced t))
             | other => other
             end).
  { intros v; destruct (make_result py cls v) as [r|e] eqn:E;
      [reflexivity|].
    destruct e; try reflexivity.
    now destruct (make_result_error _ _ _ _ E msg). }
  destruct (loads py (strip t)) as [v|e] eqn:E1; [apply Hm|].
  destruct (loads_errors _ _ _ E1) as [-> | [-> | ->]];
    [|reflexivity|reflexivity].
  destruct (search_braces t) as [m|]; [|reflexivity].
  destruct (loads py m) as [v|e] eqn:E2; [apply Hm|].
  destruct (loads_errors _ _ _ E2) as [-> | [-> | ->]]; reflexivity.
Qed.

Lemma fenced_same_result_witness :
  contains "```" reply_detected = false
  /\ _parse_response py0 (define_class t0) (fenced reply_detected)
     = _parse_response py0 (define_class t0) reply_detected
  /\ exists r,
      _parse_response py0 (define_class t0) (fenced reply_detected) = Ok r
      /\ disease_detected r = true /\ confidence r = FDec false 85 0.
Proof.
  pose proof (fenced_same_result py0 (define_class t0) reply_detected
                eq_refl) as H.
  split; [reflexivity|]; split.
  - rewrite H; vm_compute; reflexivity.
  - rewrite H; vm_compute; eexists; repeat split.
Defined.

(** C3 as stated fails: a marker inside a string of the object is
    removed from the fenced text and kept in the bare text. *)
Lemma fenced_marker_in_text :
  (exists r, _parse_response py0 (define_class t0)
               (fenced reply_marker_in_name) = Ok r
             /\ disease_name r = PyStr "ab")
  /\ (exists r, _parse_response py0 (define_class t0) reply_marker_in_name
                = Ok r
                /\ disease_name r = PyStr "a```b")
  /\ _parse_response py0 (define_class t0) (fenced reply_marker_in_name)
     <> _parse_response py0 (define_class t0) reply_marker_in_name.
Proof.
  split; [|split].
  - vm_compute; eexists; split; reflexivity.
  - vm_compute; eexists; split; reflexivity.
  - vm_compute; discriminate.
Qed.

(** C4, as the code has it.  Let an object text that parses stand
    between a text without opening brace and a text without closing
    brace.  The brace search finds exactly the object text, and when
    [json.loads] rejects the cleaned whole, the whole gives the record,
    or the error, of the bare object text.  The whole is rejected
    whenever it begins with a character that is no blank, no backquote
    and begins no JSON value, as the prose of the example does. *)
Theorem embedded_same_record (py : interpreter) (cls : dataclass)
        (pre body post : string) (v : pyval) :
  lacks "{" pre = true -> lacks "}" post = true ->
  loads py (braced body) = Ok v ->
  search_braces (pre ++ braced body ++ post) = Some (braced body)
  /\ (loads py (cleaned_response (pre ++ braced body ++ post))
      = Raise JSONDecodeError ->
      _parse_response py cls (pre ++ braced body ++ post)
      = _parse_response py cls (braced body))
  /\ (forall c pre',
         pre = String c pre' ->
         isspace c = false -> (c =? "`")%char = false ->
         value_start c = false ->
         _parse_response py cls (pre ++ braced body ++ post)
         = _parse_response py cls (braced body)).
Proof.
  intros Hpre Hpost Hv.
  assert (Hs : search_braces (pre ++ braced body ++ post)
               = Some (braced body))
    by now apply search_braces_embedded.
  assert (Hd : loads py (cleaned_response (pre ++ braced body ++ post))
               = Raise JSONDecodeError ->
               _parse_response py cls (pre ++ braced body ++ post)
               = _parse_response py cls (braced body)).
  { intros Hl.
    rewrite (parse_braced _ _ _ _ Hv), (parse_embedded _ _ _ _ Hl Hs).
    now rewrite Hv. }
  split; [assumption|]; split; [assumption|].
  intros c pre' -> Hc Hq Hval; apply Hd.
  now apply (loads_prose_head py c (pre' ++ braced body ++ post)).
Qed.

Lemma embedded_same_record_witness :
  loads py0 (braced body_fungal)
  = Ok (PyDict [("disease_type", PyStr "fungal"); ("confidence", PyInt 70)])
  /\ search_braces (in_prose (braced body_fungal)) = Some (braced body_fungal)
  /\ _parse_response py0 (define_class t0) (in_prose (braced body_fungal))
     = _parse_response py0 (define_class t0) (braced body_fungal).
Proof.
  assert (H : loads py0 (braced body_fungal)
              = Ok (PyDict [("disease_type", PyStr "fungal");
                            ("confidence", PyInt 70)]))
    by (vm_compute; reflexivity).
  split; [exact H|].
  destruct (embedded_same_record py0 (define_class t0)
              "Here is the result: " body_fungal " Thanks." _
              eq_refl eq_refl H) as (Hs & _ & Hp).
  split; [exact Hs|].
  exact (Hp "H"%char "ere is the result: " eq_refl eq_refl eq_refl eq_refl).
Defined.

(** C4 as stated fails: between square brackets, which are no braces,
    the object text is an element of an array.  The whole parses, the
    brace search is not tried, and field extraction raises
    [AttributeError] where the bare object text gives a record. *)
Lemma bracketed_object_attribute_error :
  lacks "{" "[" = true /\ lacks "}" "]" = true
  /\ loads py0 (cleaned_response ("[" ++ braced body_fungal ++ "]"))
     = Ok (PyList [PyDict [("disease_type", PyStr "fungal");
                           ("confidence", PyInt 70)]])
  /\ _parse_response py0 (define_class t0) ("[" ++ braced body_fungal ++ "]")
     = Raise AttributeError_get
  /\ exists r,
      _parse_response py0 (define_class t0) (braced body_fungal) = Ok r
      /\ disease_type r = PyStr "fungal"
      /\ confidence r = FDec false 70 0.
Proof.
  split; [reflexivity|]; split; [reflexivity|].
  split; [vm_compute; reflexivity|].
  split; [vm_compute; reflexivity|].
  vm_compute; eexists; repeat split.
Qed.

(** C7 on the code.  Every record [_parse_response] returns in a
    process carries the clock reading of the moment the module was
    imported, whatever the clock reads when the record is made. *)
Theorem timestamp_is_import_time
        (py : interpreter) (imported now1 now2 raw1 raw2 : string)
        (r1 r2 : DiseaseAnalysisResult) :
  call_parse_response (advance (import_module py imported) now1) raw1
  = Ok r1 ->
  call_parse_response (advance (import_module py imported) now2) raw2
  = Ok r2 ->
  analysis_timestamp r1 = imported /\ analysis_timestamp r2 = imported.
Proof.
  assert (H : forall raw r,
             _parse_response py (define_class imported) raw = Ok r ->
             analysis_timestamp r = imported).
  { intros raw r Hr.
    assert (Hm : forall v, make_result py (define_class imported) v = Ok r ->
                           analysis_timestamp r = imported).
    { intros v; unfold make_result, get_method.
      destruct v; simpl; try discriminate.
      destruct (py_float _ _); simpl; [|discriminate].
      destruct (py_float _ _); simpl; [|discriminate].
      intros E; injection E as <-; reflexivity. }
    destruct (parse_cases py (define_class imported) raw)
      as [(_ & _ & H) | [(v & Hv & _) | (e & He & _)]];
      [congruence | | congruence].
    apply (Hm v); congruence. }
  unfold call_parse_response; simpl; intros H1 H2; split; eapply H; eauto.
Qed.

Lemma timestamp_is_import_time_witness :
  exists r1 r2,
    call_parse_response
      (advance (import_module py0 "2024-05-01T09:00:00+00:00")
         "2024-05-01T09:05:00+00:00") "{}" = Ok r1
    /\ call_parse_response
         (advance (import_module py0 "2024-05-01T09:00:00+00:00")
            "2024-05-02T17:30:00+00:00") reply_detected = Ok r2
    /\ analysis_timestamp r1 = "2024-05-01T09:00:00+00:00"
    /\ analysis_timestamp r2 = "2024-05-01T09:00:00+00:00".
Proof.
  eexists _, _.
  split; [vm_compute; reflexivity|].
  split; [vm_compute; reflexivity|].
  eapply (timestamp_is_import_time py0 "2024-05-01T09:00:00+00:00"
            "2024-05-01T09:05:00+00:00" "2024-05-02T17:30:00+00:00"
            "{}" reply_detected);
    vm_compute; reflexivity.
Defined.

End Normalizer.

(** ** The request encoder *)

Module Encoder.
Import PyStr PyNum Detector PyStrFacts Vocabulary.
Local Open Scope string_scope.

Lemma split1_lacks (sep : ascii) (s : string) :
  lacks sep s = true -> split1 sep s = [s].
Proof.
  induction s as [|c s IH]; [reflexivity|].
  cbn [lacks split1]; intros H; apply andb_true_iff in H as [Hc Hs].
  apply negb_true_iff in Hc; now rewrite Hc, (IH Hs).
Qed.

Lemma split1_first (sep : ascii) (a b : string) :
  lacks sep a = true ->
  split1 sep (a ++ String sep b) = [a; b].
Proof.
  induction a as [|c a IH]; intros H.
  - cbn [append split1]; now rewrite Ascii.eqb_refl.
  - cbn [lacks] in H; apply andb_true_iff in H as [Hc Ha].
    apply negb_true_iff in Hc.
    cbn [append split1]; now rewrite Hc, (IH Ha).
Qed.

(** C8.  The empty text and every value that is not a text are refused
    with the encoder's [ValueError]; a text in data-URL form loses its
    prefix up to and including the first comma; any other non-empty
    text is used as it is. *)
Theorem clean_base64_spec :
  clean_base64 (PyStr "")
  = Raise (ValueError_input "base64_image cannot be empty")
  /\ (forall v, (forall s, v <> PyStr s) ->
                clean_base64 v
                = Raise (ValueError_input "base64_image must be a string"))
  /\ (forall meta payload,
         lacks "," meta = true ->
         clean_base64 (PyStr ("data:" ++ meta ++ String "," payload))
         = Ok payload)
  /\ (forall s, s <> "" -> startswith "data:" s = false ->
                clean_base64 (PyStr s) = Ok s).
Proof.
  split; [reflexivity|]; split; [|split].
  - intros v Hv; destruct v; try reflexivity.
    now destruct (Hv s).
  - intros meta payload Hm.
    unfold clean_base64.
    change ("data:" ++ meta ++ String "," payload)
      with (String "d" (String "a" (String "t" (String "a" (String ":"
              (meta ++ String "," payload)))))).
    change (Text.is_empty _) with false.
    change (Text.startswith "data:" _) with true; cbv iota.
    change (String "d" (String "a" (String "t" (String "a" (String ":"
              (meta ++ String "," payload))))))
      with (("data:" ++ meta) ++ String "," payload).
    cbn [Text.split1]; rewrite split1_first; [reflexivity|].
    rewrite lacks_app, Hm; reflexivity.
  - intros s Hs Hd; unfold clean_base64.
    destruct s; [congruence|]; cbn [Text.is_empty Text.startswith].
    now rewrite Hd.
Qed.

Lemma clean_base64_spec_witness :
  clean_base64 (PyStr "data:image/png;base64,iVBORw0KGgo=") = Ok "iVBORw0KGgo="
  /\ clean_base64 (PyStr "iVBORw0KGgo=") = Ok "iVBORw0KGgo="
  /\ clean_base64 PyNone
     = Raise (ValueError_input "base64_image must be a string").
Proof.
  destruct clean_base64_spec as (_ & Hv & Hd & Hs).
  split; [|split].
  - exact (Hd "image/png;base64" "iVBORw0KGgo=" eq_refl).
  - apply Hs; [discriminate | reflexivity].
  - apply Hv; discriminate.
Defined.

(** C9.  A text that starts with [data:] and has no comma makes the
    prefix cut raise [IndexError]. *)
Theorem data_prefix_without_comma (rest : string) :
  lacks "," rest = true ->
  clean_base64 (PyStr ("data:" ++ rest)) = Raise IndexError_list.
Proof.
  intros H; unfold clean_base64.
  change ("data:" ++ rest)
    with (String "d" (String "a" (String "t" (String "a" (String ":" rest))))).
  change (Text.is_empty _) with false.
  change (Text.startswith "data:" _) with true; cbv iota.
  cbn [Text.split1]; rewrite split1_lacks; [reflexivity|].
  change (String "d" (String "a" (String "t" (String "a" (String ":" rest)))))
    with ("data:" ++ rest).
  rewrite lacks_app, H; reflexivity.
Qed.

Lemma data_prefix_without_comma_witness :
  lacks "," "image/png;base64" = true
  /\ clean_base64 (PyStr "data:image/png;base64") = Raise IndexError_list.
Proof.
  split; [reflexivity|].
  exact (data_prefix_without_comma "image/png;base64" eq_refl).
Defined.

End Encoder.

(** ** Dictionaries *)

Module DictFacts.

Lemma codes_eqb_eq (a b : list N) : Text.codes_eqb a b = true <-> a = b.
Proof.
  revert b; induction a as [|x a IH]; intros [|y b]; simpl;
    try (split; [discriminate | congruence]); [tauto|].
  rewrite andb_true_iff, N.eqb_eq, IH.
  split; [intros [-> ->]; reflexivity | intros H; injection H; auto].
Qed.

Lemma text_eqb_eq (a b : pystr) : Text.eqb a b = true <-> a = b.
Proof.
  destruct a as [x|x], b as [y|y]; simpl;
    try (split; [discriminate | congruence]).
  - rewrite String.eqb_eq; split; congruence.
  - rewrite codes_eqb_eq; split; congruence.
Qed.

Lemma text_eqb_refl (a : pystr) : Text.eqb a a = true.
Proof. now apply text_eqb_eq. Qed.

Lemma lookup_set_same (d : pydict) (k : pystr) (v : pyval) :
  Dict.lookup (Dict.set d k v) k = Some v.
Proof.
  induction d as [|[k' v'] d IH]; simpl.
  - now rewrite text_eqb_refl.
  - destruct (Text.eqb k' k) eqn:E; simpl; now rewrite E.
Qed.

Lemma lookup_set_other (d : pydict) (k k' : pystr) (v : pyval) :
  Text.eqb k k' = false ->
  Dict.lookup (Dict.set d k v) k' = Dict.lookup d k'.
Proof.
  intros Hk; induction d as [|[k0 v0] d IH]; simpl.
  - now rewrite Hk.
  - destruct (Text.eqb k0 k) eqn:E; simpl.
    + apply text_eqb_eq in E; subst k0; now rewrite Hk.
    + destruct (Text.eqb k0 k'); [reflexivity | exact IH].
Qed.

End DictFacts.

Ltac dict_lookup :=
  repeat (rewrite DictFacts.lookup_set_same
          || rewrite DictFacts.lookup_set_other by reflexivity).

(** ** The mock pest data *)

Module AppFacts.
Import PyStr PyNum App DictFacts Vocabulary.
Local Open Scope string_scope.

Lemma choice_in {A : Type} (i : nat) (l : list A) :
  l <> [] -> exists x, choice i l = Some x /\ In x l.
Proof.
  intros Hl; unfold choice.
  destruct (nth_error l (i mod List.length l)) as [x|] eqn:E.
  - exists x; split; [reflexivity|]; now apply nth_error_In in E.
  - apply nth_error_None in E.
    assert (List.length l <> 0) by (destruct l; simpl; congruence).
    pose proof (Nat.mod_upper_bound i (List.length l)); lia.
Qed.

Lemma remove_at_in {A : Type} (x : A) (l : list A) :
  forall i, In x (remove_at i l) -> In x l.
Proof.
  induction l as [|y l IH]; intros [|i]; simpl; auto.
  intros [H|H]; eauto.
Qed.

Lemma sample_in {A : Type} (x : A) (k : nat) :
  forall picks (l : list A), In x (sample picks k l) -> In x l.
Proof.
  induction k as [|k IH]; intros picks l; simpl; [tauto|].
  destruct (nth_error l _) as [y|] eqn:E; simpl; [|tauto].
  intros [<-|H].
  - now apply nth_error_In in E.
  - apply IH in H; now apply remove_at_in in H.
Qed.

Lemma library_get_key (lib : list (string * pest)) (k : string) :
  In k (map fst lib) -> exists p, library_get lib k = Ok p.
Proof.
  induction lib as [|[k' p'] lib IH]; simpl; [tauto|].
  destruct (String.eqb k' k) eqn:E; [eauto|].
  intros [H|H]; [|auto].
  subst k'; rewrite String.eqb_refl in E; discriminate.
Qed.

Lemma names_of_keys (keys : list string) :
  (forall k, In k keys -> In k (map fst pest_library)) ->
  exists ns, names_of keys = Ok ns.
Proof.
  induction keys as [|k keys IH]; intros H; [now exists []|].
  cbn [names_of].
  destruct (library_get_key pest_library k) as [p ->];
    [apply H; now left|].
  destruct IH as [ns ->]; [intros k' Hk'; apply H; now right|].
  simpl; eauto.
Qed.

Lemma mock_with_pest (rnd : draws) (now : string) (d : pydict) :
  draws_pest rnd d = true ->
  exists r p,
    add_mock_pest_data rnd now d = Ok r
    /\ Dict.lookup r "pest_detected" = Some (PyBool true)
    /\ Dict.lookup r "pest_name" = Some (PyStr (name p)).
Proof.
  intros Hflag; unfold add_mock_pest_data; cbv zeta.
  fold (draws_pest rnd d); rewrite Hflag.
  destruct (choice_in (pest_index rnd) (map fst pest_library))
    as (key & Hk & Hin); [discriminate|].
  rewrite Hk; cbn [bind].
  destruct (library_get_key _ _ Hin) as [p Hp]; rewrite Hp; cbn [bind].
  destruct (choice_in (severity_index rnd) ["mild"; "moderate"; "severe"])
    as (sev & Hs & _); [discriminate|].
  rewrite Hs; cbn [bind].
  destruct (truthy _).
  - destruct (names_of_keys
                (sample (common_picks rnd)
                   (Nat.min 3 (List.length (map fst pest_library)))
                   (map fst pest_library))) as [ns Hns].
    { intros k Hk'; now apply sample_in in Hk'. }
    rewrite Hns; cbn [bind].
    destruct (Dict.mem _ "analysis_timestamp");
      eexists _, p; (split; [reflexivity|]); split; now dict_lookup.
  - cbn [bind].
    destruct (Dict.mem _ "analysis_timestamp");
      eexists _, p; (split; [reflexivity|]); split; now dict_lookup.
Qed.

Lemma mock_without_pest (rnd : draws) (now : string) (d : pydict) :
  draws_pest rnd d = false ->
  exists r,
    add_mock_pest_data rnd now d = Ok r
    /\ no_pest_entries r
    /\ Dict.lookup r "disease_detected" = Dict.lookup d "disease_detected"
    /\ Dict.lookup r "disease_type" = Dict.lookup d "disease_type".
Proof.
  intros Hflag; unfold add_mock_pest_data; cbv zeta.
  fold (draws_pest rnd d); rewrite Hflag; cbn [bind].
  unfold no_pest_entries.
  destruct (Dict.mem _ "analysis_timestamp");
    eexists; (split; [reflexivity|]); repeat split; now dict_lookup.
Qed.

(** The mock step keeps the timestamp a result comes with and reads the
    clock only for a result without one. *)
Lemma mock_timestamp (rnd : draws) (now : string) (d r : pydict) :
  add_mock_pest_data rnd now d = Ok r ->
  Dict.lookup r "analysis_timestamp"
  = match Dict.lookup d "analysis_timestamp" with
    | Some v => Some v
    | None => Some (PyStr now)
    end.
Proof.
  unfold add_mock_pest_data; cbv zeta.
  assert (Hend : forall r0,
             Dict.lookup r0 "analysis_timestamp"
             = Dict.lookup d "analysis_timestamp" ->
             (if Dict.mem r0 "analysis_timestamp" then Ok r0
              else Ok (Dict.set r0 "analysis_timestamp" (PyStr now))) = Ok r ->
             Dict.lookup r "analysis_timestamp"
             = match Dict.lookup d "analysis_timestamp" with
               | Some v => Some v
               | None => Some (PyStr now)
               end).
  { intros r0 H0; unfold Dict.mem; rewrite <- H0.
    destruct (Dict.lookup r0 "analysis_timestamp") eqn:E;
      intros H; injection H as <-; [assumption | now dict_lookup]. }
  destruct (if is_str _ _ then _ else _).
  - destruct (choice _ _) as [key|]; cbn [bind]; [|discriminate].
    destruct (library_get _ _) as [p|]; cbn [bind]; [|discriminate].
    destruct (choice _ _) as [sev|]; cbn [bind]; [|discriminate].
    destruct (truthy _).
    + destruct (names_of _) as [ns|]; cbn [bind]; [|discriminate].
      apply Hend; now dict_lookup.
    + cbn [bind]; apply Hend; now dict_lookup.
  - cbn [bind]; apply Hend; now dict_lookup.
Qed.

Lemma invalid_image_draws_no_pest (rnd : draws) (d : pydict) :
  Dict.lookup d "disease_type" = Some (PyStr "invalid_image") ->
  draws_pest rnd d = false.
Proof.
  intros H; unfold draws_pest; now rewrite H.
Qed.

End AppFacts.

(** ** The invariants of a result *)

Module Invariants.
Import PyStr PyNum Json Detector App.
Import Vocabulary DetectorFacts DictFacts AppFacts.
Local Open Scope string_scope.

Lemma make_result_fields (py : interpreter) (cls : dataclass) (d : pydict)
      (r : DiseaseAnalysisResult) :
  make_result py cls (PyDict d) = Ok r ->
  disease_detected r
  = py_bool (Dict.get d "disease_detected" (PyBool false))
  /\ disease_type r = Dict.get d "disease_type" (PyStr "unknown")
  /\ pest_detected r = py_bool (Dict.get d "pest_detected" (PyBool false))
  /\ pest_name r = Dict.get d "pest_name" PyNone
  /\ py_float py (Dict.get d "confidence" (PyInt 0)) = Ok (confidence r)
  /\ py_float py (Dict.get d "pest_confidence" (PyInt 0))
     = Ok (pest_confidence r)
  /\ defaulted d r.
Proof.
  intros H.
  destruct (py_float py (Dict.get d "confidence" (PyInt 0))) as [c|e] eqn:Ec.
  - destruct (py_float py (Dict.get d "pest_confidence" (PyInt 0)))
      as [pc|e] eqn:Epc.
    + destruct (make_result_dict py cls d c pc Ec Epc)
        as (r' & Hr & Hc & Hpc & _ & Hd & _).
      rewrite Hr in H; injection H as <-.
      unfold make_result in Hr; simpl in Hr; rewrite Ec, Epc in Hr.
      simpl in Hr; injection Hr as <-; simpl; auto 10.
    + unfold make_result in H; simpl in H; rewrite Ec, Epc in H.
      discriminate.
  - unfold make_result in H; simpl in H; rewrite Ec in H; discriminate.
Qed.

(** C5, as the code has it.  The mock step always returns, and in its
    output a true [pest_detected] comes with a pest name.  A record of
    the normaliser has the reply's [pest_detected], through [bool],
    and the reply's [pest_name], [None] when the reply has none: the
    normaliser adds no name. *)
Theorem pest_name_when_detected :
  (forall rnd now d,
      exists r,
        add_mock_pest_data rnd now d = Ok r
        /\ (truthy (Dict.lookup r "pest_detected") = true ->
            exists n : string, Dict.lookup r "pest_name" = Some (PyStr n)))
  /\ (forall py cls d r,
         make_result py cls (PyDict d) = Ok r ->
         pest_detected r
         = py_bool (Dict.get d "pest_detected" (PyBool false))
         /\ pest_name r = Dict.get d "pest_name" PyNone).
Proof.
  split.
  - intros rnd now d; destruct (draws_pest rnd d) eqn:E.
    + destruct (mock_with_pest rnd now d E) as (r & p & Hr & _ & Hn).
      exists r; split; [assumption|]; eauto.
    + destruct (mock_without_pest rnd now d E) as (r & Hr & Hp & _).
      exists r; split; [assumption|].
      destruct Hp as (Hp & _); rewrite Hp; discriminate.
  - intros py cls d r H.
    destruct (make_result_fields _ _ _ _ H) as (_ & _ & H1 & H2 & _); auto.
Qed.

Lemma pest_name_when_detected_witness :
  exists r,
    add_mock_pest_data
      {| uniform := 0; pest_index := 6; severity_index := 1;
         confidence_offset := 5; symptom_picks := [0; 0; 0];
         treatment_picks := [3; 2; 1]; common_picks := [] |}
      t0 [("disease_detected", PyBool true)] = Ok r
    /\ Dict.lookup r "pest_name" = Some (PyStr "Caterpillars").
Proof.
  destruct pest_name_when_detected as [H _].
  destruct (H {| uniform := 0; pest_index := 6; severity_index := 1;
                 confidence_offset := 5; symptom_picks := [0; 0; 0];
                 treatment_picks := [3; 2; 1]; common_picks := [] |}
              t0 [("disease_detected", PyBool true)]) as (r & Hr & Hn).
  exists r; split; [exact Hr|].
  vm_compute in Hr; injection Hr as <-; reflexivity.
Defined.

(** C5 as stated fails for the normaliser: a reply that reports a pest
    and names none gives a record with [pest_detected] true and no
    name. *)
Lemma pest_detected_without_name :
  exists r,
    _parse_response py0 (define_class t0) reply_pest_unnamed = Ok r
    /\ pest_detected r = true /\ pest_name r = PyNone.
Proof.
  vm_compute; eexists; repeat split.
Qed.

(** C6, as the code has it.  For a result of type [invalid_image] the
    mock step returns with every pest entry in its default state and
    leaves [disease_detected] as it found it.  The normaliser gives a
    reply without pest keys the default pest fields and copies
    [disease_detected] and [disease_type]; for the reply of the
    invalid-image convention the record has [disease_detected] false,
    the type [invalid_image] and default pest fields. *)
Theorem invalid_image_pest_fields :
  (forall rnd now d,
      Dict.lookup d "disease_type" = Some (PyStr "invalid_image") ->
      exists r,
        add_mock_pest_data rnd now d = Ok r
        /\ no_pest_entries r
        /\ Dict.lookup r "disease_type" = Some (PyStr "invalid_image")
        /\ Dict.lookup r "disease_detected"
           = Dict.lookup d "disease_detected")
  /\ (forall py cls d r,
         make_result py cls (PyDict d) = Ok r ->
         (forall k, In k pest_keys -> Dict.lookup d k = None) ->
         no_pest r
         /\ disease_detected r
            = py_bool (Dict.get d "disease_detected" (PyBool false))
         /\ disease_type r = Dict.get d "disease_type" (PyStr "unknown"))
  /\ (forall py cls symptom advice,
         exists r,
           make_result py cls (PyDict (invalid_image_reply symptom advice))
           = Ok r
           /\ disease_detected r = false
           /\ disease_type r = PyStr "invalid_image"
           /\ confidence r = FDec false 95 0
           /\ no_pest r).
Proof.
  split; [|split].
  - intros rnd now d Hd.
    destruct (mock_without_pest rnd now d
                (invalid_image_draws_no_pest rnd d Hd))
      as (r & Hr & Hp & Hdd & Hdt).
    exists r; split; [assumption|]; split; [assumption|].
    split; [congruence | assumption].
  - intros py cls d r H Hk.
    destruct (make_result_fields _ _ _ _ H)
      as (H1 & H2 & H3 & H4 & _ & _ & Hd).
    unfold defaulted in Hd; unfold no_pest.
    assert (Hk' : forall k, In k pest_keys -> Dict.lookup d k = None)
      by exact Hk.
    unfold pest_keys in Hk'; simpl in Hk'.
    repeat split; try assumption; apply Hd; apply Hk'; auto 10.
  - intros py cls symptom advice.
    eexists; split; [reflexivity|]; simpl.
    unfold no_pest; simpl; auto 10.
Qed.

Lemma invalid_image_pest_fields_witness :
  (exists r,
      add_mock_pest_data
        {| uniform := 0; pest_index := 0; severity_index := 0;
           confidence_offset := 0; symptom_picks := [];
           treatment_picks := []; common_picks := [] |}
        t0 [("disease_detected", PyBool false);
            ("disease_type", PyStr "invalid_image");
            ("pest_name", PyStr "Aphids")] = Ok r
      /\ no_pest_entries r)
  /\ (exists r,
         _parse_response py0 (define_class t0)
           reply_invalid_image
         = Ok r
         /\ disease_detected r = false
         /\ disease_type r = PyStr "invalid_image"
         /\ no_pest r).
Proof.
  destruct invalid_image_pest_fields as (Hmock & Hrec & Hconv).
  split.
  - destruct (Hmock
                {| uniform := 0; pest_index := 0; severity_index := 0;
                   confidence_offset := 0; symptom_picks := [];
                   treatment_picks := []; common_picks := [] |}
                t0 [("disease_detected", PyBool false);
                    ("disease_type", PyStr "invalid_image");
                    ("pest_name", PyStr "Aphids")] eq_refl)
      as (r & Hr & Hp & _).
    exists r; auto.
  - destruct (Hconv py0 (define_class t0) "..." "...")
      as (r & Hr & H1 & H2 & _ & H3).
    exists r; split; [|auto].
    rewrite <- Hr; vm_compute; reflexivity.
Defined.

(** C6 as stated fails: nothing in the normaliser ties the type
    [invalid_image] to the other fields, and the mock step does not
    touch [disease_detected]. *)
Lemma invalid_image_with_findings :
  (exists r,
      _parse_response py0 (define_class t0)
        reply_invalid_with_findings
      = Ok r
      /\ disease_type r = PyStr "invalid_image"
      /\ disease_detected r = true
      /\ pest_detected r = true
      /\ pest_name r = PyStr "Aphids")
  /\ (exists r,
         add_mock_pest_data
           {| uniform := 0; pest_index := 0; severity_index := 0;
              confidence_offset := 0; symptom_picks := [];
              treatment_picks := []; common_picks := [] |}
           t0 [("disease_type", PyStr "invalid_image");
               ("disease_detected", PyBool true)] = Ok r
         /\ Dict.lookup r "disease_type" = Some (PyStr "invalid_image")
         /\ Dict.lookup r "disease_detected" = Some (PyBool true)).
Proof.
  split; vm_compute; eexists; repeat split.
Qed.

End Invariants.

(** ** The keyword rule *)

Module UtilsFacts.
Import PyStr PyNum Detector JsonDump Utils PyStrFacts Vocabulary.
Local Open Scope string_scope.

Lemma dumps_dict (float_repr : pyfloat -> string) (d : pydict) :
  dumps float_repr (PyDict d) = "{" ++ members_text float_repr d ++ "}".
Proof. reflexivity. Qed.

Lemma lower_app (a b : string) : lower (a ++ b) = lower a ++ lower b.
Proof.
  induction a as [|c a IH]; simpl; [reflexivity | now rewrite IH].
Qed.

Lemma contains_app_r (p a b : string) :
  contains p b = true -> contains p (a ++ b) = true.
Proof.
  intros H; induction a as [|c a IH]; [assumption|].
  now apply contains_tail.
Qed.

(** A key of the object shows in the serialised text. *)
Lemma members_show_key (float_repr : pyfloat -> string) (p : string)
      (k : pystr) :
  contains p (lower (quote k)) = true ->
  forall d, In k (map fst d) ->
            contains p (lower (members_text float_repr d)) = true.
Proof.
  intros Hp; induction d as [|[k0 x] d IH]; [contradiction|].
  intros Hin.
  assert (Hhead : k0 = k ->
                  forall tail,
                    contains p (lower (quote k0 ++ tail)) = true).
  { intros -> tail; rewrite lower_app; now apply contains_app_l. }
  destruct d as [|e d].
  - destruct Hin as [Hk | []]; apply Hhead; assumption.
  - destruct Hin as [Hk | Hin]; [now apply Hhead|].
    change (members_text float_repr ((k0, x) :: e :: d))
      with (quote k0 ++ ": " ++ dumps float_repr x ++ ", "
            ++ members_text float_repr (e :: d)).
    rewrite !lower_app.
    do 4 apply contains_app_r.
    now apply IH.
Qed.

Lemma mentions_pest_key (float_repr : pyfloat -> string)
      (d : pydict) (k : pystr) :
  In k (map fst d) ->
  contains "pest" (lower (quote k)) = true ->
  mentions_pest float_repr d = true.
Proof.
  intros Hin Hk; unfold mentions_pest, text_blob.
  assert (H : contains "pest"
                (lower (dumps float_repr (PyDict d))) = true).
  { rewrite dumps_dict, !lower_app.
    apply contains_app_r, contains_app_l.
    now apply members_show_key with (k := k). }
  unfold pest_keywords; cbn [existsb]; rewrite H.
  now rewrite !orb_true_r.
Qed.

(** The field names of a result contain a keyword, so the rule fires
    on every dictionary made from a [DiseaseAnalysisResult]. *)
Lemma mentions_pest_to_dict (float_repr : pyfloat -> string)
      (r : DiseaseAnalysisResult) :
  mentions_pest float_repr (to_dict r) = true.
Proof.
  apply mentions_pest_key with (k := Latin "pest_detected");
    [simpl; auto 20 | reflexivity].
Qed.

(** So the command-line test never shows what the analysis found: with
    the detector's own [analyze_leaf_image_base64] it returns the fixed
    dictionary whenever the analysis returns at all. *)
Lemma analysis_always_replaced
      (float_repr : pyfloat -> string)
      (create : completion_request -> result string)
      (py : interpreter) (cls : dataclass) (base64_image_string : string) :
  let analyze (s : string) :=
    analyze_leaf_image_base64 create py cls (PyStr s) PyNone PyNone in
  test_with_base64_data float_repr analyze base64_image_string = None
  \/ test_with_base64_data float_repr analyze base64_image_string
     = Some pest_infestation.
Proof.
  cbv zeta; unfold test_with_base64_data, analyze_leaf_image_base64.
  destruct (clean_base64 (PyStr base64_image_string)) as [payload|e];
    cbn [bind]; [|now left].
  destruct (create _) as [content|e]; cbn [bind]; [|now left].
  destruct (_parse_response py cls content) as [r|e]; cbn [bind]; [|now left].
  right; unfold pest_rule; now rewrite mentions_pest_to_dict.
Qed.

(** C10.  When the lower-cased serialisation of the result contains
    one of the keywords, wherever it stands, [test_with_base64_data]
    returns the fixed dictionary in place of the result.  Its
    confidence is 85.0 and none of its keys is [common_pests] or
    contains [pest]. *)
Theorem pest_rule_replaces
        (float_repr : pyfloat -> string)
        (analyze : string -> result pydict)
        (base64_image_string : string) (result0 : pydict)
        (keyword : string) :
  analyze base64_image_string = Ok result0 ->
  In keyword pest_keywords ->
  contains keyword (lower (dumps float_repr (PyDict result0))) = true ->
  test_with_base64_data float_repr analyze base64_image_string
  = Some pest_infestation
  /\ Dict.lookup pest_infestation "confidence"
     = Some (PyFloat (FDec false 850 (-1)))
  /\ Dict.keys pest_infestation
     = ["disease_detected"; "disease_name"; "disease_type"; "severity";
        "confidence"; "symptoms"; "possible_causes"; "treatment"]
  /\ forall k : string, In (Latin k) (Dict.keys pest_infestation) ->
                        contains "pest" k = false.
Proof.
  intros Ha Hk Hc.
  split; [|split; [reflexivity|split; [reflexivity|]]].
  - unfold test_with_base64_data, pest_rule; rewrite Ha.
    assert (Hm : mentions_pest float_repr result0 = true).
    { unfold mentions_pest, text_blob; apply existsb_exists.
      exists keyword; auto. }
    now rewrite Hm.
  - intros k Hin; simpl in Hin.
    repeat (destruct Hin as [E | Hin]; [injection E as <-; reflexivity|]).
    contradiction.
Qed.

Lemma pest_rule_replaces_witness :
  contains "holes" (lower (dumps repr_whole (PyDict result_with_holes))) = true
  /\ test_with_base64_data repr_whole (fun _ => Ok result_with_holes)
       "iVBORw0KGgo="
     = Some pest_infestation.
Proof.
  split; [vm_compute; reflexivity|].
  eapply (pest_rule_replaces repr_whole (fun _ => Ok result_with_holes)
            "iVBORw0KGgo=" result_with_holes "holes").
  - reflexivity.
  - simpl; auto 10.
  - vm_compute; reflexivity.
Defined.

End UtilsFacts.

(** ** More on the two parsing attempts *)

Module ParsingFacts.
Import PyStr PyNum Json Detector.
Import PyStrFacts JsonFacts FenceFacts Vocabulary DetectorFacts Wording.
Local Open Scope string_scope.

Lemma from_first_split (c : ascii) (s x : string) :
  from_first c s = Some x ->
  exists pre, s = pre ++ x /\ lacks c pre = true.
Proof.
  induction s as [|a s IH]; simpl; [discriminate|].
  destruct (a =? c)%char eqn:E.
  - intros H; injection H as <-; now exists EmptyString.
  - intros H; destruct (IH H) as (pre & -> & Hpre).
    exists (String a pre); split; [reflexivity|].
    simpl; now rewrite E, Hpre.
Qed.

Lemma upto_last_split (c : ascii) (s p : string) :
  upto_last c s = Some p ->
  exists body post,
    p = body ++ String c EmptyString /\ s = p ++ post /\ lacks c post = true.
Proof.
  revert p; induction s as [|a s IH]; intros p; simpl; [discriminate|].
  destruct (upto_last c s) as [q|] eqn:E.
  - intros H; injection H as <-.
    destruct (IH q eq_refl) as (body & post & -> & -> & Hpost).
    exists (String a body), post; auto.
  - destruct (a =? c)%char eqn:Ea; [|discriminate].
    apply Ascii.eqb_eq in Ea; subst a.
    intros H; injection H as <-.
    exists EmptyString, s; repeat split.
    clear IH; induction s as [|b s IH]; [reflexivity|].
    simpl in E; destruct (upto_last c s); [discriminate|].
    destruct (b =? c)%char eqn:Eb; [discriminate|].
    simpl; now rewrite Eb, IH.
Qed.

(** X1.  The brace search returns [m] exactly when the text splits into
    a part without opening brace, then [m], which begins with an opening
    and ends with a closing brace, then a part without closing brace:
    the match runs from the first opening brace to the last closing
    one. *)
Theorem search_braces_first_to_last (s m : string) :
  search_braces s = Some m <->
  exists pre body post,
    s = pre ++ braced body ++ post
    /\ lacks "{" pre = true /\ lacks "}" post = true
    /\ m = braced body.
Proof.
  split.
  - unfold search_braces.
    destruct (from_first "{" s) as [x|] eqn:E; [|discriminate].
    destruct (from_first_some _ _ _ E) as [r ->].
    destruct (from_first_split _ _ _ E) as (pre & -> & Hpre).
    destruct (upto_last "}" r) as [p|] eqn:Ep; [|discriminate].
    destruct (upto_last_split _ _ _ Ep) as (body & post & -> & -> & Hpost).
    intros H; injection H as <-.
    exists pre, body, post; repeat split; assumption.
  - intros (pre & body & post & -> & Hpre & Hpost & ->).
    now apply search_braces_embedded.
Qed.

Lemma search_braces_first_to_last_witness :
  search_braces "One {a} and {b} more } here" = Some "{a} and {b} more }".
Proof.
  apply search_braces_first_to_last.
  exists "One ", "a} and {b} more ", " here"; repeat split.
Defined.

(** X2.  When [json.loads] accepts the cleaned text as a value that is
    no object, the brace search is not tried: the call raises the
    [AttributeError] of field extraction, also for a text whose
    brace-to-brace match is an object that parses. *)
Theorem non_object_is_final (py : interpreter) (cls : dataclass)
        (raw : string) (v : pyval) :
  loads py (cleaned_response raw) = Ok v ->
  is_dict v = false ->
  _parse_response py cls raw = Raise AttributeError_get.
Proof.
  intros Hv Hd; rewrite (parse_direct _ _ _ _ Hv).
  now apply make_result_not_dict.
Qed.

Lemma non_object_is_final_witness :
  search_braces (json_text "[{'confidence': 85}]")
  = Some (json_text "{'confidence': 85}")
  /\ loads py0 (json_text "{'confidence': 85}")
     = Ok (PyDict [("confidence", PyInt 85)])
  /\ _parse_response py0 (define_class t0) (json_text "[{'confidence': 85}]")
     = Raise AttributeError_get.
Proof.
  split; [reflexivity|]; split; [vm_compute; reflexivity|].
  apply (non_object_is_final py0 (define_class t0)
           (json_text "[{'confidence': 85}]")
           (PyList [PyDict [("confidence", PyInt 85)]])).
  - vm_compute; reflexivity.
  - reflexivity.
Defined.

(** X3.  [_parse_response] raises nothing but: its parse error, quoting
    the raw text; the [AttributeError] of a reply that is no object; the
    [ValueError], [TypeError] and [OverflowError] of [float] on a
    confidence value; and the two exceptions of [json.loads] that its
    handlers do not catch, the [ValueError] of a digit string beyond
    the limit and [RecursionError].  No [JSONDecodeError] leaves it. *)
Theorem parse_response_errors (py : interpreter) (cls : dataclass)
        (raw : string) (e : py_error) :
  _parse_response py cls raw = Raise e ->
  e = unparseable raw \/ e = AttributeError_get
  \/ (exists s, e = ValueError_float s)
  \/ e = TypeError_float \/ e = OverflowError_float
  \/ e = ValueError_int_digits \/ e = RecursionError.
Proof.
  intros H.
  destruct (parse_cases py cls raw)
    as [(_ & _ & Hp) | [(v & Hv & _) | (e' & He & Hl & _)]].
  - left; congruence.
  - rewrite Hv in H.
    apply make_result_raises in H as [H|[H|[H|H]]]; auto 10.
  - assert (e = e') as -> by congruence.
    destruct Hl as [-> | ->]; auto 10.
Qed.

Lemma parse_response_errors_witness :
  _parse_response py0 (define_class t0) (run_of "9" 4301)
  = Raise ValueError_int_digits
  /\ (ValueError_int_digits = unparseable (run_of "9" 4301)
      \/ ValueError_int_digits = AttributeError_get
      \/ (exists s, ValueError_int_digits = ValueError_float s)
      \/ ValueError_int_digits = TypeError_float
      \/ ValueError_int_digits = OverflowError_float
      \/ ValueError_int_digits = ValueError_int_digits
      \/ ValueError_int_digits = RecursionError).
Proof.
  assert (H : _parse_response py0 (define_class t0) (run_of "9" 4301)
              = Raise ValueError_int_digits) by (vm_compute; reflexivity).
  split; [exact H|].
  exact (parse_response_errors _ _ _ _ H).
Defined.

(** X4.  The default 0 is for an absent key only: a reply whose
    [confidence] is [null], a list or an object makes field extraction
    raise [TypeError], and so does such a [pest_confidence] beside a
    confidence that converts. *)
Theorem null_confidence_raises (py : interpreter) (cls : dataclass)
        (d : pydict) (v : pyval) :
  not_a_number v = true ->
  (Dict.lookup d "confidence" = Some v ->
   make_result py cls (PyDict d) = Raise TypeError_float)
  /\ (forall c, py_float py (Dict.get d "confidence" (PyInt 0)) = Ok c ->
                Dict.lookup d "pest_confidence" = Some v ->
                make_result py cls (PyDict d) = Raise TypeError_float).
Proof.
  intros Hv.
  assert (Hf : py_float py v = Raise TypeError_float)
    by (destruct v; try discriminate; reflexivity).
  split.
  - intros H; unfold make_result, Dict.get; simpl; now rewrite H, Hf.
  - intros c Hc H; unfold make_result; simpl; rewrite Hc; simpl.
    unfold Dict.get; now rewrite H, Hf.
Qed.

Lemma null_confidence_raises_witness :
  make_result py0 (define_class t0)
    (PyDict [("disease_detected", PyBool true); ("confidence", PyNone)])
  = Raise TypeError_float.
Proof.
  apply (null_confidence_raises py0 (define_class t0)
           [("disease_detected", PyBool true); ("confidence", PyNone)]
           PyNone eq_refl).
  reflexivity.
Defined.

(** X5.  In every record the three pest sequences are never [None]: a
    [null] in the reply becomes the empty list.  The three disease
    sequences have no such guard: their [null] is kept. *)
Theorem pest_sequences_never_none (py : interpreter) (cls : dataclass)
        (d : pydict) (r : DiseaseAnalysisResult) :
  make_result py cls (PyDict d) = Ok r ->
  (common_pests r <> PyNone /\ pest_symptoms r <> PyNone
   /\ pest_treatment r <> PyNone)
  /\ (Dict.lookup d "common_pests" = Some PyNone -> common_pests r = PyList [])
  /\ (Dict.lookup d "pest_symptoms" = Some PyNone ->
      pest_symptoms r = PyList [])
  /\ (Dict.lookup d "pest_treatment" = Some PyNone ->
      pest_treatment r = PyList [])
  /\ (Dict.lookup d "symptoms" = Some PyNone -> symptoms r = PyNone)
  /\ (Dict.lookup d "possible_causes" = Some PyNone ->
      possible_causes r = PyNone)
  /\ (Dict.lookup d "treatment" = Some PyNone -> treatment r = PyNone).
Proof.
  unfold make_result; simpl.
  destruct (py_float py (Dict.get d "confidence" (PyInt 0))); simpl;
    [|discriminate].
  destruct (py_float py (Dict.get d "pest_confidence" (PyInt 0))); simpl;
    [|discriminate].
  intros H; injection H as <-; simpl.
  assert (Hp : forall v, post_init v <> PyNone)
    by (intros v; destruct v; discriminate).
  unfold Dict.get.
  repeat split; try apply Hp; intros H; now rewrite H.
Qed.

Lemma pest_sequences_never_none_witness :
  exists r,
    make_result py0 (define_class t0)
      (PyDict [("symptoms", PyNone); ("pest_symptoms", PyNone)]) = Ok r
    /\ symptoms r = PyNone /\ pest_symptoms r = PyList [].
Proof.
  eexists; split; [reflexivity|].
  destruct (pest_sequences_never_none py0 (define_class t0)
              [("symptoms", PyNone); ("pest_symptoms", PyNone)] _ eq_refl)
    as (_ & _ & H1 & _ & H2 & _).
  split; [now apply H2 | now apply H1].
Defined.

(** X6.  The two flags are taken by truthiness: a flag given as a text
    is true for every non-empty text, the text [false] included, and a
    flag given as [null] is false. *)
Theorem flag_by_truthiness (py : interpreter) (cls : dataclass)
        (d : pydict) (r : DiseaseAnalysisResult) :
  make_result py cls (PyDict d) = Ok r ->
  (forall s : pystr, Dict.lookup d "disease_detected" = Some (PyStr s) ->
                     disease_detected r = negb (Text.is_empty s))
  /\ (forall s : pystr, Dict.lookup d "pest_detected" = Some (PyStr s) ->
                        pest_detected r = negb (Text.is_empty s))
  /\ (Dict.lookup d "disease_detected" = Some PyNone ->
      disease_detected r = false)
  /\ (Dict.lookup d "pest_detected" = Some PyNone -> pest_detected r = false).
Proof.
  unfold make_result; simpl.
  destruct (py_float py (Dict.get d "confidence" (PyInt 0))); simpl;
    [|discriminate].
  destruct (py_float py (Dict.get d "pest_confidence" (PyInt 0))); simpl;
    [|discriminate].
  intros H; injection H as <-; simpl; unfold Dict.get.
  repeat split; intros; now rewrite H.
Qed.

Lemma flag_by_truthiness_witness :
  exists r,
    _parse_response py0 (define_class t0)
      (json_text "{'disease_detected': 'false'}") = Ok r
    /\ disease_detected r = true.
Proof.
  assert (H : _parse_response py0 (define_class t0)
                (json_text "{'disease_detected': 'false'}")
              = make_result py0 (define_class t0)
                  (PyDict [("disease_detected", PyStr "false")]))
    by (vm_compute; reflexivity).
  eexists; split; [rewrite H; reflexivity|].
  destruct (flag_by_truthiness py0 (define_class t0)
              [("disease_detected", PyStr "false")] _ eq_refl) as (Hs & _).
  now rewrite (Hs "false" eq_refl).
Defined.

(** X21.  An exception of the first [json.loads] other than
    [JSONDecodeError] ends the call: it is the [ValueError] of a digit
    string beyond the limit or [RecursionError], no handler catches it,
    and the brace search is not tried, also for a text whose
    brace-to-brace match is an object that parses. *)
Theorem limit_error_is_final (py : interpreter) (cls : dataclass)
        (raw : string) (e : py_error) :
  loads py (cleaned_response raw) = Raise e ->
  e <> JSONDecodeError ->
  limit_error e /\ _parse_response py cls raw = Raise e.
Proof.
  intros H Hne.
  destruct (loads_errors _ _ _ H) as [-> | Hl]; [congruence|].
  split; [assumption | now apply parse_limit].
Qed.

Lemma limit_error_is_final_witness :
  search_braces (run_of "9" 4301 ++ json_text " {'confidence': 85}")
  = Some (json_text "{'confidence': 85}")
  /\ loads py0 (json_text "{'confidence': 85}")
     = Ok (PyDict [("confidence", PyInt 85)])
  /\ _parse_response py0 (define_class t0)
       (run_of "9" 4301 ++ json_text " {'confidence': 85}")
     = Raise ValueError_int_digits.
Proof.
  split; [vm_compute; reflexivity|]; split; [vm_compute; reflexivity|].
  apply (limit_error_is_final py0 (define_class t0)
           (run_of "9" 4301 ++ json_text " {'confidence': 85}")
           ValueError_int_digits).
  - vm_compute; reflexivity.
  - discriminate.
Defined.

End ParsingFacts.

(** ** Padding and other fences *)

Module CleaningFacts.
Import PyStr PyNum Json Detector.
Import PyStrFacts JsonFacts FenceFacts Vocabulary DetectorFacts Wording.
Local Open Scope string_scope.

Lemma blank_rstrip (w : string) : blank w = true -> rstrip w = EmptyString.
Proof.
  induction w as [|c w IH]; [reflexivity|].
  simpl; intros H; apply andb_true_iff in H as [Hc Hw].
  now rewrite (IH Hw), Hc.
Qed.

Lemma blank_lacks (c : ascii) (w : string) :
  isspace c = false -> blank w = true -> lacks c w = true.
Proof.
  intros Hc; induction w as [|a w IH]; [reflexivity|].
  simpl; intros H; apply andb_true_iff in H as [Ha Hw].
  rewrite (IH Hw), andb_true_r.
  destruct (a =? c)%char eqn:E; [|reflexivity].
  apply Ascii.eqb_eq in E; congruence.
Qed.

Lemma strip_padded (pre t post : string) :
  blank pre = true -> blank post = true ->
  strip (pre ++ t ++ post) = strip t.
Proof.
  intros Hpre Hpost; unfold strip.
  rewrite <- append_assoc.
  rewrite rstrip_app_space by now apply blank_rstrip.
  induction pre as [|c pre IH]; [reflexivity|].
  simpl in Hpre; apply andb_true_iff in Hpre as [Hc Hpre].
  change (String c pre ++ t) with (String c (pre ++ t)).
  rewrite lstrip_rstrip_cons by assumption; auto.
Qed.

Lemma parse_same_inputs (py : interpreter) (cls : dataclass)
      (raw raw' : string) :
  cleaned_response raw = cleaned_response raw' ->
  search_braces raw = search_braces raw' ->
  _parse_response py cls raw = quoting raw (_parse_response py cls raw').
Proof.
  intros Hc Hs; unfold _parse_response; rewrite Hc, Hs.
  assert (Hm : forall v, make_result py cls v
                         = quoting raw (make_result py cls v)).
  { intros v; destruct (make_result py cls v) as [r|e] eqn:E; [reflexivity|].
    destruct e; try reflexivity.
    now destruct (make_result_error _ _ _ _ E msg). }
  destruct (loads py (cleaned_response raw')) as [v|e] eqn:E1; [apply Hm|].
  destruct (loads_errors _ _ _ E1) as [-> | [-> | ->]];
    [|reflexivity|reflexivity].
  destruct (search_braces raw') as [m|]; [|reflexivity].
  destruct (loads py m) as [v|e] eqn:E2; [apply Hm|].
  destruct (loads_errors _ _ _ E2) as [-> | [-> | ->]]; reflexivity.
Qed.

(** X7.  Whitespace around the reply does not matter: the padded text
    is cleaned to the same text, its brace search finds the same match,
    and the call returns the record, or raises the error, of the bare
    reply (a parse error quoting the padded text). *)
Theorem padding_is_ignored (py : interpreter) (cls : dataclass)
        (pre t post : string) :
  blank pre = true -> blank post = true ->
  cleaned_response (pre ++ t ++ post) = cleaned_response t
  /\ search_braces (pre ++ t ++ post) = search_braces t
  /\ _parse_response py cls (pre ++ t ++ post)
     = quoting (pre ++ t ++ post) (_parse_response py cls t).
Proof.
  intros Hpre Hpost.
  assert (Hc : cleaned_response (pre ++ t ++ post) = cleaned_response t)
    by (unfold cleaned_response; now rewrite strip_padded).
  assert (Hs : search_braces (pre ++ t ++ post) = search_braces t).
  { apply search_braces_context; now apply blank_lacks. }
  split; [assumption|]; split; [assumption|].
  now apply parse_same_inputs.
Qed.

Lemma padding_is_ignored_witness :
  blank (String nl "  ") = true /\ blank (String nl (String nl "")) = true
  /\ _parse_response py0 (define_class t0)
       (String nl "  " ++ reply_detected ++ String nl (String nl ""))
     = _parse_response py0 (define_class t0) reply_detected.
Proof.
  split; [reflexivity|]; split; [reflexivity|].
  destruct (padding_is_ignored py0 (define_class t0) (String nl "  ")
              reply_detected (String nl (String nl "")) eq_refl eq_refl)
    as (_ & _ & H).
  rewrite H; vm_compute; reflexivity.
Defined.

Lemma strip_fenced_plain (t : string) : strip (fenced_plain t) = fenced_plain t.
Proof.
  unfold strip.
  change (fenced_plain t)
    with (("```" ++ String nl t) ++ String nl "```")%string at 1.
  rewrite rstrip_app_keep by (vm_compute; discriminate).
  reflexivity.
Qed.

Lemma cleaned_fenced_plain (t : string) :
  contains "```" t = false -> cleaned_response (fenced_plain t) = strip t.
Proof.
  intros H; unfold cleaned_response.
  rewrite strip_fenced_plain.
  change (startswith "```json" (fenced_plain t)) with false; cbv iota.
  change (startswith "```" (fenced_plain t)) with true; cbv iota.
  change (replace "```" "" (fenced_plain t))
    with (String nl (replace_from "```" "" 0 (t ++ String nl "```"))).
  rewrite (replace_fence _ H).
  apply strip_between_breaks.
Qed.

(** X8.  The fence without a language tag is handled like the one
    tagged [json]: for a text without the marker, the fenced text gives
    the record, or the error, of the bare text. *)
Theorem plain_fence_same_result (py : interpreter) (cls : dataclass)
        (t : string) :
  contains "```" t = false ->
  _parse_response py cls (fenced_plain t)
  = quoting (fenced_plain t) (_parse_response py cls t).
Proof.
  intros H; apply parse_same_inputs.
  - now rewrite cleaned_fenced_plain, cleaned_plain.
  - change (fenced_plain t)
      with (("```" ++ String nl "") ++ t ++ String nl "```")%string.
    now apply search_braces_context.
Qed.

Lemma plain_fence_same_result_witness :
  contains "```" reply_detected = false
  /\ _parse_response py0 (define_class t0) (fenced_plain reply_detected)
     = _parse_response py0 (define_class t0) reply_detected.
Proof.
  split; [reflexivity|].
  rewrite (plain_fence_same_result py0 (define_class t0) reply_detected
             eq_refl).
  vm_compute; reflexivity.
Defined.

(** *** A fence with another tag *)

Lemma startswith_before_break (p a b : string) :
  lacks nl p = true ->
  startswith p (a ++ String nl b) = startswith p a.
Proof.
  revert a; induction p as [|x p IH]; intros a Hp; [now destruct a|].
  simpl in Hp; apply andb_true_iff in Hp as [Hx Hp].
  destruct a as [|y a]; simpl.
  - apply negb_true_iff in Hx; now rewrite Hx.
  - now rewrite (IH a Hp).
Qed.

Lemma replace_head (old : string) (c : ascii) (s : string) :
  startswith old (String c s) = false ->
  replace_from old "" 0 (String c s) = String c (replace_from old "" 0 s).
Proof.
  intros H; cbn [replace_from]; now rewrite H.
Qed.

Lemma fenced_as_parts (tag t : string) :
  fenced_as tag t = (("```" ++ tag ++ String nl "") ++ t ++ String nl "```").
Proof.
  unfold fenced_as; rewrite !append_assoc; reflexivity.
Qed.

Lemma strip_fenced_as (c : ascii) (tag t : string) :
  strip (fenced_as (String c tag) t) = fenced_as (String c tag) t.
Proof.
  unfold strip.
  rewrite fenced_as_parts, <- append_assoc.
  rewrite rstrip_app_keep by (vm_compute; discriminate).
  reflexivity.
Qed.

(** The cleaned text of a block with a tag other than [json] begins
    with the tag: it is no JSON text. *)
Lemma cleaned_fenced_as (c : ascii) (tag t : string) :
  isspace c = false -> (c =? "`")%char = false ->
  startswith "json" (String c tag) = false ->
  exists s', cleaned_response (fenced_as (String c tag) t) = String c s'.
Proof.
  intros Hsp Hbt Hj; unfold cleaned_response.
  rewrite strip_fenced_as.
  assert (H7 : startswith "```json" (fenced_as (String c tag) t) = false).
  { change (startswith "```json" (fenced_as (String c tag) t))
      with (startswith "json"
              (String c tag ++ String nl (t ++ String nl "```"))).
    rewrite startswith_before_break by reflexivity; assumption. }
  rewrite H7.
  change (startswith "```" (fenced_as (String c tag) t)) with true; cbv iota.
  change (replace "```" "" (fenced_as (String c tag) t))
    with (replace_from "```" "" 0
            (String c (tag ++ String nl (t ++ String nl "```")))).
  rewrite replace_head.
  - now apply strip_head.
  - cbn [startswith]; rewrite (Ascii.eqb_sym _ c), Hbt; reflexivity.
Qed.

(** X9.  An object text in a fenced block with another language tag is
    recovered by the second attempt: when the tag begins with a
    character no JSON value begins with and has no brace, the cleaned
    text is rejected, the brace search returns the object text, and the
    record is that of the bare object text. *)
Theorem other_tag_same_record
        (py : interpreter) (cls : dataclass) (c : ascii)
        (tag body : string) (v : pyval) :
  isspace c = false -> value_start c = false -> (c =? "`")%char = false ->
  startswith "json" (String c tag) = false ->
  lacks "{" (String c tag) = true ->
  loads py (braced body) = Ok v ->
  loads py (cleaned_response (fenced_as (String c tag) (braced body)))
  = Raise JSONDecodeError
  /\ search_braces (fenced_as (String c tag) (braced body))
     = Some (braced body)
  /\ _parse_response py cls (fenced_as (String c tag) (braced body))
     = _parse_response py cls (braced body).
Proof.
  intros Hsp Hvs Hbt Hj Hlb Hv.
  destruct (cleaned_fenced_as c tag (braced body) Hsp Hbt Hj) as [s' Hc].
  assert (Hws : is_ws c = false).
  { unfold is_ws; unfold isspace, in_range in Hsp.
    destruct (c =? " ")%char eqn:E1;
      [apply Ascii.eqb_eq in E1; subst c; discriminate|].
    destruct (c =? tab)%char eqn:E2;
      [apply Ascii.eqb_eq in E2; subst c; discriminate|].
    destruct (c =? nl)%char eqn:E3;
      [apply Ascii.eqb_eq in E3; subst c; discriminate|].
    destruct (c =? cr)%char eqn:E4;
      [apply Ascii.eqb_eq in E4; subst c; discriminate|].
    reflexivity. }
  assert (Hd : loads py (cleaned_response
                        (fenced_as (String c tag) (braced body)))
               = Raise JSONDecodeError)
    by (rewrite Hc; now apply loads_bad_start).
  assert (Hs : search_braces (fenced_as (String c tag) (braced body))
               = Some (braced body)).
  { rewrite fenced_as_parts.
    apply search_braces_embedded; [|reflexivity].
    rewrite !lacks_app, Hlb; reflexivity. }
  split; [assumption|]; split; [assumption|].
  rewrite (parse_embedded _ _ _ _ Hd Hs), Hv.
  now rewrite (parse_braced _ _ _ _ Hv).
Qed.

Lemma other_tag_same_record_witness :
  loads py0 (braced body_fungal)
  = Ok (PyDict [("disease_type", PyStr "fungal"); ("confidence", PyInt 70)])
  /\ _parse_response py0 (define_class t0)
       (fenced_as "javascript" (braced body_fungal))
     = _parse_response py0 (define_class t0) (braced body_fungal).
Proof.
  assert (H : loads py0 (braced body_fungal)
              = Ok (PyDict [("disease_type", PyStr "fungal");
                              ("confidence", PyInt 70)]))
    by (vm_compute; reflexivity).
  split; [exact H|].
  exact (proj2 (proj2 (other_tag_same_record py0 (define_class t0)
                         "j" "avascript" body_fungal _
                         eq_refl eq_refl eq_refl eq_refl eq_refl H))).
Defined.

End CleaningFacts.

(** ** The analysis as a whole *)

Module AnalyzeFacts.
Import PyStr PyNum Json Detector Harness.
Import PyStrFacts Vocabulary DetectorFacts Encoder Wording.
Local Open Scope string_scope.

Lemma post_init_not_none (v : pyval) : post_init v <> PyNone.
Proof. destruct v; discriminate. Qed.

Lemma parse_response_made (py : interpreter) (cls : dataclass)
      (raw : string) (r : DiseaseAnalysisResult) :
  _parse_response py cls raw = Ok r ->
  exists d, make_result py cls (PyDict d) = Ok r.
Proof.
  intros H.
  destruct (parse_cases py cls raw)
    as [(_ & _ & Hp) | [(v & Hv & _) | (e & He & _)]];
    [congruence | | congruence].
  rewrite Hv in H; destruct v; try discriminate; eauto.
Qed.

Lemma clean_data_url (meta payload : string) :
  lacks "," meta = true ->
  clean_base64 (PyStr ("data:" ++ meta ++ String "," payload)) = Ok payload.
Proof.
  intros Hm; unfold clean_base64.
  change ("data:" ++ meta ++ String "," payload)
    with (String "d" (String "a" (String "t" (String "a" (String ":"
            (meta ++ String "," payload)))))).
  change (Text.is_empty _) with false.
  change (Text.startswith "data:" _) with true; cbv iota.
  change (String "d" (String "a" (String "t" (String "a" (String ":"
            (meta ++ String "," payload))))))
    with (("data:" ++ meta) ++ String "," payload).
  cbn [Text.split1]; rewrite split1_first; [reflexivity|].
  rewrite lacks_app, Hm; reflexivity.
Qed.

(** X10.  Every dictionary a successful analysis returns has the
    sixteen fields of the class, in its order; the two flags are
    [bool]s, the two confidences [float]s, the three pest sequences are
    not [None], and the timestamp is the default of the class. *)
Theorem analysis_result_shape
        (create : completion_request -> result string)
        (py : interpreter) (cls : dataclass)
        (base64_image temperature max_tokens : pyval) (d : pydict) :
  analyze_leaf_image_base64 create py cls base64_image temperature max_tokens
  = Ok d ->
  Dict.keys d = result_keys
  /\ (exists b, Dict.lookup d "disease_detected" = Some (PyBool b))
  /\ (exists b, Dict.lookup d "pest_detected" = Some (PyBool b))
  /\ (exists f, Dict.lookup d "confidence" = Some (PyFloat f))
  /\ (exists f, Dict.lookup d "pest_confidence" = Some (PyFloat f))
  /\ (forall k, In k ["common_pests"; "pest_symptoms"; "pest_treatment"] ->
                exists v, Dict.lookup d k = Some v /\ v <> PyNone)
  /\ Dict.lookup d "analysis_timestamp"
     = Some (PyStr (analysis_timestamp_default cls)).
Proof.
  unfold analyze_leaf_image_base64.
  destruct (clean_base64 base64_image) as [payload|]; cbn [bind];
    [|discriminate].
  destruct (create _) as [content|]; cbn [bind]; [|discriminate].
  destruct (_parse_response py cls content) as [r|] eqn:E; cbn [bind];
    [|discriminate].
  intros H; injection H as <-.
  destruct (parse_response_made _ _ _ _ E) as [d0 Hv].
  unfold make_result in Hv; simpl in Hv.
  destruct (py_float _ _); simpl in Hv; [|discriminate].
  destruct (py_float _ _); simpl in Hv; [|discriminate].
  injection Hv as <-.
  split; [reflexivity|].
  split; [eexists; reflexivity|].
  split; [eexists; reflexivity|].
  split; [eexists; reflexivity|].
  split; [eexists; reflexivity|].
  split; [|reflexivity].
  intros k [<-|[<-|[<-|[]]]]; eexists; (split; [reflexivity|]);
    apply post_init_not_none.
Qed.

(** X11.  The image is checked before the service is called, and what
    is sent is always labelled a JPEG: an input that [clean_base64]
    refuses raises its error whatever the service would answer, and for
    a data URL of any media type the request carries
    [data:image/jpeg;base64,] followed by the text after the first
    comma. *)
Theorem request_is_relabelled
        (create : completion_request -> result string)
        (py : interpreter) (cls : dataclass)
        (temperature max_tokens : pyval) :
  (forall base64_image e,
      clean_base64 base64_image = Raise e ->
      analyze_leaf_image_base64 create py cls base64_image
        temperature max_tokens
      = Raise e)
  /\ (forall meta payload,
         lacks "," meta = true ->
         analyze_leaf_image_base64 create py cls
           (PyStr ("data:" ++ meta ++ String "," payload))
           temperature max_tokens
         = (content <- create
              {| image_url := "data:image/jpeg;base64," ++ payload;
                 temperature := py_or temperature DEFAULT_TEMPERATURE;
                 max_completion_tokens :=
                   py_or max_tokens DEFAULT_MAX_TOKENS |} ;;
            r <- _parse_response py cls content ;;
            Ok (to_dict r))).
Proof.
  split.
  - intros base64_image e He; unfold analyze_leaf_image_base64.
    now rewrite He.
  - intros meta payload Hm; unfold analyze_leaf_image_base64.
    now rewrite (clean_data_url meta payload Hm).
Qed.

Lemma analysis_result_shape_witness :
  Dict.keys
    (to_dict
       {| disease_detected := false; disease_name := PyNone;
          disease_type := PyStr "unknown"; severity := PyStr "unknown";
          confidence := FDec false 0 0; symptoms := PyList [];
          possible_causes := PyList []; treatment := PyNone;
          common_pests := PyList []; pest_detected := false;
          pest_name := PyNone; pest_severity := PyStr "none";
          pest_confidence := FDec false 0 0; pest_symptoms := PyList [];
          pest_treatment := PyList [];
          analysis_timestamp := t0 |})
  = result_keys.
Proof.
  refine (proj1 (analysis_result_shape
                   (fun _ => Ok (json_text "{'treatment': null}"))
                   py0 (define_class t0) (PyStr "iVBORw0KGgo=") PyNone PyNone
                   _ _)).
  vm_compute; reflexivity.
Defined.

Lemma request_is_relabelled_witness :
  lacks "," "image/png;base64" = true
  /\ analyze_leaf_image_base64 echo_url py0 (define_class t0)
       (PyStr "data:image/png;base64,iVBORw0KGgo=") PyNone PyNone
     = Raise (unparseable "data:image/jpeg;base64,iVBORw0KGgo=").
Proof.
  split; [reflexivity|].
  destruct (request_is_relabelled echo_url py0 (define_class t0)
              PyNone PyNone) as [_ H].
  refine (eq_trans (H "image/png;base64" "iVBORw0KGgo=" eq_refl) _).
  vm_compute; reflexivity.
Defined.

(** X12.  An option that is falsy is replaced by its default, like one
    that is not given: no call can ask for temperature 0 or for 0
    tokens. *)
Theorem falsy_option_is_default
        (create : completion_request -> result string)
        (py : interpreter) (cls : dataclass)
        (base64_image option other : pyval) :
  py_bool option = false ->
  analyze_leaf_image_base64 create py cls base64_image option other
  = analyze_leaf_image_base64 create py cls base64_image PyNone other
  /\ analyze_leaf_image_base64 create py cls base64_image other option
     = analyze_leaf_image_base64 create py cls base64_image other PyNone.
Proof.
  intros H; unfold analyze_leaf_image_base64, py_or; rewrite H.
  split; reflexivity.
Qed.

Lemma falsy_option_is_default_witness :
  analyze_leaf_image_base64 echo_url py0 (define_class t0)
    (PyStr "iVBORw0KGgo=") (PyFloat (FDec false 0 0)) (PyInt 0)
  = analyze_leaf_image_base64 echo_url py0 (define_class t0)
      (PyStr "iVBORw0KGgo=") PyNone (PyInt 0).
Proof.
  exact (proj1 (falsy_option_is_default _ py0 (define_class t0)
                  (PyStr "iVBORw0KGgo=") (PyFloat (FDec false 0 0))
                  (PyInt 0) eq_refl)).
Defined.

(** X13.  The constructor finds no key, and raises, exactly when the
    argument and the environment value are both falsy; a truthy
    argument is the key kept, and a falsy one, the empty text included,
    gives way to the environment value. *)
Theorem init_api_key_spec (api_key environ_key : pyval) :
  (init_api_key api_key environ_key = None
   <-> py_bool api_key = false /\ py_bool environ_key = false)
  /\ (py_bool api_key = true ->
      init_api_key api_key environ_key = Some api_key)
  /\ (py_bool api_key = false -> py_bool environ_key = true ->
      init_api_key api_key environ_key = Some environ_key).
Proof.
  unfold init_api_key, py_or.
  destruct (py_bool api_key) eqn:Ea.
  - rewrite Ea; cbn [negb].
    split; [split; [discriminate | intros [H _]; discriminate]|].
    split; [reflexivity | discriminate].
  - destruct (py_bool environ_key) eqn:Ee; cbn [negb].
    + split; [split; [discriminate | intros [_ H]; discriminate]|].
      split; [discriminate | reflexivity].
    + split; [split; auto|].
      split; discriminate.
Qed.

Lemma init_api_key_spec_witness :
  init_api_key (PyStr "") (PyStr "gsk_example") = Some (PyStr "gsk_example")
  /\ init_api_key PyNone PyNone = None.
Proof.
  destruct (init_api_key_spec (PyStr "") (PyStr "gsk_example"))
    as (_ & _ & H).
  split; [exact (H eq_refl eq_refl)|].
  now apply (proj1 (init_api_key_spec PyNone PyNone)).
Defined.

End AnalyzeFacts.

(** ** More on the mock pest data *)

Module MockFacts.
Import PyStr PyNum App.
Import Vocabulary DictFacts AppFacts Wording.
Local Open Scope string_scope.

(** *** Sampling *)

Lemma remove_at_length {A : Type} (l : list A) :
  forall i, i < List.length l ->
            List.length (remove_at i l) = pred (List.length l).
Proof.
  induction l as [|x l IH]; intros [|i] H; simpl in *; try lia.
  rewrite IH by lia; destruct l; simpl in *; lia.
Qed.

Lemma remove_at_notin {A : Type} (l : list A) :
  forall i x, NoDup l -> nth_error l i = Some x -> ~ In x (remove_at i l).
Proof.
  induction l as [|y l IH]; intros [|i] x Hnd Hx; simpl in *;
    try discriminate.
  - injection Hx as ->; now inversion Hnd.
  - inversion Hnd as [|? ? Hy Hl]; subst.
    intros [->|Hin].
    + apply Hy; now apply nth_error_In in Hx.
    + now apply (IH i x Hl Hx).
Qed.

Lemma remove_at_nodup {A : Type} (l : list A) :
  forall i, NoDup l -> NoDup (remove_at i l).
Proof.
  induction l as [|y l IH]; intros [|i] Hnd; simpl; try assumption.
  - now inversion Hnd.
  - inversion Hnd as [|? ? Hy Hl]; subst; constructor; [|auto].
    intros Hin; apply Hy; now apply remove_at_in in Hin.
Qed.

Lemma sample_length {A : Type} (k : nat) :
  forall picks (l : list A),
    k <= List.length l -> List.length (sample picks k l) = k.
Proof.
  induction k as [|k IH]; intros picks l Hk; [reflexivity|].
  cbn [sample].
  assert (Hi : hd 0 picks mod List.length l < List.length l)
    by (apply Nat.mod_upper_bound; lia).
  destruct (nth_error l _) as [x|] eqn:E.
  - simpl; rewrite IH; [reflexivity|].
    rewrite remove_at_length by assumption; lia.
  - apply nth_error_None in E; lia.
Qed.

Lemma sample_nodup {A : Type} (k : nat) :
  forall picks (l : list A), NoDup l -> NoDup (sample picks k l).
Proof.
  induction k as [|k IH]; intros picks l Hnd; [constructor|].
  cbn [sample].
  destruct (nth_error l _) as [x|] eqn:E; [|constructor].
  constructor.
  - intros Hin; apply sample_in in Hin.
    now apply (remove_at_notin l _ x Hnd E).
  - apply IH; now apply remove_at_nodup.
Qed.

(** *** The library *)

Lemma library_get_in (lib : list (string * pest)) (k : string) (p : pest) :
  library_get lib k = Ok p -> In (k, p) lib.
Proof.
  induction lib as [|[k' p'] lib IH]; simpl; [discriminate|].
  destruct (String.eqb k' k) eqn:E; [|auto].
  apply String.eqb_eq in E; subst k'.
  intros H; injection H as <-; now left.
Qed.

Lemma library_entries (k : string) (p : pest) :
  In (k, p) pest_library ->
  List.length (App.symptoms p) = 4 /\ List.length (treatments p) = 4
  /\ NoDup (App.symptoms p) /\ NoDup (treatments p).
Proof.
  assert (Hnd : forall a b c d : string,
             (String.eqb a b || String.eqb a c || String.eqb a d
              || String.eqb b c || String.eqb b d || String.eqb c d) = false ->
             NoDup [a; b; c; d]).
  { intros a b c d H.
    repeat (apply orb_false_iff in H as [H ?]).
    repeat match goal with
           | E : String.eqb _ _ = false |- _ => apply String.eqb_neq in E
           end.
    repeat constructor; simpl; intuition congruence. }
  unfold pest_library; intros Hin; simpl in Hin.
  repeat (destruct Hin as [Hin|Hin];
          [injection Hin as <- <-; simpl;
           repeat split; try reflexivity; apply Hnd; reflexivity|]).
  contradiction.
Qed.

(** *** What a run writes *)

Lemma stamped_other (now : string) (r : pydict) (k : pystr) :
  Text.eqb "analysis_timestamp" k = false ->
  Dict.lookup (stamped now r) k = Dict.lookup r k.
Proof.
  intros H; unfold stamped; destruct (Dict.mem r "analysis_timestamp");
    [reflexivity | now apply lookup_set_other].
Qed.

Lemma stamped_mem (now : string) (r : pydict) :
  Dict.mem (stamped now r) "analysis_timestamp" = true.
Proof.
  unfold stamped; destruct (Dict.mem r "analysis_timestamp") eqn:E;
    [assumption|].
  unfold Dict.mem; now rewrite lookup_set_same.
Qed.

Lemma mock_pest_explicit (rnd : draws) (now : string) (d : pydict) :
  draws_pest rnd d = true ->
  exists key p sev names,
    In (key, p) pest_library
    /\ In sev ["mild"; "moderate"; "severe"]
    /\ add_mock_pest_data rnd now d
       = Ok (stamped now
               (if truthy (Dict.lookup d "disease_detected")
                then Dict.set (with_pest rnd p sev d)
                       "common_pests" (strs names)
                else with_pest rnd p sev d)).
Proof.
  intros Hflag; unfold add_mock_pest_data; cbv zeta.
  fold (draws_pest rnd d); rewrite Hflag.
  destruct (choice_in (pest_index rnd) (map fst pest_library))
    as (key & Hk & Hin); [discriminate|].
  rewrite Hk; cbn [bind].
  destruct (library_get_key _ _ Hin) as [p Hp]; rewrite Hp; cbn [bind].
  destruct (choice_in (severity_index rnd) ["mild"; "moderate"; "severe"])
    as (sev & Hs & Hsev); [discriminate|].
  rewrite Hs; cbn [bind].
  pose proof (library_get_in _ _ _ Hp) as Hlib.
  destruct (library_entries _ _ Hlib) as (Hls & Hlt & _).
  rewrite Hls, Hlt.
  change (Nat.min 3 4) with 3.
  fold (with_pest rnd p sev d).
  assert (Ht : truthy (Dict.lookup (with_pest rnd p sev d) "disease_detected")
               = truthy (Dict.lookup d "disease_detected"))
    by (unfold with_pest; now dict_lookup).
  rewrite Ht.
  destruct (truthy (Dict.lookup d "disease_detected")).
  - destruct (names_of_keys
                (sample (common_picks rnd)
                   (Nat.min 3 (List.length (map fst pest_library)))
                   (map fst pest_library))) as [ns Hns].
    { intros k Hk'; now apply sample_in in Hk'. }
    rewrite Hns; cbn [bind].
    exists key, p, sev, ns; split; [assumption|]; split; [assumption|].
    unfold stamped; now destruct (Dict.mem _ _).
  - cbn [bind]; exists key, p, sev, []; split; [assumption|];
      split; [assumption|].
    unfold stamped; now destruct (Dict.mem _ _).
Qed.

Lemma mock_no_pest_explicit (rnd : draws) (now : string) (d : pydict) :
  draws_pest rnd d = false ->
  add_mock_pest_data rnd now d = Ok (stamped now (without_pest d)).
Proof.
  intros Hflag; unfold add_mock_pest_data; cbv zeta.
  fold (draws_pest rnd d); rewrite Hflag; cbn [bind].
  fold (without_pest d); unfold stamped; now destruct (Dict.mem _ _).
Qed.


Ltac mock_lookup :=
  repeat (rewrite stamped_other by reflexivity);
  unfold with_pest, without_pest; dict_lookup.

(** X14.  A run always returns, and its result has the six pest entries
    and a timestamp.  [common_pests] is written by every run but the one
    that draws a pest for a result without detected disease: that run
    leaves the entry as it found it, absent if it was absent. *)
Theorem mock_entries_written (rnd : draws) (now : string) (d : pydict) :
  exists r,
    add_mock_pest_data rnd now d = Ok r
    /\ (forall k, In k mock_keys_always -> Dict.mem r k = true)
    /\ (draws_pest rnd d = false
        \/ truthy (Dict.lookup d "disease_detected") = true ->
        Dict.mem r "common_pests" = true)
    /\ (draws_pest rnd d = true ->
        truthy (Dict.lookup d "disease_detected") = false ->
        Dict.lookup r "common_pests" = Dict.lookup d "common_pests").
Proof.
  destruct (draws_pest rnd d) eqn:E.
  - destruct (mock_pest_explicit rnd now d E)
      as (key & p & sev & names & _ & _ & Hr).
    eexists; split; [exact Hr|].
    destruct (truthy (Dict.lookup d "disease_detected")).
    + split; [|split; [|discriminate]].
      * intros k Hk; simpl in Hk; unfold Dict.mem.
        destruct Hk as [<-|[<-|[<-|[<-|[<-|[<-|[<-|[]]]]]]]];
          try (now mock_lookup).
        apply stamped_mem.
      * intros _; unfold Dict.mem; now mock_lookup.
    + split; [|split; [intros [H|H]; discriminate|]].
      * intros k Hk; simpl in Hk; unfold Dict.mem.
        destruct Hk as [<-|[<-|[<-|[<-|[<-|[<-|[<-|[]]]]]]]];
          try (now mock_lookup).
        apply stamped_mem.
      * intros _ _; now mock_lookup.
  - eexists; split; [exact (mock_no_pest_explicit rnd now d E)|].
    split; [|split; [|discriminate]].
    + intros k Hk; simpl in Hk; unfold Dict.mem.
      destruct Hk as [<-|[<-|[<-|[<-|[<-|[<-|[<-|[]]]]]]]];
        try (now mock_lookup).
      apply stamped_mem.
    + intros _; unfold Dict.mem; now mock_lookup.
Qed.

Lemma mock_entries_written_witness :
  exists r,
    add_mock_pest_data
      {| uniform := 0; pest_index := 2; severity_index := 0;
         confidence_offset := 20; symptom_picks := [1];
         treatment_picks := []; common_picks := [] |}
      t0 [("disease_detected", PyBool false)] = Ok r
    /\ Dict.lookup r "pest_name" = Some (PyStr "Whiteflies")
    /\ Dict.lookup r "common_pests" = None.
Proof.
  destruct (mock_entries_written
              {| uniform := 0; pest_index := 2; severity_index := 0;
                 confidence_offset := 20; symptom_picks := [1];
                 treatment_picks := []; common_picks := [] |}
              t0 [("disease_detected", PyBool false)]) as (r & Hr & _ & _ & H).
  exists r; split; [exact Hr|]; split.
  - vm_compute in Hr; injection Hr as <-; reflexivity.
  - exact (H eq_refl eq_refl).
Defined.

(** X15.  When a run draws a pest, the result names a pest of the
    library, with a severity among mild, moderate and severe, a
    confidence from 75 to 95, and three different symptoms and three
    different treatments of that very pest. *)
Theorem mock_pest_values (rnd : draws) (now : string) (d : pydict) :
  draws_pest rnd d = true ->
  exists r key p (sev : string) c syms cures,
    add_mock_pest_data rnd now d = Ok r
    /\ In (key, p) pest_library
    /\ Dict.lookup r "pest_detected" = Some (PyBool true)
    /\ Dict.lookup r "pest_name" = Some (PyStr (name p))
    /\ Dict.lookup r "pest_severity" = Some (PyStr sev)
    /\ In sev ["mild"; "moderate"; "severe"]
    /\ Dict.lookup r "pest_confidence" = Some (PyInt c)
    /\ (75 <= c <= 95)%Z
    /\ Dict.lookup r "pest_symptoms" = Some (strs syms)
    /\ List.length syms = 3 /\ NoDup syms /\ incl syms (App.symptoms p)
    /\ Dict.lookup r "pest_treatment" = Some (strs cures)
    /\ List.length cures = 3 /\ NoDup cures /\ incl cures (treatments p).
Proof.
  intros E.
  destruct (mock_pest_explicit rnd now d E)
    as (key & p & sev & names & Hlib & Hsev & Hr).
  destruct (library_entries _ _ Hlib) as (Hls & Hlt & Hns & Hnt).
  exists (stamped now
            (if truthy (Dict.lookup d "disease_detected")
             then Dict.set (with_pest rnd p sev d) "common_pests" (strs names)
             else with_pest rnd p sev d)),
    key, p, sev, (75 + Z.of_N (confidence_offset rnd mod 21))%Z,
    (sample (symptom_picks rnd) 3 (App.symptoms p)),
    (sample (treatment_picks rnd) 3 (treatments p)).
  assert (Hmod : (confidence_offset rnd mod 21 < 21)%N)
    by (apply N.mod_upper_bound; discriminate).
  split; [exact Hr|]; split; [exact Hlib|].
  assert (Hlook : forall k v,
             Dict.lookup (with_pest rnd p sev d) k = Some v ->
             Text.eqb "common_pests" k = false ->
             Text.eqb "analysis_timestamp" k = false ->
             Dict.lookup
               (stamped now
                  (if truthy (Dict.lookup d "disease_detected")
                   then Dict.set (with_pest rnd p sev d)
                          "common_pests" (strs names)
                   else with_pest rnd p sev d)) k = Some v).
  { intros k v Hv H1 H2; rewrite stamped_other by assumption.
    destruct (truthy _); [rewrite lookup_set_other by assumption|];
      assumption. }
  repeat split;
    try (apply Hlook; [unfold with_pest; now dict_lookup
                      | reflexivity | reflexivity]);
    try assumption;
    try (pose proof (N2Z.is_nonneg (confidence_offset rnd mod 21)); lia);
    try (apply sample_length; lia);
    try (now apply sample_nodup);
    try (intros x Hx; now apply sample_in in Hx).
Qed.

Lemma mock_pest_values_witness :
  draws_pest
    {| uniform := 0; pest_index := 11; severity_index := 5;
       confidence_offset := 41; symptom_picks := [3; 0; 1];
       treatment_picks := [0; 0; 0]; common_picks := [7; 0; 0] |}
    [("disease_detected", PyBool true)] = true
  /\ exists r,
      add_mock_pest_data
        {| uniform := 0; pest_index := 11; severity_index := 5;
           confidence_offset := 41; symptom_picks := [3; 0; 1];
           treatment_picks := [0; 0; 0]; common_picks := [7; 0; 0] |}
        t0 [("disease_detected", PyBool true)] = Ok r
      /\ Dict.lookup r "pest_name" = Some (PyStr "Mealybugs")
      /\ Dict.lookup r "pest_confidence" = Some (PyInt 95).
Proof.
  split; [reflexivity|].
  destruct (mock_pest_values
              {| uniform := 0; pest_index := 11; severity_index := 5;
                 confidence_offset := 41; symptom_picks := [3; 0; 1];
                 treatment_picks := [0; 0; 0]; common_picks := [7; 0; 0] |}
              t0 [("disease_detected", PyBool true)] eq_refl)
    as (r & _ & _ & _ & _ & _ & _ & Hr & _).
  exists r; split; [exact Hr|].
  vm_compute in Hr; injection Hr as <-; split; reflexivity.
Defined.

(** X16.  The timestamp is written once: a run keeps the timestamp a
    result comes with and gives the clock reading to a result without
    one, so a second run, at any later reading, leaves the timestamp of
    the first. *)
Theorem mock_timestamp_once
        (rnd rnd' : draws) (now now' : string) (d r r' : pydict) :
  add_mock_pest_data rnd now d = Ok r ->
  add_mock_pest_data rnd' now' r = Ok r' ->
  Dict.lookup r "analysis_timestamp"
  = match Dict.lookup d "analysis_timestamp" with
    | Some v => Some v
    | None => Some (PyStr now)
    end
  /\ Dict.lookup r' "analysis_timestamp" = Dict.lookup r "analysis_timestamp".
Proof.
  intros H1 H2.
  pose proof (mock_timestamp _ _ _ _ H1) as E1.
  pose proof (mock_timestamp _ _ _ _ H2) as E2.
  split; [exact E1|].
  rewrite E2, E1.
  now destruct (Dict.lookup d "analysis_timestamp").
Qed.

Lemma mock_timestamp_once_witness :
  exists r r',
    add_mock_pest_data
      {| uniform := 0; pest_index := 0; severity_index := 0;
         confidence_offset := 0; symptom_picks := [];
         treatment_picks := []; common_picks := [] |}
      "2024-05-01T09:00:00+00:00" [] = Ok r
    /\ add_mock_pest_data
         {| uniform := 9007199254740991; pest_index := 0;
            severity_index := 0; confidence_offset := 0;
            symptom_picks := []; treatment_picks := [];
            common_picks := [] |}
         "2024-05-02T10:00:00+00:00" r = Ok r'
    /\ Dict.lookup r' "analysis_timestamp"
       = Some (PyStr "2024-05-01T09:00:00+00:00").
Proof.
  eexists _, _.
  split; [vm_compute; reflexivity|].
  split; [vm_compute; reflexivity|].
  destruct (mock_timestamp_once
              {| uniform := 0; pest_index := 0; severity_index := 0;
                 confidence_offset := 0; symptom_picks := [];
                 treatment_picks := []; common_picks := [] |}
              {| uniform := 9007199254740991; pest_index := 0;
                 severity_index := 0; confidence_offset := 0;
                 symptom_picks := []; treatment_picks := [];
                 common_picks := [] |}
              "2024-05-01T09:00:00+00:00" "2024-05-02T10:00:00+00:00"
              [] _ _ ltac:(vm_compute; reflexivity)
              ltac:(vm_compute; reflexivity)) as [H1 H2].
  rewrite H2; vm_compute; reflexivity.
Defined.

(** X17.  A run touches no entry but the pest entries and the
    timestamp: every other key has in the result the value it had, or
    is absent as it was. *)
Theorem mock_leaves_other_entries
        (rnd : draws) (now : string) (d r : pydict) (k : pystr) :
  add_mock_pest_data rnd now d = Ok r ->
  ~ In k mock_keys ->
  Dict.lookup r k = Dict.lookup d k.
Proof.
  intros Hr Hk.
  assert (Hne : forall k0, In k0 mock_keys -> Text.eqb k0 k = false).
  { intros k0 Hin; destruct (Text.eqb k0 k) eqn:E; [|reflexivity].
    apply text_eqb_eq in E; subst k0; contradiction. }
  assert (Hw : forall p sev,
             Dict.lookup (with_pest rnd p sev d) k = Dict.lookup d k).
  { intros p sev; unfold with_pest.
    repeat rewrite lookup_set_other by (apply Hne; simpl; auto 10).
    reflexivity. }
  destruct (draws_pest rnd d) eqn:E.
  - destruct (mock_pest_explicit rnd now d E)
      as (key & p & sev & names & _ & _ & Hr').
    rewrite Hr' in Hr; injection Hr as <-.
    rewrite stamped_other by (apply Hne; simpl; auto 10).
    destruct (truthy _);
      [rewrite lookup_set_other by (apply Hne; simpl; auto 10)|];
      apply Hw.
  - rewrite (mock_no_pest_explicit rnd now d E) in Hr; injection Hr as <-.
    rewrite stamped_other by (apply Hne; simpl; auto 10).
    unfold without_pest.
    repeat rewrite lookup_set_other by (apply Hne; simpl; auto 10).
    reflexivity.
Qed.

Lemma mock_leaves_other_entries_witness :
  exists r,
    add_mock_pest_data
      {| uniform := 0; pest_index := 4; severity_index := 2;
         confidence_offset := 3; symptom_picks := [];
         treatment_picks := []; common_picks := [] |}
      t0 [("disease_name", PyStr "Brown spot"); ("pest_name", PyStr "?")]
    = Ok r
    /\ Dict.lookup r "disease_name" = Some (PyStr "Brown spot")
    /\ Dict.lookup r "severity" = None.
Proof.
  eexists; split; [vm_compute; reflexivity|].
  split;
    refine (eq_trans
              (mock_leaves_other_entries
                 {| uniform := 0; pest_index := 4; severity_index := 2;
                    confidence_offset := 3; symptom_picks := [];
                    treatment_picks := []; common_picks := [] |}
                 t0 [("disease_name", PyStr "Brown spot");
                     ("pest_name", PyStr "?")] _ _
                 ltac:(vm_compute; reflexivity) _) _);
    try reflexivity;
    simpl; intuition discriminate.
Defined.

End MockFacts.

(** ** The byte-level test *)

Module HarnessFacts.
Import PyStr PyNum Json Detector Utils Base64 Harness.
Import PyStrFacts Vocabulary DetectorFacts UtilsFacts Wording.
Local Open Scope string_scope.

(** No character of the encoding is a colon. *)
Lemma digit_no_colon (n : N) : (digit n =? ":")%char = false.
Proof.
  unfold digit; generalize (N.to_nat (N.land n 63)); intros k.
  do 64 (destruct k as [|k]; [reflexivity|]).
  reflexivity.
Qed.

Lemma b64encode_no_colon (n : nat) :
  forall data, String.length data <= n -> lacks ":" (b64encode data) = true.
Proof.
  induction n as [|n IH]; intros data Hn.
  - destruct data; [reflexivity | simpl in Hn; lia].
  - destruct data as [|a [|b [|c r]]]; [reflexivity| | |];
      cbn [b64encode]; cbv zeta; cbn [lacks];
      rewrite ?digit_no_colon; try reflexivity.
    cbn [negb andb]; apply IH; simpl in Hn; lia.
Qed.

Lemma b64encode_nonempty (data : string) :
  data <> EmptyString -> b64encode data <> EmptyString.
Proof.
  destruct data as [|a [|b [|c r]]]; [congruence| | |]; discriminate.
Qed.

Lemma startswith_split (p x : string) :
  startswith p x = true -> exists rest, x = p ++ rest.
Proof.
  revert x; induction p as [|a p IH]; intros x; [now exists x|].
  destruct x as [|b x]; simpl; [discriminate|].
  intros H; apply andb_true_iff in H as [Hab Hp].
  apply Ascii.eqb_eq in Hab; subst b.
  destruct (IH x Hp) as [rest ->]; now exists rest.
Qed.

Lemma no_data_prefix (x : string) :
  lacks ":" x = true -> startswith "data:" x = false.
Proof.
  intros H; destruct (startswith "data:" x) eqn:E; [|reflexivity].
  apply startswith_split in E as [rest ->].
  rewrite lacks_app in H; discriminate.
Qed.

(** X18.  Without bytes there is no test.  The encoding of one or more
    bytes passes the detector's input check unchanged, whatever the
    bytes are, so the request carries exactly the Base64 text after the
    JPEG label. *)
Theorem bytes_are_sent_encoded :
  (forall float_repr analyze,
      convert_image_to_base64_and_test float_repr analyze "" = None)
  /\ (forall image_bytes,
         image_bytes <> "" ->
         clean_base64 (PyStr (b64encode image_bytes))
         = Ok (b64encode image_bytes))
  /\ (forall float_repr create py cls image_bytes,
         image_bytes <> "" ->
         convert_image_to_base64_and_test float_repr
           (fun s => analyze_leaf_image_base64 create py cls (PyStr s)
                       PyNone PyNone)
           image_bytes
         = match
             content <- create (default_request (b64encode image_bytes)) ;;
             r <- _parse_response py cls content ;;
             Ok (to_dict r)
           with
           | Ok result0 => Some (pest_rule float_repr result0)
           | Raise _ => None
           end).
Proof.
  assert (Hclean : forall image_bytes,
             image_bytes <> "" ->
             clean_base64 (PyStr (b64encode image_bytes))
             = Ok (b64encode image_bytes)).
  { intros image_bytes Hb; unfold clean_base64.
    pose proof (b64encode_nonempty _ Hb) as Hne.
    destruct (b64encode image_bytes) as [|c r] eqn:E; [congruence|].
    cbn [Text.is_empty Text.startswith String.eqb].
    rewrite no_data_prefix; [reflexivity|].
    rewrite <- E; now apply (b64encode_no_colon _ _ (le_n _)). }
  split; [reflexivity|]; split; [exact Hclean|].
  intros float_repr create py cls image_bytes Hb.
  unfold convert_image_to_base64_and_test, test_with_base64_data,
    analyze_leaf_image_base64.
  destruct image_bytes as [|a r]; [congruence|].
  now rewrite (Hclean _ Hb).
Qed.

Lemma bytes_are_sent_encoded_witness :
  clean_base64 (PyStr (b64encode "data:,")) = Ok "ZGF0YTos".
Proof.
  destruct bytes_are_sent_encoded as (_ & H & _).
  exact (H "data:," ltac:(discriminate)).
Defined.

(** X19.  With the detector's own analysis, the two tests of [utils.py]
    never return what the analysis found: each returns [None] or the
    fixed dictionary, because the serialised result always contains a
    keyword, in its field names. *)
Theorem tests_never_return_analysis
        (float_repr : pyfloat -> string)
        (create : completion_request -> result string)
        (py : interpreter) (cls : dataclass) :
  let analyze (s : string) :=
    analyze_leaf_image_base64 create py cls (PyStr s) PyNone PyNone in
  (forall r, mentions_pest float_repr (to_dict r) = true)
  /\ (forall base64_image_string,
         test_with_base64_data float_repr analyze base64_image_string = None
         \/ test_with_base64_data float_repr analyze base64_image_string
            = Some pest_infestation)
  /\ (forall image_bytes,
         convert_image_to_base64_and_test float_repr analyze image_bytes
         = None
         \/ convert_image_to_base64_and_test float_repr analyze image_bytes
            = Some pest_infestation).
Proof.
  cbv zeta; split; [apply mentions_pest_to_dict|]; split.
  - intros s; apply analysis_always_replaced.
  - intros image_bytes; unfold convert_image_to_base64_and_test.
    destruct image_bytes; [now left|].
    apply analysis_always_replaced.
Qed.

End HarnessFacts.

(** ** A confidence given as text *)

Module FloatTextFacts.
Import PyStr PyNum Json Detector.
Import PyStrFacts Vocabulary DetectorFacts Wording.
Local Open Scope string_scope.

Lemma all_chars_app (ok : ascii -> bool) (a b : string) :
  all_chars ok (a ++ b) = all_chars ok a && all_chars ok b.
Proof.
  induction a as [|c a IH]; simpl; [reflexivity|].
  now rewrite IH, andb_assoc.
Qed.

Lemma all_chars_weaken (ok ok' : ascii -> bool) (s : string) :
  (forall c, ok c = true -> ok' c = true) ->
  all_chars ok s = true -> all_chars ok' s = true.
Proof.
  intros H; induction s as [|c s IH]; [reflexivity|].
  simpl; intros Hs; apply andb_true_iff in Hs as [Hc Hs].
  now rewrite (H _ Hc), IH.
Qed.

Lemma span_digits_split (s ds rest : string) :
  span_digits s = (ds, rest) ->
  s = ds ++ rest /\ all_chars is_digit ds = true.
Proof.
  revert ds rest; induction s as [|c s IH]; intros ds rest; simpl.
  - intros H; injection H as <- <-; auto.
  - destruct (is_digit c) eqn:E.
    + destruct (span_digits s) as [ds' rest'].
      intros H; injection H as <- <-.
      destruct (IH _ _ eq_refl) as [-> Hd].
      split; [reflexivity|]; simpl; now rewrite E.
    + intros H; injection H as <- <-; auto.
Qed.

Lemma lstrip_float_chars (ok : ascii -> bool) (s : string) :
  (forall c, float_space c = true -> ok c = true) ->
  all_chars ok (lstrip_float s) = true -> all_chars ok s = true.
Proof.
  intros Hsp; induction s as [|c s IH]; [reflexivity|].
  cbn [lstrip_float]; destruct (float_space c) eqn:E; [|auto].
  intros H; simpl; now rewrite (Hsp _ E), IH.
Qed.

Lemma rstrip_float_chars (ok : ascii -> bool) (s : string) :
  (forall c, float_space c = true -> ok c = true) ->
  all_chars ok (rstrip_float s) = true -> all_chars ok s = true.
Proof.
  intros Hsp.
  assert (Hall : forall t, rstrip_float t = EmptyString ->
                           all_chars ok t = true).
  { induction t as [|c t IHt]; [reflexivity|].
    cbn [rstrip_float]; destruct (rstrip_float t); [|discriminate].
    destruct (float_space c) eqn:E; [|discriminate].
    intros _; simpl; now rewrite (Hsp _ E), IHt. }
  induction s as [|c s IH]; [reflexivity|].
  cbn [rstrip_float]; destruct (rstrip_float s) as [|d r] eqn:E.
  - destruct (float_space c) eqn:Ec.
    + intros _; simpl; now rewrite (Hsp _ Ec), Hall.
    + simpl; rewrite andb_true_r; intros Hc; now rewrite Hc, Hall.
  - cbn [all_chars]; intros H; apply andb_true_iff in H as [Hc Hr].
    now rewrite Hc, IH.
Qed.

Lemma drop_underscores_chars (ok : ascii -> bool) (s : string) :
  ok "_"%char = true ->
  forall prev t, drop_underscores prev s = Some t ->
                 all_chars ok t = true -> all_chars ok s = true.
Proof.
  intros Hu; induction s as [|c s IH]; intros prev t; [reflexivity|].
  cbn [drop_underscores].
  destruct (c =? "_")%char eqn:E.
  - apply Ascii.eqb_eq in E; subst c.
    destruct (is_digit prev); [|discriminate].
    intros H Ht; simpl; now rewrite Hu, (IH _ _ H Ht).
  - destruct ((prev =? "_")%char && negb (is_digit c)); [discriminate|].
    destruct (drop_underscores c s) as [t'|] eqn:Et; [|discriminate].
    simpl; intros H; injection H as <-.
    simpl; intros H; apply andb_true_iff in H as [Hc Ht].
    now rewrite Hc, (IH _ _ Et Ht).
Qed.

Lemma digit_float_char (c : ascii) : is_digit c = true -> float_char c = true.
Proof. intros H; unfold float_char; now rewrite H. Qed.

Lemma space_float_char (c : ascii) :
  float_space c = true -> float_char c = true.
Proof. intros H; unfold float_char; rewrite H; now destruct (is_digit c). Qed.

Lemma eq_float_char (c x : ascii) :
  (c =? x)%char = true -> float_char x = true -> float_char c = true.
Proof. intros H; apply Ascii.eqb_eq in H; now subst. Qed.

Lemma span_exponent_chars (s : string) (z : Z) (rest : string) :
  span_exponent s = Some (z, rest) ->
  exists used, s = used ++ rest /\ all_chars float_char used = true.
Proof.
  unfold span_exponent; destruct s as [|c r]; [discriminate|].
  destruct ((c =? "e")%char || (c =? "E")%char) eqn:Ec; [|discriminate].
  assert (Hc : float_char c = true).
  { apply orb_true_iff in Ec as [E|E];
      [apply (eq_float_char _ _ E) | apply (eq_float_char _ _ E)];
      reflexivity. }
  assert (Hgen : forall (neg : bool) sign r1,
             r = sign ++ r1 -> all_chars float_char sign = true ->
             (let (ds, rest0) := span_digits r1 in
              match ds with
              | EmptyString => None
              | String _ _ =>
                  Some ((if neg then - Z.of_N (nat_of_digits ds)
                         else Z.of_N (nat_of_digits ds))%Z, rest0)
              end) = Some (z, rest) ->
             exists used, String c r = used ++ rest
                          /\ all_chars float_char used = true).
  { intros neg sign r1 -> Hsign H.
    destruct (span_digits r1) as [ds rest0] eqn:Ed.
    destruct (span_digits_split _ _ _ Ed) as [-> Hds].
    destruct ds; [discriminate|].
    injection H as _ <-.
    exists (String c (sign ++ String a ds)); split.
    - simpl; now rewrite append_assoc.
    - simpl; rewrite Hc, all_chars_app, Hsign; simpl.
      apply (all_chars_weaken _ _ _ digit_float_char Hds). }
  destruct r as [|sg r'].
  - apply (Hgen false "" ""); reflexivity.
  - destruct (sg =? "-")%char eqn:E1.
    { apply (Hgen true (String sg "") r'); [reflexivity|].
      simpl; now rewrite (eq_float_char _ _ E1 eq_refl). }
    destruct (sg =? "+")%char eqn:E2.
    { apply (Hgen false (String sg "") r'); [reflexivity|].
      simpl; now rewrite (eq_float_char _ _ E2 eq_refl). }
    apply (Hgen false "" (String sg r')); reflexivity.
Qed.

Lemma unsigned_decimal_chars (neg : bool) (s : string) (f : pyfloat) :
  unsigned_decimal neg s = Some f -> all_chars float_char s = true.
Proof.
  unfold unsigned_decimal.
  destruct (span_digits s) as [ip r1] eqn:E1.
  destruct (span_digits_split _ _ _ E1) as [-> Hip].
  apply (all_chars_weaken _ _ _ digit_float_char) in Hip.
  assert (H2 : exists point fp r2,
             match r1 with
             | String c r => if (c =? ".")%char then span_digits r
                             else (EmptyString, r1)
             | EmptyString => (EmptyString, r1)
             end = (fp, r2)
             /\ r1 = point ++ fp ++ r2
             /\ all_chars float_char (point ++ fp) = true).
  { destruct r1 as [|c r]; [exists "", "", ""; auto|].
    destruct (c =? ".")%char eqn:Ec.
    - destruct (span_digits r) as [fp r2] eqn:E2.
      destruct (span_digits_split _ _ _ E2) as [-> Hfp].
      exists (String c ""), fp, r2; repeat split.
      simpl; rewrite (eq_float_char _ _ Ec eq_refl).
      apply (all_chars_weaken _ _ _ digit_float_char Hfp).
    - exists "", "", (String c r); auto. }
  destruct H2 as (point & fp & r2 & -> & -> & Hfp).
  destruct (ip ++ fp); [discriminate|].
  rewrite !all_chars_app, Hip; simpl.
  rewrite all_chars_app in Hfp; apply andb_true_iff in Hfp as [Hp Hf].
  rewrite Hp, Hf; simpl.
  destruct (span_exponent r2) as [[ex r3]|] eqn:E3.
  - destruct (span_exponent_chars _ _ _ E3) as (used & -> & Hu).
    destruct r3; [|discriminate].
    intros _; now rewrite append_empty_r.
  - destruct r2; [reflexivity | discriminate].
Qed.

Lemma lower_word_chars (w target : string) :
  lower w = target ->
  all_chars (fun c => existsb (Ascii.eqb c)
                        ["i"; "n"; "f"; "t"; "y"; "a"]%char) target = true ->
  all_chars float_char w = true.
Proof.
  intros <-; induction w as [|c w IH]; [reflexivity|].
  cbn [lower all_chars]; intros H; apply andb_true_iff in H as [Hc Hw].
  rewrite (IH Hw), andb_true_r.
  unfold float_char; cbn [existsb] in *.
  repeat (apply orb_true_iff in Hc as [Hc|Hc]);
    try discriminate; rewrite Hc; cbn [orb]; now rewrite ?orb_true_r.
Qed.

Lemma special_chars (neg : bool) (s : string) (f : pyfloat) :
  special neg s = Some f -> all_chars float_char s = true.
Proof.
  unfold special.
  destruct (String.eqb (lower s) "inf") eqn:E1.
  { intros _; apply String.eqb_eq in E1.
    now apply (lower_word_chars _ _ E1). }
  destruct (String.eqb (lower s) "infinity") eqn:E2.
  { intros _; apply String.eqb_eq in E2.
    now apply (lower_word_chars _ _ E2). }
  cbn [orb].
  destruct (String.eqb (lower s) "nan") eqn:E3; [|discriminate].
  intros _; apply String.eqb_eq in E3.
  now apply (lower_word_chars _ _ E3).
Qed.

(** A text that [float] accepts is made of float characters. *)
Lemma float_of_str_chars (s : string) (f : pyfloat) :
  float_of_str s = Ok f -> all_chars float_char s = true.
Proof.
  unfold float_of_str.
  destruct (drop_underscores "000" (rstrip_float (lstrip_float s)))
    as [t|] eqn:Et; [|discriminate].
  assert (Hbody : forall neg body,
             match unsigned_decimal neg body with
             | Some f0 => Some f0
             | None => special neg body
             end <> None ->
             all_chars float_char body = true).
  { intros neg body H.
    destruct (unsigned_decimal neg body) eqn:E;
      [now apply unsigned_decimal_chars in E|].
    destruct (special neg body) eqn:E'; [|congruence].
    now apply special_chars in E'. }
  assert (Ht : match
                 (let (neg, body) :=
                    match t with
                    | String c r =>
                        if (c =? "-")%char then (true, r)
                        else if (c =? "+")%char then (false, r)
                        else (false, t)
                    | EmptyString => (false, t)
                    end in
                  match unsigned_decimal neg body with
                  | Some f0 => Some f0
                  | None => special neg body
                  end)
               with
               | Some f0 => Ok f0
               | None => Raise (ValueError_float s)
               end = Ok f ->
               all_chars float_char t = true).
  { destruct t as [|c r].
    - intros H; apply (Hbody false "").
      destruct (match unsigned_decimal false "" with
                | Some f0 => Some f0 | None => special false "" end);
        [discriminate | discriminate].
    - destruct (c =? "-")%char eqn:E1.
      { intros H; simpl; rewrite (eq_float_char _ _ E1 eq_refl).
        apply (Hbody true r).
        destruct (match unsigned_decimal true r with
                  | Some f0 => Some f0 | None => special true r end);
          [discriminate | discriminate]. }
      destruct (c =? "+")%char eqn:E2.
      { intros H; simpl; rewrite (eq_float_char _ _ E2 eq_refl).
        apply (Hbody false r).
        destruct (match unsigned_decimal false r with
                  | Some f0 => Some f0 | None => special false r end);
          [discriminate | discriminate]. }
      intros H; apply (Hbody false (String c r)).
      destruct (match unsigned_decimal false (String c r) with
                | Some f0 => Some f0 | None => special false (String c r)
                end); [discriminate | discriminate]. }
  intros H; apply Ht in H.
  apply (lstrip_float_chars _ _ space_float_char).
  apply (rstrip_float_chars _ _ space_float_char).
  now apply (drop_underscores_chars float_char _ eq_refl _ _ Et).
Qed.

(** X20.  A confidence given as text is converted by [float]: a text
    with a character that no float literal has, such as a percent sign,
    makes field extraction raise [ValueError], whatever the other
    fields are; the same holds for [pest_confidence] beside a confidence
    that converts. *)
Theorem confidence_text_must_be_numeric
        (py : interpreter) (cls : dataclass) (d : pydict) (s : string) :
  all_chars float_char s = false ->
  (Dict.lookup d "confidence" = Some (PyStr s) ->
   make_result py cls (PyDict d) = Raise (ValueError_float s))
  /\ (forall c, py_float py (Dict.get d "confidence" (PyInt 0)) = Ok c ->
                Dict.lookup d "pest_confidence" = Some (PyStr s) ->
                make_result py cls (PyDict d) = Raise (ValueError_float s)).
Proof.
  intros Hs.
  assert (Hf : py_float py (PyStr s) = Raise (ValueError_float s)).
  { cbn [py_float]; destruct (float_of_str s) as [f|e] eqn:E.
    - apply float_of_str_chars in E; congruence.
    - revert E; unfold float_of_str.
      destruct (match drop_underscores _ _ with Some _ => _ | None => _ end);
        [discriminate | intros H; exact (eq_sym H)]. }
  split.
  - intros H; unfold make_result, Dict.get; simpl; now rewrite H, Hf.
  - intros c Hc H; unfold make_result; simpl; rewrite Hc; simpl.
    unfold Dict.get; now rewrite H, Hf.
Qed.

Lemma confidence_text_must_be_numeric_witness :
  make_result py0 (define_class t0)
    (PyDict [("disease_detected", PyBool true); ("confidence", PyStr "85%")])
  = Raise (ValueError_float "85%").
Proof.
  apply (confidence_text_must_be_numeric py0 (define_class t0)
           [("disease_detected", PyBool true); ("confidence", PyStr "85%")]
           "85%" eq_refl).
  reflexivity.
Defined.

End FloatTextFacts.

